(** * The request orchestration engine of amazon-sp-api

    A shallow embedding of [lib/SellingPartner.js] (and of [lib/CustomError.js]):
    the constructor, version resolution over the endpoint registry, the token
    manager and the exchange of an authorization code, the [callAPI]
    dispatcher with its two retry branches, the report poller, the document
    download, plain and streamed, and the upload of a feed.

    Conventions of the embedding.
    - A JavaScript value is a [JS.value]; objects are association lists in
      insertion order, property reads look at own properties only. A read of
      the source also finds the names that an object inherits
      ([JS.inherited]): the theorems on the version pins and on the token of
      a scope, whose keys a caller chooses freely, assume a key that is not
      inherited; the name of an operation reaches the version resolution of
      [callAPI] only once it is found among the operations of its endpoint.
    - Strings are sequences of ASCII characters; [toUpperCase], [toLowerCase]
      and the character classes of the regular expressions are the ASCII
      ones, which are those of the engine on ASCII strings
      ([Notions.ascii_only]): the theorems on the normalized code of an error
      assume such a code.
    - Numbers are IEEE 754 binary64 values, the kernel's primitive floats.
    - What the client takes from outside (the transport, [JSON.parse],
      [JSON.stringify], number printing, the endpoint registry, zlib, iconv,
      the XML and CSV parsers, the file system) is a parameter of the
      development, never a definition of it.
    - An [async] function is a state-passing function over the client's
      mutable fields, the scripted answers of the remote side and the trace of
      effects; a [throw] or a rejected promise is the outcome [Throw]. *)

From Stdlib Require Import String Ascii List ZArith Lia Bool DecimalString.
From Stdlib Require Import PrimFloat FloatOps SpecFloat.
From stdpp Require Import gmap strings.

(** ** The fragment of the JavaScript runtime the client relies on *)

Module JS.

#[local] Unset Elimination Schemes.
Inductive value : Type :=
| VUndefined
| VNull
| VBool (b : bool)
| VNum (n : float)
| VStr (s : string)
| VArr (items : list value)
| VObj (props : list (string * value)).

#[local] Set Elimination Schemes.

(** [ToBoolean]. *)
Definition truthy (v : value) : bool :=
  match v with
  | VUndefined | VNull => false
  | VBool b => b
  | VNum n => negb (PrimFloat.eqb n 0 || PrimFloat.is_nan n)
  | VStr s => negb (String.eqb s "")
  | VArr _ | VObj _ => true
  end.

(** [a || b] on values. *)
Definition logical_or (a b : value) : value := if truthy a then a else b.

(** [v === "s"]. *)
Definition is_str (v : value) (s : string) : bool :=
  match v with VStr t => String.eqb t s | _ => false end.

(** *** Characters and strings *)

Definition code (c : ascii) : Z := Z.of_nat (nat_of_ascii c).
Definition is_upper (c : ascii) : bool := (65 <=? code c)%Z && (code c <=? 90)%Z.
Definition is_lower (c : ascii) : bool := (97 <=? code c)%Z && (code c <=? 122)%Z.
Definition is_letter (c : ascii) : bool := is_upper c || is_lower c.

Definition upper_char (c : ascii) : ascii :=
  if is_lower c then ascii_of_nat (nat_of_ascii c - 32) else c.
Definition lower_char (c : ascii) : ascii :=
  if is_upper c then ascii_of_nat (nat_of_ascii c + 32) else c.

Fixpoint map_chars (f : ascii -> ascii) (s : string) : string :=
  match s with
  | EmptyString => EmptyString
  | String c r => String (f c) (map_chars f r)
  end.

(** [s.toUpperCase()], [s.toLowerCase()], as they are on a string of ASCII
    characters: character by character. (On other strings the engine's
    mapping is another one, and can change the length.) *)
Definition toUpperCase : string -> string := map_chars upper_char.
Definition toLowerCase : string -> string := map_chars lower_char.

(** The pieces of [r] around the zero-width matches of [(?=[A-Z])]: the piece
    that [r] starts with and the pieces that follow, each of which starts
    with an uppercase letter. *)
Fixpoint pieces (r : string) : string * list string :=
  match r with
  | EmptyString => (EmptyString, [])
  | String c r' =>
      let '(h, t) := pieces r' in
      if is_upper c then (EmptyString, String c h :: t) else (String c h, t)
  end.

(** [s.split(/(?=[A-Z])/)]. A match at index 0 is empty at the position the
    search starts from, so it splits nothing: the first character always
    belongs to the first piece. The empty string splits into [[""]]. *)
Definition split_before_upper (s : string) : list string :=
  match s with
  | EmptyString => [EmptyString]
  | String c r => let '(h, t) := pieces r in String c h :: t
  end.

(** [a.join(sep)] on an array of strings. *)
Definition join (sep : string) (a : list string) : string := String.concat sep a.

(** The double quote, and a text between double quotes. *)
Definition dq : string := String (ascii_of_nat 34) EmptyString.
Definition quoted (s : string) : string := dq +:+ s +:+ dq.

(** [s.replace(/\n/g, '')]. *)
Fixpoint strip_newlines (s : string) : string :=
  match s with
  | EmptyString => EmptyString
  | String c r =>
      if (code c =? 10)%Z then strip_newlines r else String c (strip_newlines r)
  end.

Fixpoint starts_with (p s : string) : bool :=
  match p, s with
  | EmptyString, _ => true
  | String a p', String b s' => Ascii.eqb a b && starts_with p' s'
  | String _ _, EmptyString => false
  end.

Fixpoint drop_chars (n : nat) (s : string) : string :=
  match n, s with
  | S n', String _ r => drop_chars n' r
  | _, _ => s
  end.

(** [s.includes(sub)]. *)
Fixpoint includes (sub s : string) : bool :=
  starts_with sub s ||
  match s with
  | EmptyString => false
  | String _ r => includes sub r
  end.

(** [s.split(sep)] for a one-character separator. *)
Fixpoint split_char (sep : ascii) (s : string) : list string :=
  match s with
  | EmptyString => [EmptyString]
  | String c r =>
      if Ascii.eqb c sep then EmptyString :: split_char sep r
      else match split_char sep r with
           | h :: t => String c h :: t
           | [] => [String c EmptyString]
           end
  end.

(** Line terminators, which [.] does not match. Of the four of ECMAScript the
    two ASCII ones. *)
Definition is_line_terminator (c : ascii) : bool :=
  (code c =? 10)%Z || (code c =? 13)%Z.

(** A match of [.*p] at the start of [s]. *)
Fixpoint dot_star_then (p s : string) : bool :=
  starts_with p s ||
  match s with
  | EmptyString => false
  | String c r => if is_line_terminator c then false else dot_star_then p r
  end.

(** [/access token.*expired/.test(s)]. *)
Fixpoint test_access_token_expired (s : string) : bool :=
  (starts_with "access token" s && dot_star_then "expired" (drop_chars 12 s)) ||
  match s with
  | EmptyString => false
  | String _ r => test_access_token_expired r
  end.

(** The first capture of the charset pattern, a [charset=] followed by a
    group of characters other than [;]: the text after the first [charset=]
    up to the next [;], when there is a match. *)
Fixpoint until_semicolon (s : string) : string :=
  match s with
  | EmptyString => EmptyString
  | String c r => if (code c =? 59)%Z then EmptyString else String c (until_semicolon r)
  end.

Fixpoint match_charset (s : string) : option string :=
  if starts_with "charset=" s then Some (until_semicolon (drop_chars 8 s))
  else match s with
       | EmptyString => None
       | String _ r => match_charset r
       end.

(** *** Numbers *)

(** The binary64 value nearest to an integer, and to a ratio of positive
    integers: the quotient is taken with more than 64 significant bits and a
    sticky bit, then rounded once. *)
Definition float_of_Z (m : Z) : float :=
  SF2Prim (binary_normalize prec emax m 0 false).

Definition float_of_ratio (n d : Z) : float :=
  if (n =? 0)%Z then 0%float
  else
    let s := Z.max 0 (64 + Z.log2 d - Z.log2 n) in
    let '(q, r) := Z.div_eucl (n * 2 ^ s) d in
    SF2Prim (binary_normalize prec emax
               (2 * q + (if (r =? 0)%Z then 0 else 1)) (- (s + 1)) false).

(** The value [m * 10^k] of a decimal literal with [digits] digits. Beyond
    the range of binary64 the result is known without the division. *)
Definition float_of_decimal (m : Z) (digits : nat) (k : Z) : float :=
  if (m =? 0)%Z then 0%float
  else if (310 <? k)%Z then infinity
  else if (Z.of_nat digits + k <? -330)%Z then 0%float
  else if (0 <=? k)%Z then float_of_Z (m * 10 ^ k)
  else float_of_ratio m (10 ^ (- k)).

Definition digit_val (base : Z) (c : ascii) : option Z :=
  let n := code c in
  let d := if (48 <=? n)%Z && (n <=? 57)%Z then (n - 48)%Z
           else if (97 <=? n)%Z && (n <=? 102)%Z then (n - 87)%Z
           else if (65 <=? n)%Z && (n <=? 70)%Z then (n - 55)%Z
           else (-1)%Z in
  if (0 <=? d)%Z && (d <? base)%Z then Some d else None.

(** Reads the longest run of digits of [s]: the accumulated value, the
    number of digits read, and the rest. *)
Fixpoint read_digits (base acc : Z) (cnt : nat) (s : string) : Z * nat * string :=
  match s with
  | EmptyString => (acc, cnt, s)
  | String c r =>
      match digit_val base c with
      | Some d => read_digits base (acc * base + d)%Z (S cnt) r
      | None => (acc, cnt, s)
      end
  end.

Definition is_white_space (c : ascii) : bool :=
  ((9 <=? code c)%Z && (code c <=? 13)%Z) || (code c =? 32)%Z.

Fixpoint trim_start (s : string) : string :=
  match s with
  | String c r => if is_white_space c then trim_start r else s
  | EmptyString => s
  end.

Fixpoint trim_end (s : string) : string :=
  match s with
  | EmptyString => EmptyString
  | String c r =>
      let r' := trim_end r in
      if is_white_space c && String.eqb r' "" then EmptyString else String c r'
  end.

(** The optional [e] or [E] part of a decimal literal, which must end the
    literal: [None] when what follows the mantissa is not an exponent. *)
Definition read_exponent (s : string) : option Z :=
  match s with
  | EmptyString => Some 0%Z
  | String c r =>
      if (code c =? 101)%Z || (code c =? 69)%Z then
        let '(neg, r1) :=
          match r with
          | String d r' =>
              if (code d =? 45)%Z then (true, r')
              else if (code d =? 43)%Z then (false, r') else (false, r)
          | EmptyString => (false, r)
          end in
        match read_digits 10 0 0 r1 with
        | (e, S _, EmptyString) => Some (if neg then - e else e)%Z
        | _ => None
        end
      else None
  end.

(** [StrUnsignedDecimalLiteral]: [Infinity], or digits with an optional
    fraction and exponent. *)
Definition unsigned_decimal (s : string) : float :=
  if String.eqb s "Infinity" then infinity
  else
    let '(m1, n1, r1) := read_digits 10 0 0 s in
    let '(m, n2, r2) :=
      match r1 with
      | String c r' =>
          if (code c =? 46)%Z then read_digits 10 m1 0 r' else (m1, 0, r1)
      | EmptyString => (m1, 0, r1)
      end in
    match (n1 + n2)%nat, read_exponent r2 with
    | S _, Some e => float_of_decimal m (n1 + n2) (e - Z.of_nat n2)
    | _, _ => nan
    end.

(** [0x], [0o] and [0b] literals, which take no sign. *)
Definition non_decimal (s : string) : option float :=
  match s with
  | String z (String b r) =>
      if (code z =? 48)%Z then
        let base :=
          if (code b =? 120)%Z || (code b =? 88)%Z then 16%Z
          else if (code b =? 111)%Z || (code b =? 79)%Z then 8%Z
          else if (code b =? 98)%Z || (code b =? 66)%Z then 2%Z
          else 0%Z in
        if (base =? 0)%Z then None
        else match read_digits base 0 0 r with
             | (m, S _, EmptyString) => Some (float_of_Z m)
             | _ => Some nan
             end
      else None
  | _ => None
  end.

(** [StringToNumber]: the numeric reading of a string. *)
Definition StringToNumber (s : string) : float :=
  let t := trim_end (trim_start s) in
  match t with
  | EmptyString => 0%float
  | String c r =>
      match non_decimal t with
      | Some f => f
      | None =>
          if (code c =? 45)%Z then (- unsigned_decimal r)%float
          else if (code c =? 43)%Z then unsigned_decimal r
          else unsigned_decimal t
      end
  end.

(** [ToNumber]. An array goes through its [join(",")]: the empty array reads
    as the empty string, an array of two or more elements has a comma and is
    no number, and a one-element array reads as its element printed; a
    printed number reads back as itself (the negative zero as zero). *)
Fixpoint ToNumber (v : value) : float :=
  match v with
  | VUndefined => nan
  | VNull => 0%float
  | VBool b => if b then 1%float else 0%float
  | VNum n => n
  | VStr s => StringToNumber s
  | VObj _ => nan
  | VArr [] => 0%float
  | VArr [x] =>
      match x with
      | VUndefined | VNull => 0%float
      | VNum n => (n + 0)%float
      | VStr s => StringToNumber s
      | VArr _ => ToNumber x
      | VBool _ | VObj _ => nan
      end
  | VArr _ => nan
  end.

(** [isNaN(v)]. *)
Definition isNaN (v : value) : bool := PrimFloat.is_nan (ToNumber v).

(** *** Printing numbers: [Number::toString] in radix 10 *)

Definition digits_of (z : Z) : string :=
  NilZero.string_of_uint (N.to_uint (Z.to_N z)).

Fixpoint zeros (n : nat) : string :=
  match n with
  | O => EmptyString
  | S n' => String "0" (zeros n')
  end.

Fixpoint take_chars (n : nat) (s : string) : string :=
  match n, s with
  | S n', String c r => String c (take_chars n' r)
  | _, _ => EmptyString
  end.

(** Whether [p/q < 10^n]. *)
Definition lt_pow10 (p q n : Z) : bool :=
  if (0 <=? n)%Z then (p <? q * 10 ^ n)%Z else (p * 10 ^ (- n) <? q)%Z.

Fixpoint first_above (fuel : nat) (p q n : Z) : Z :=
  match fuel with
  | O => n
  | S fuel' => if lt_pow10 p q n then n else first_above fuel' p q (n + 1)
  end.

(** The [n] with [10^(n-1) <= p/q < 10^n], searched upwards from below an
    estimate by the binary logarithms. *)
Definition magnitude (p q : Z) : Z :=
  first_above 8 p q ((Z.log2 p - Z.log2 q) * 30103 / 100000 - 2).

(** The decimals of [k] digits next to [p/q], below and above; of those that
    read back as [x] the nearer one, the even one on a tie. *)
Definition shortest_step (x : float) (p q n k : Z) : option (Z * Z) :=
  let e := (n - k)%Z in
  let num := if (0 <=? e)%Z then p else (p * 10 ^ (- e))%Z in
  let den := if (0 <=? e)%Z then (q * 10 ^ e)%Z else q in
  let '(lo, rem) := Z.div_eucl num den in
  let hi := (lo + 1)%Z in
  let ok_lo := PrimFloat.eqb (float_of_decimal lo (Z.to_nat k) e) x in
  let ok_hi := PrimFloat.eqb (float_of_decimal hi (S (Z.to_nat k)) e) x in
  let up := if (hi =? 10 ^ k)%Z then (10 ^ (k - 1), n + 1)%Z else (hi, n) in
  match ok_lo, ok_hi with
  | true, true =>
      if (2 * rem <? den)%Z then Some (lo, n)
      else if (den <? 2 * rem)%Z then Some up
      else if Z.even lo then Some (lo, n) else Some up
  | true, false => Some (lo, n)
  | false, true => Some up
  | false, false => None
  end.

Fixpoint shortest (fuel : nat) (x : float) (p q n k : Z) : Z * Z :=
  match fuel with
  | O => (0, n)%Z
  | S fuel' =>
      match shortest_step x p q n k with
      | Some r => r
      | None => shortest fuel' x p q n (k + 1)
      end
  end.

(** The text of the decimal [0.d * 10^n] for the digit string [d]. *)
Definition format_decimal (d : string) (n : Z) : string :=
  let k := Z.of_nat (String.length d) in
  if (k <=? n)%Z && (n <=? 21)%Z then d +:+ zeros (Z.to_nat (n - k))
  else if (0 <? n)%Z && (n <=? 21)%Z then
    take_chars (Z.to_nat n) d +:+ "." +:+ drop_chars (Z.to_nat n) d
  else if (-6 <? n)%Z && (n <=? 0)%Z then "0." +:+ zeros (Z.to_nat (- n)) +:+ d
  else
    let e := (n - 1)%Z in
    (if (k =? 1)%Z then d else take_chars 1 d +:+ "." +:+ drop_chars 1 d)
    +:+ "e" +:+ (if (e <? 0)%Z then "-" else "+") +:+ digits_of (Z.abs e).

(** [Number::toString(x)]: the shortest decimal that reads back as [x]. *)
Definition number_to_string (x : float) : string :=
  match Prim2SF x with
  | S754_nan => "NaN"
  | S754_zero _ => "0"
  | S754_infinity s => if s then "-Infinity" else "Infinity"
  | S754_finite s m e =>
      let p := if (0 <=? e)%Z then (Z.pos m * 2 ^ e)%Z else Z.pos m in
      let q := if (0 <=? e)%Z then 1%Z else (2 ^ (- e))%Z in
      let '(digits, n) := shortest 17 (abs x) p q (magnitude p q) 1 in
      (if s then "-" else "") +:+ format_decimal (digits_of digits) n
  end.

(** *** Objects *)

Fixpoint lookup_prop (k : string) (o : list (string * value)) : option value :=
  match o with
  | [] => None
  | (k', v) :: o' => if String.eqb k' k then Some v else lookup_prop k o'
  end.

(** [o[k]] on an object. *)
Definition get_prop (k : string) (o : list (string * value)) : value :=
  match lookup_prop k o with Some v => v | None => VUndefined end.

(** [o[k] = v]: an existing property keeps its place. *)
Fixpoint set_prop (k : string) (v : value) (o : list (string * value))
  : list (string * value) :=
  match o with
  | [] => [(k, v)]
  | (k', v') :: o' =>
      if String.eqb k' k then (k, v) :: o' else (k', v') :: set_prop k v o'
  end.

(** [Object.assign(target, source)] on the properties of both. *)
Definition assign_props (target source : list (string * value))
  : list (string * value) :=
  fold_left (fun t kv => set_prop (fst kv) (snd kv) t) source target.

(** [ToString]. *)
Fixpoint ToString (v : value) : string :=
  match v with
  | VUndefined => "undefined"
  | VNull => "null"
  | VBool b => if b then "true" else "false"
  | VNum n => number_to_string n
  | VStr s => s
  | VObj _ => "[object Object]"
  | VArr l =>
      join "," (map (fun x => match x with
                              | VUndefined | VNull => EmptyString
                              | _ => ToString x
                              end) l)
  end.

(** A template literal: its pieces, each converted to a string. *)
Definition template (parts : list value) : string :=
  String.concat "" (map ToString parts).

(** The key of the element at index [i], and the index a canonical key names. *)
Definition index_key (i : nat) : string := digits_of (Z.of_nat i).

Definition array_index (k : string) : option nat :=
  match read_digits 10 0 0 k with
  | (z, S _, EmptyString) => if String.eqb (digits_of z) k then Some (Z.to_nat z) else None
  | _ => None
  end.

Fixpoint indexed {A : Type} (i : nat) (l : list A) : list (string * A) :=
  match l with
  | [] => []
  | x :: l' => (index_key i, x) :: indexed (S i) l'
  end.

Fixpoint chars (s : string) : list value :=
  match s with
  | EmptyString => []
  | String c r => VStr (String c EmptyString) :: chars r
  end.

(** The names that a plain object inherits from [Object.prototype]. A read
    [o[k]] of the source finds them, with a function or an object for value,
    when [o] has no property [k] of its own; [lookup_prop], [get_prop] and
    the maps of the client read own properties. *)
Definition Object_prototype_names : list string :=
  ["constructor"; "__defineGetter__"; "__defineSetter__"; "hasOwnProperty";
   "__lookupGetter__"; "__lookupSetter__"; "isPrototypeOf"; "propertyIsEnumerable";
   "toString"; "valueOf"; "__proto__"; "toLocaleString"].

Definition inherited (k : string) : bool :=
  existsb (String.eqb k) Object_prototype_names.

(** The own enumerable properties of a value, which [Object.assign] and the
    spread of an object literal copy: those of an object, the elements of an
    array, the characters of a string, none of another primitive. *)
Definition own_props (v : value) : list (string * value) :=
  match v with
  | VObj o => o
  | VArr l => indexed 0 l
  | VStr s => indexed 0 (chars s)
  | _ => []
  end.

(** *** Exceptions *)

(** What a [throw] carries: an instance of the client's [CustomError] with
    its properties, a [TypeError] of the runtime, or the failure of a
    collaborator (transport, file system, zlib, a builder). *)
Inductive error : Type :=
| CustomError (props : list (string * value))
| TypeError
| Failure (reason : value).

(** How a call ends. [Pending] is a call that has not settled: the remote
    side has not answered, or the bound on re-entries is used up. *)
Inductive outcome (A : Type) : Type :=
| Ok (a : A)
| Throw (e : error)
| Pending.
Arguments Ok {A} a.
Arguments Throw {A} e.
Arguments Pending {A}.

Definition obind {A B : Type} (x : outcome A) (f : A -> outcome B) : outcome B :=
  match x with
  | Ok a => f a
  | Throw e => Throw e
  | Pending => Pending
  end.

(** [v[k]] for the keys the client reads ([length], an index, a plain name):
    a [TypeError] on [undefined] and [null], an own property otherwise. *)
Definition prop (v : value) (k : string) : outcome value :=
  match v with
  | VUndefined | VNull => Throw TypeError
  | VObj o => Ok (get_prop k o)
  | VArr l =>
      if String.eqb k "length" then Ok (VNum (float_of_Z (Z.of_nat (List.length l))))
      else match array_index k with
           | Some i => Ok (nth i l VUndefined)
           | None => Ok VUndefined
           end
  | VStr s =>
      if String.eqb k "length" then Ok (VNum (float_of_Z (Z.of_nat (String.length s))))
      else match array_index k with
           | Some i => Ok (nth i (chars s) VUndefined)
           | None => Ok VUndefined
           end
  | VBool _ | VNum _ => Ok VUndefined
  end.

(** [v?.[k]]. *)
Definition opt_prop (v : value) (k : string) : value :=
  match prop v k with Ok x => x | _ => VUndefined end.

(** *** JSON *)

(** [JSON.parse] and [JSON.stringify] as the client is given them. The
    client's functions are stated for every such pair. *)
Class Runtime : Type := {
  JSON_parse : string -> option value;
  JSON_stringify : value -> value
}.

End JS.

(** ** An executable JSON, to run the client on concrete texts

    The ASCII fragment of [JSON.stringify] (without indentation) and of
    [JSON.parse]; an escape that names a character beyond ASCII is not read. *)

Module Json.
Import JS.

Definition hex_digit (n : Z) : ascii :=
  ascii_of_nat (Z.to_nat (if (n <? 10)%Z then n + 48 else n + 87)%Z).

(** [QuoteJSONString]. *)
Fixpoint escape (s : string) : string :=
  match s with
  | EmptyString => EmptyString
  | String c r =>
      let n := code c in
      (if (n =? 34)%Z then "\" +:+ String c EmptyString
       else if (n =? 92)%Z then "\\"
       else if (n =? 8)%Z then "\b"
       else if (n =? 12)%Z then "\f"
       else if (n =? 10)%Z then "\n"
       else if (n =? 13)%Z then "\r"
       else if (n =? 9)%Z then "\t"
       else if (n <? 32)%Z then
         "\u00" +:+ String (hex_digit (n / 16)) (String (hex_digit (n mod 16)) EmptyString)
       else String c EmptyString) +:+ escape r
  end.

Definition quote (s : string) : string :=
  let q := String (ascii_of_nat 34) EmptyString in q +:+ escape s +:+ q.

Definition is_finite (n : float) : bool :=
  negb (PrimFloat.is_nan n || PrimFloat.is_infinity n).

(** [JSON.stringify(v)]; [None] is the [undefined] it returns for [undefined]. *)
Fixpoint stringify (v : value) : option string :=
  match v with
  | VUndefined => None
  | VNull => Some "null"
  | VBool b => Some (if b then "true" else "false")
  | VNum n => Some (if is_finite n then number_to_string n else "null")
  | VStr s => Some (quote s)
  | VArr l =>
      Some ("[" +:+ join "," (map (fun x => match stringify x with
                                            | Some t => t
                                            | None => "null"
                                            end) l) +:+ "]")
  | VObj o =>
      Some ("{" +:+ join "," (flat_map (fun kv =>
                                let '(k, x) := kv in
                                match stringify x with
                                | Some t => [quote k +:+ ":" +:+ t]
                                | None => []
                                end) o) +:+ "}")
  end.

Definition is_json_space (c : ascii) : bool :=
  (code c =? 32)%Z || (code c =? 9)%Z || (code c =? 10)%Z || (code c =? 13)%Z.

Fixpoint skip_space (s : string) : string :=
  match s with
  | String c r => if is_json_space c then skip_space r else s
  | EmptyString => s
  end.

Definition is_digit (c : ascii) : bool := (48 <=? code c)%Z && (code c <=? 57)%Z.

Fixpoint span_digits (s : string) : string * string :=
  match s with
  | String c r =>
      if is_digit c then let '(d, r') := span_digits r in (String c d, r')
      else (EmptyString, s)
  | EmptyString => (EmptyString, s)
  end.

(** The longest prefix of [s] that is a JSON number, and the rest. *)
Definition span_number (s : string) : option (string * string) :=
  let '(sign, s1) :=
    match s with
    | String c r => if (code c =? 45)%Z then ("-", r) else (EmptyString, s)
    | EmptyString => (EmptyString, s)
    end in
  let '(int, s2) := span_digits s1 in
  match int with
  | EmptyString => None
  | String d more =>
      if (code d =? 48)%Z && negb (String.eqb more "") then None
      else
        let frac :=
          match s2 with
          | String c r =>
              if (code c =? 46)%Z then
                match span_digits r with
                | (EmptyString, _) => None
                | (f, s3) => Some ("." +:+ f, s3)
                end
              else Some (EmptyString, s2)
          | EmptyString => Some (EmptyString, s2)
          end in
        match frac with
        | None => None
        | Some (f, s3) =>
            let exp :=
              match s3 with
              | String c r =>
                  if (code c =? 101)%Z || (code c =? 69)%Z then
                    let '(sg, r1) :=
                      match r with
                      | String g r' =>
                          if (code g =? 45)%Z || (code g =? 43)%Z
                          then (String g EmptyString, r') else (EmptyString, r)
                      | EmptyString => (EmptyString, r)
                      end in
                    match span_digits r1 with
                    | (EmptyString, _) => None
                    | (ds, s4) => Some (String c sg +:+ ds, s4)
                    end
                  else Some (EmptyString, s3)
              | EmptyString => Some (EmptyString, s3)
              end in
            match exp with
            | None => None
            | Some (e, s4) => Some (sign +:+ int +:+ f +:+ e, s4)
            end
        end
  end.

(** The characters of a string literal after its opening quote, up to the
    closing one, and the rest. *)
Fixpoint span_string (s : string) : option (string * string) :=
  match s with
  | EmptyString => None
  | String c r =>
      if (code c =? 34)%Z then Some (EmptyString, r)
      else if (code c <? 32)%Z then None
      else if (code c =? 92)%Z then
        match r with
        | String e r' =>
            let plain (x : nat) :=
              match span_string r' with
              | Some (t, rest) => Some (String (ascii_of_nat x) t, rest)
              | None => None
              end in
            if (code e =? 34)%Z then plain 34%nat
            else if (code e =? 92)%Z then plain 92%nat
            else if (code e =? 47)%Z then plain 47%nat
            else if (code e =? 98)%Z then plain 8%nat
            else if (code e =? 102)%Z then plain 12%nat
            else if (code e =? 110)%Z then plain 10%nat
            else if (code e =? 114)%Z then plain 13%nat
            else if (code e =? 116)%Z then plain 9%nat
            else if (code e =? 117)%Z then
              match r' with
              | String h1 (String h2 (String h3 (String h4 r''))) =>
                  match digit_val 16 h1, digit_val 16 h2, digit_val 16 h3, digit_val 16 h4 with
                  | Some a, Some b, Some c', Some d =>
                      let u := (((a * 16 + b) * 16 + c') * 16 + d)%Z in
                      if (u <? 128)%Z then
                        match span_string r'' with
                        | Some (t, rest) => Some (String (ascii_of_nat (Z.to_nat u)) t, rest)
                        | None => None
                        end
                      else None
                  | _, _, _, _ => None
                  end
              | _ => None
              end
            else None
        | EmptyString => None
        end
      else
        match span_string r with
        | Some (t, rest) => Some (String c t, rest)
        | None => None
        end
  end.

(** One JSON value at the start of [s], after white space, and the rest. *)
Fixpoint parse_value (fuel : nat) (s : string) : option (value * string) :=
  match fuel with
  | O => None
  | S fuel' =>
      let s := skip_space s in
      if starts_with "null" s then Some (VNull, drop_chars 4 s)
      else if starts_with "true" s then Some (VBool true, drop_chars 4 s)
      else if starts_with "false" s then Some (VBool false, drop_chars 5 s)
      else
        match s with
        | EmptyString => None
        | String c r =>
            if (code c =? 34)%Z then
              match span_string r with
              | Some (t, rest) => Some (VStr t, rest)
              | None => None
              end
            else if (code c =? 91)%Z then
              match skip_space r with
              | String d r' =>
                  if (code d =? 93)%Z then Some (VArr [], r')
                  else match parse_elements fuel' r with
                       | Some (l, rest) => Some (VArr l, rest)
                       | None => None
                       end
              | EmptyString => None
              end
            else if (code c =? 123)%Z then
              match skip_space r with
              | String d r' =>
                  if (code d =? 125)%Z then Some (VObj [], r')
                  else match parse_members fuel' [] r with
                       | Some (o, rest) => Some (VObj o, rest)
                       | None => None
                       end
              | EmptyString => None
              end
            else
              match span_number s with
              | Some (lexeme, rest) => Some (VNum (StringToNumber lexeme), rest)
              | None => None
              end
        end
  end

with parse_elements (fuel : nat) (s : string) : option (list value * string) :=
  match fuel with
  | O => None
  | S fuel' =>
      match parse_value fuel' s with
      | Some (v, rest) =>
          match skip_space rest with
          | String d r =>
              if (code d =? 93)%Z then Some ([v], r)
              else if (code d =? 44)%Z then
                match parse_elements fuel' r with
                | Some (l, rest') => Some (v :: l, rest')
                | None => None
                end
              else None
          | EmptyString => None
          end
      | None => None
      end
  end

with parse_members (fuel : nat) (acc : list (string * value)) (s : string)
  : option (list (string * value) * string) :=
  match fuel with
  | O => None
  | S fuel' =>
      match skip_space s with
      | String q r =>
          if (code q =? 34)%Z then
            match span_string r with
            | Some (k, rest) =>
                match skip_space rest with
                | String colon r1 =>
                    if (code colon =? 58)%Z then
                      match parse_value fuel' r1 with
                      | Some (v, rest1) =>
                          let acc' := set_prop k v acc in
                          match skip_space rest1 with
                          | String d r2 =>
                              if (code d =? 125)%Z then Some (acc', r2)
                              else if (code d =? 44)%Z then parse_members fuel' acc' r2
                              else None
                          | EmptyString => None
                          end
                      | None => None
                      end
                    else None
                | EmptyString => None
                end
            | None => None
            end
          else None
      | EmptyString => None
      end
  end.

(** [JSON.parse(s)]; [None] is a [SyntaxError]. *)
Definition parse (s : string) : option value :=
  match parse_value (2 * String.length s + 2) s with
  | Some (v, rest) =>
      match skip_space rest with
      | EmptyString => Some v
      | String _ _ => None
      end
  | None => None
  end.

Definition runtime : Runtime := {|
  JSON_parse := parse;
  JSON_stringify := fun v => match stringify v with
                             | Some s => VStr s
                             | None => VUndefined
                             end
|}.

End Json.

(** ** [lib/CustomError.js] *)

Module Errors.
Import JS.

(** [new CustomError(err)] for an object [err]: every key is copied, the key
    [stacktrace] under the name [original_stacktrace], and [type] defaults to
    ['error']. The message that the [Error] constructor is given is the one
    the copy sets again; the stack is left out. *)
Definition CustomError_new (err : list (string * value)) : error :=
  let copied :=
    fold_left (fun this kv =>
                 if String.eqb (fst kv) "stacktrace"
                 then set_prop "original_stacktrace" (snd kv) this
                 else set_prop (fst kv) (snd kv) this) err [] in
  CustomError (set_prop "type" (logical_or (get_prop "type" err) (VStr "error")) copied).

(** The instance thrown with a [code] and a [message]. *)
Definition custom_error (code : string) (message : value) : error :=
  CustomError_new [("code", VStr code); ("message", message)].

(** The [code] an error carries. *)
Definition code_of (e : error) : value :=
  match e with
  | CustomError props => get_prop "code" props
  | TypeError | Failure _ => VUndefined
  end.

(** The [message] of an instance of [CustomError]. *)
Definition message_of (e : error) : value :=
  match e with
  | CustomError props => get_prop "message" props
  | TypeError | Failure _ => VUndefined
  end.

End Errors.

(** ** The endpoint registry ([lib/endpoints], read only) *)

Module Registry.
Import JS.

(* A decimal literal of the sources denotes the nearest binary64 value. *)
#[local] Set Warnings "-inexact-float".

(** What a call of a builder yields: the object it returns, and the state it
    leaves its argument in (the builders extend their argument in place). *)
Record built : Type := { returned : value; argument : value }.

Definition builder : Type := value -> outcome built.

(** An endpoint: its versions, oldest first, the names of its operations over
    all versions, and for each version the builders of the operations that
    version defines. *)
Record Endpoint : Type := {
  __versions : list string;
  __operations : list string;
  by_version : string -> gmap string builder
}.

(** [endpoints[endpoint][version][operation]], read for its truth value. *)
Definition defines (ep : Endpoint) (version operation : string) : bool :=
  match by_version ep version !! operation with
  | Some _ => true
  | None => false
  end.

(** [Object.assign(req_params, fields)] as a builder ends: the argument is
    extended in place and returned. A builder is only ever called on an
    object, [callAPI] having read its [operation]. *)
Definition extend (req_params : value) (fields : list (string * value))
  : outcome built :=
  match req_params with
  | VObj o =>
      let r := VObj (assign_props o fields) in
      Ok {| returned := r; argument := r |}
  | _ => Throw TypeError
  end.

(** The operation table that is part of the sources (a version [v0] with
    five operations). [checkAndEncodeParams] belongs to [lib/utils]. *)
Section OperationTable.
Variable checkAndEncodeParams : value -> value -> outcome value.

Definition shipmentId_spec : value :=
  VObj [("path", VObj [("shipmentId", VObj [("type", VStr "string")])])].

Definition getEligibleShipmentServices : builder := fun req_params =>
  extend req_params
    [("method", VStr "POST");
     ("api_path", VStr "/mfn/v0/eligibleShippingServices");
     ("restore_rate", VNum 0.167)].

Definition shipment_path (req_params : value) : outcome string :=
  obind (prop req_params "path") (fun path =>
  obind (prop path "shipmentId") (fun id =>
  Ok ("/mfn/v0/shipments/" +:+ ToString id))).

Definition getShipment : builder := fun req_params =>
  obind (checkAndEncodeParams req_params shipmentId_spec) (fun req_params =>
  obind (shipment_path req_params) (fun api_path =>
  extend req_params
    [("method", VStr "GET"); ("api_path", VStr api_path); ("restore_rate", VNum 1)])).

Definition cancelShipment : builder := fun req_params =>
  obind (checkAndEncodeParams req_params shipmentId_spec) (fun req_params =>
  obind (shipment_path req_params) (fun api_path =>
  extend req_params
    [("method", VStr "DELETE"); ("api_path", VStr api_path); ("restore_rate", VNum 1)])).

Definition createShipment : builder := fun req_params =>
  extend req_params
    [("method", VStr "POST");
     ("api_path", VStr "/mfn/v0/shipments");
     ("restore_rate", VNum 0.5)].

Definition getAdditionalSellerInputs : builder := fun req_params =>
  extend req_params
    [("method", VStr "POST");
     ("api_path", VStr "/mfn/v0/additionalSellerInputs");
     ("restore_rate", VNum 1)].

Definition v0 : gmap string builder :=
  <["getEligibleShipmentServices" := getEligibleShipmentServices]>
  (<["getShipment" := getShipment]>
  (<["cancelShipment" := cancelShipment]>
  (<["createShipment" := createShipment]>
  (<["getAdditionalSellerInputs" := getAdditionalSellerInputs]> ∅)))).
End OperationTable.

End Registry.

(** ** The transport ([lib/Request], consumed through its contract) *)

Module Http.
Import JS.

Definition bytes : Type := list Byte.byte.

(** What [execute] and [api] resolve with. Header names are lower case, as
    Node delivers them. *)
Record Response : Type := {
  statusCode : Z;
  headers : option (list (string * string));
  body : string;
  chunks : list bytes
}.

Fixpoint assoc (k : string) (l : list (string * string)) : option string :=
  match l with
  | [] => None
  | (k', v) :: l' => if String.eqb k' k then Some v else assoc k l'
  end.

(** [res?.headers?.[name]]. *)
Definition header (res : Response) (name : string) : value :=
  match headers res with
  | Some hs => match assoc name hs with Some v => VStr v | None => VUndefined end
  | None => VUndefined
  end.

(** [Buffer.concat(chunks)]. *)
Definition Buffer_concat (cs : list bytes) : bytes := List.concat cs.

(** What a download holds: the bytes of a [Buffer], or a value (the decoded
    text or what a parser made of it). *)
Inductive content : Type :=
| Buffer (b : bytes)
| Data (v : value).

(** [Buffer.prototype.toJSON], which [JSON.stringify] goes through. *)
Definition Buffer_toJSON (b : bytes) : value :=
  VObj [("type", VStr "Buffer");
        ("data", VArr (map (fun x => VNum (float_of_Z (Z.of_N (Byte.to_N x)))) b))].

End Http.

(** ** [lib/SellingPartner.js]: the client *)

Module SellingPartner.
Import JS Errors Registry Http.

(** The options the orchestration reads, after the defaults of the
    constructor; each toggle is read for its truth value only. *)
Record Options : Type := {
  auto_request_tokens : bool;
  auto_request_throttled : bool;
  use_sandbox : bool;
  only_grantless_operations : bool;
  version_fallback : bool;
  debug_log : bool;
  timeouts : value
}.

Definition default_options : Options := {|
  auto_request_tokens := true;
  auto_request_throttled := true;
  use_sandbox := false;
  only_grantless_operations := false;
  version_fallback := true;
  debug_log := false;
  timeouts := VObj []
|}.

(** The mutable fields of an instance. [_grantless_tokens] is the object
    used as a map from scope to token, [_endpoints_versions] the validated
    version pins of the constructor. *)
Record Client : Type := {
  _refresh_token : value;
  _access_token : value;
  _grantless_tokens : gmap string value;
  _options : Options;
  _current_call_timeouts : value;
  _endpoints_versions : gmap string string;
  app_client_id : value;
  app_client_secret : value
}.

Definition with_access_token (token : value) (c : Client) : Client :=
  {| _refresh_token := _refresh_token c;
     _access_token := token;
     _grantless_tokens := _grantless_tokens c;
     _options := _options c;
     _current_call_timeouts := _current_call_timeouts c;
     _endpoints_versions := _endpoints_versions c;
     app_client_id := app_client_id c;
     app_client_secret := app_client_secret c |}.

Definition with_grantless_token (scope : string) (token : value) (c : Client) : Client :=
  {| _refresh_token := _refresh_token c;
     _access_token := _access_token c;
     _grantless_tokens := <[scope := token]> (_grantless_tokens c);
     _options := _options c;
     _current_call_timeouts := _current_call_timeouts c;
     _endpoints_versions := _endpoints_versions c;
     app_client_id := app_client_id c;
     app_client_secret := app_client_secret c |}.

Definition with_current_call_timeouts (t : value) (c : Client) : Client :=
  {| _refresh_token := _refresh_token c;
     _access_token := _access_token c;
     _grantless_tokens := _grantless_tokens c;
     _options := _options c;
     _current_call_timeouts := t;
     _endpoints_versions := _endpoints_versions c;
     app_client_id := app_client_id c;
     app_client_secret := app_client_secret c |}.

(** [this._grantless_tokens[scope]], for a scope that is no name the object
    inherits ([inherited]). *)
Definition grantless_token (c : Client) (scope : value) : value :=
  match _grantless_tokens c !! ToString scope with
  | Some t => t
  | None => VUndefined
  end.

(** *** Effects *)

(** What a call does to the outside, in order. *)
Inductive Event : Type :=
| Execute (req : value)
| Api (token : value) (req_params : value)
| Wait (seconds : value)
| Warn (kind : string) (arg : value)
| ConsoleLog (message : string)
| WriteFile (file : value) (data : content).

(** The instance, the answers the remote side will give to the requests to
    come, in order, and what has been done so far. *)
Record World : Type := {
  this : Client;
  remote : list (outcome Response);
  trace : list Event
}.

Definition M (A : Type) : Type := World -> outcome A * World.

Definition ret {A : Type} (a : A) : M A := fun w => (Ok a, w).
Definition throw {A : Type} (e : error) : M A := fun w => (Throw e, w).
Definition lift {A : Type} (x : outcome A) : M A := fun w => (x, w).

Definition bind {A B : Type} (m : M A) (k : A -> M B) : M B := fun w =>
  match m w with
  | (Ok a, w') => k a w'
  | (Throw e, w') => (Throw e, w')
  | (Pending, w') => (Pending, w')
  end.

#[local] Notation "'do' x <- m ; k" := (bind m (fun x => k))
  (at level 10, x name, m at level 100, k at level 200, only parsing).
#[local] Notation "'do' ' p <- m ; k" := (bind m (fun x => let 'p := x in k))
  (at level 10, p pattern, m at level 100, k at level 200, only parsing).
#[local] Notation "m ;; k" := (bind m (fun _ => k))
  (at level 100, k at level 200, right associativity, only parsing).

Definition client : M Client := fun w => (Ok (this w), w).

Definition update (f : Client -> Client) : M unit := fun w =>
  (Ok tt, {| this := f (this w); remote := remote w; trace := trace w |}).

Definition emit (e : Event) : M unit := fun w =>
  (Ok tt, {| this := this w; remote := remote w; trace := trace w ++ [e] |}).

Definition when (b : bool) (m : M unit) : M unit := if b then m else ret tt.

(** The next answer of the remote side. *)
Definition answer : M Response := fun w =>
  match remote w with
  | [] => (Pending, w)
  | r :: rest => (r, {| this := this w; remote := rest; trace := trace w |})
  end.

(** [this._request.execute(req)] and [this._request.api(token, req_params)]. *)
Definition execute (req : value) : M Response := emit (Execute req) ;; answer.
Definition api (token req_params : value) : M Response :=
  emit (Api token req_params) ;; answer.

(** [this._wait(restore_rate)]: the timer is set to [restore_rate * 1000] ms. *)
Definition _wait (restore_rate : value) : M unit := emit (Wait restore_rate).

(** The delays slept, in order. *)
Definition waits (t : list Event) : list value :=
  flat_map (fun e => match e with Wait s => [s] | _ => [] end) t.

Definition console_log (c : Client) (parts : list value) : M unit :=
  when (debug_log (_options c)) (emit (ConsoleLog (template parts))).

(** *** Version resolution *)

(** [a.indexOf(x)] on an array of strings: the first index, or [-1]. *)
Fixpoint indexOf (a : list string) (x : string) : Z :=
  match a with
  | [] => (-1)%Z
  | y :: a' =>
      if String.eqb y x then 0%Z
      else let i := indexOf a' x in if (i <? 0)%Z then (-1)%Z else (i + 1)%Z
  end.

(** [a.slice(0, e)]: a negative [e] counts from the end. *)
Definition slice_to {A : Type} (a : list A) (e : Z) : list A :=
  let len := Z.of_nat (List.length a) in
  let k := if (e <? 0)%Z then Z.max (len + e) 0 else Z.min e len in
  firstn (Z.to_nat k) a.

(** [a.includes(v)] on an array of strings. *)
Definition includes_value (a : list string) (v : value) : bool :=
  match v with
  | VStr s => existsb (String.eqb s) a
  | _ => false
  end.

(** What a pass through [callAPI] ends with: a result, or the request
    parameters with which it calls itself again. *)
Inductive step (A : Type) : Type :=
| Done (a : A)
| Reenter (req_params : value).
Arguments Done {A} a.
Arguments Reenter {A} req_params.

(** What [callAPI] resolves with: a value, the response itself when
    [raw_result] is set, or the target of an [Object.assign] that is no plain
    object (an array, or a primitive in its wrapper) together with the
    properties assigned to it. *)
Inductive api_result : Type :=
| Plain (v : value)
| RawResult (res : Response)
| Assigned (target : value) (props : list (string * value)).

(** [Object.assign(target, source)]. *)
Definition Object_assign (target source : value) : api_result :=
  match target with
  | VObj o => Plain (VObj (assign_props o (own_props source)))
  | _ => Assigned target (own_props source)
  end.

Definition valid_scopes : list string :=
  ["sellingpartnerapi::notifications"; "sellingpartnerapi::client_credential:rotation"].

Definition token_url : string := "https://api.amazon.com/auth/o2/token".

Section Client.
Context `{Runtime}.
(** The registry, [require('./endpoints')]. *)
Variable endpoints : gmap string Endpoint.

(** [endpoints[endpoint]] where the source goes on to read a property of
    it: a [TypeError] when there is no such endpoint. *)
Definition the_endpoint (endpoint : string) : outcome Endpoint :=
  match endpoints !! endpoint with
  | Some ep => Ok ep
  | None => Throw TypeError
  end.

(** The constructor's check of the version pins of its configuration
    (lines 103 to 125). It returns the pins it is given: here as the map from
    endpoint to version that the client keeps of them. *)
Definition _validateEndpointsVersions (endpoints_versions : list (string * value))
  : outcome (gmap string string) :=
  let keys := map fst endpoints_versions in
  let invalid_endpoints :=
    List.filter (fun endpoint => match endpoints !! endpoint with
                                 | Some _ => false
                                 | None => true
                                 end) keys in
  match invalid_endpoints with
  | _ :: _ =>
      Throw (custom_error "VERSION_DEFINED_FOR_INVALID_ENDPOINTS"
               (VStr ("One or more endpoints are not valid. These endpoints don't exist: "
                      +:+ join "," invalid_endpoints)))
  | [] =>
      let invalid_endpoints_versions :=
        List.filter (fun endpoint =>
                       match endpoints !! endpoint with
                       | Some ep =>
                           negb (includes_value (__versions ep)
                                   (get_prop endpoint endpoints_versions))
                       | None => true
                       end) keys in
      match invalid_endpoints_versions with
      | _ :: _ =>
          Throw (custom_error "INVALID_VERSION_FOR_ENDPOINTS"
                   (VStr ("The provided version for the following endpoint(s) is not valid: "
                          +:+ join "," invalid_endpoints_versions)))
      | [] =>
          Ok (list_to_map
                (map (fun endpoint =>
                        (endpoint, ToString (get_prop endpoint endpoints_versions)))
                     keys))
      end
  end.

Definition no_valid_method : error :=
  custom_error "NO_VALID_METHOD_PROVIDED"
    (VStr ("Please provide a valid HTTP Method (" +:+ quoted "GET" +:+ ","
           +:+ quoted "POST" +:+ "," +:+ quoted "PUT" +:+ "," +:+ quoted "DELETE"
           +:+ " or " +:+ quoted "PATCH" +:+ ") when using " +:+ quoted "api_path")).

Definition _validateMethod (method : value) : outcome value :=
  if negb (truthy method) then Throw no_valid_method
  else
    match method with
    | VStr m =>
        if existsb (String.eqb (toUpperCase m)) ["GET"; "POST"; "PUT"; "DELETE"; "PATCH"]
        then Ok (VStr (toUpperCase m))
        else Throw no_valid_method
    | _ => Throw TypeError
    end.

(** Returns the operation and the key of the endpoint. *)
Definition _validateOperationAndEndpoint (operation endpoint : value)
  : outcome (string * string) :=
  if negb (truthy operation) then
    Throw (custom_error "NO_OPERATION_GIVEN" (VStr "Please provide an operation to call"))
  else
    obind
      (match operation with
       | VStr op =>
           if includes "." op then
             let op_split := split_char "." op in
             Ok (VStr (nth 1 op_split EmptyString), VStr (nth 0 op_split EmptyString))
           else if negb (truthy endpoint) then
             Throw (custom_error "NO_ENDPOINT_GIVEN" (VStr "Please provide an endpoint to call"))
           else Ok (operation, endpoint)
       | VArr l =>
           if existsb (fun x => is_str x ".") l then Throw TypeError
           else if negb (truthy endpoint) then
             Throw (custom_error "NO_ENDPOINT_GIVEN" (VStr "Please provide an endpoint to call"))
           else Ok (operation, endpoint)
       | _ => Throw TypeError
       end)
      (fun '(operation, endpoint) =>
         match endpoints !! ToString endpoint with
         | None =>
             Throw (custom_error "ENDPOINT_NOT_FOUND"
                      (VStr (template [VStr "No endpoint found: "; endpoint])))
         | Some ep =>
             match operation with
             | VStr op =>
                 if existsb (String.eqb op) (__operations ep)
                 then Ok (op, ToString endpoint)
                 else Throw (custom_error "INVALID_OPERATION_FOR_ENDPOINT"
                               (VStr (template [VStr "The operation "; operation;
                                                VStr " is not valid for endpoint "; endpoint])))
             | _ =>
                 Throw (custom_error "INVALID_OPERATION_FOR_ENDPOINT"
                          (VStr (template [VStr "The operation "; operation;
                                           VStr " is not valid for endpoint "; endpoint])))
             end
         end).

Definition _getFallbackVersion (c : Client) (operation endpoint version : string)
  : outcome string :=
  obind (the_endpoint endpoint) (fun ep =>
  let version_index := indexOf (__versions ep) version in
  let fallback_version :=
    find (fun __version => defines ep __version operation)
         (rev (slice_to (__versions ep) version_index)) in
  let not_found :=
    custom_error "OPERATION_NOT_FOUND_FOR_VERSION"
      (VStr (template [VStr "Operation "; VStr operation;
                       VStr " not found for version "; VStr version])) in
  match fallback_version with
  | Some v =>
      if negb (version_fallback (_options c)) || String.eqb v ""
      then Throw not_found
      else Ok v
  | None => Throw not_found
  end).

(** The version was set in the options of the call. *)
Definition _validateLocallySetVersion (c : Client) (operation endpoint : string)
  (version : value) : outcome string :=
  obind (the_endpoint endpoint) (fun ep =>
  let invalid :=
    custom_error "INVALID_VERSION"
      (VStr (template [VStr "Invalid version "; version;
                       VStr " for endpoint "; VStr endpoint;
                       VStr " and operation "; VStr operation;
                       VStr ". Should be one of: ";
                       VStr (join (dq +:+ "," +:+ dq) (__versions ep))])) in
  match version with
  | VStr v =>
      if existsb (String.eqb v) (__versions ep) then
        if negb (defines ep v operation)
        then _getFallbackVersion c operation endpoint v
        else Ok v
      else Throw invalid
  | _ => Throw invalid
  end).

(** The version was not set in the options of the call. [None] is the
    [undefined] that [find] returns when no version defines the operation. *)
Definition _validateGloballySetVersion (c : Client) (operation endpoint : string)
  : outcome (option string) :=
  obind (the_endpoint endpoint) (fun ep =>
  match _endpoints_versions c !! endpoint with
  | Some version =>
      if String.eqb version "" then
        Ok (find (fun __version => defines ep __version operation) (__versions ep))
      else if negb (defines ep version operation)
      then obind (_getFallbackVersion c operation endpoint version) (fun v => Ok (Some v))
      else Ok (Some version)
  | None =>
      Ok (find (fun __version => defines ep __version operation) (__versions ep))
  end).

Definition _validateAndGetVersion (c : Client) (operation endpoint : string)
  (version : value) : outcome (option string) :=
  if truthy version
  then obind (_validateLocallySetVersion c operation endpoint version)
             (fun v => Ok (Some v))
  else _validateGloballySetVersion c operation endpoint.

(** *** The token manager *)

Definition _constructRefreshAccessTokenBody (c : Client) (scope : value)
  : outcome value :=
  let body :=
    [("client_id", app_client_id c); ("client_secret", app_client_secret c)] in
  if truthy scope then
    if negb (includes_value valid_scopes scope) then
      Throw (custom_error "INVALID_SCOPE_ERROR"
               (VStr (dq +:+ "Scope for requesting token for grantless operations is invalid. Please provide one of: "
                      +:+ join "," valid_scopes)))
    else
      Ok (JSON_stringify
            (VObj (set_prop "scope" scope
                     (set_prop "grant_type" (VStr "client_credentials") body))))
  else if negb (only_grantless_operations (_options c)) then
    Ok (JSON_stringify
          (VObj (set_prop "refresh_token" (_refresh_token c)
                   (set_prop "grant_type" (VStr "refresh_token") body))))
  else
    Throw (custom_error "NO_SCOPE_PROVIDED"
             (VStr (dq +:+ "Grantless tokens require a scope. Please provide one of: "
                    +:+ join "," valid_scopes))).

Definition _tokenExists (c : Client) (scope : value) : bool :=
  (truthy (_access_token c) && negb (truthy scope))
  || (truthy scope && truthy (grantless_token c scope)).

Definition refreshAccessToken (scope : value) : M unit :=
  do c <- client;
  do body <- lift (_constructRefreshAccessTokenBody c scope);
  do res <- execute (VObj [("method", VStr "POST");
                           ("url", VStr token_url);
                           ("body", body);
                           ("headers", VObj [("Content-Type", VStr "application/json")]);
                           ("timeouts", _current_call_timeouts c)]);
  match JSON_parse (Http.body res) with
  | None =>
      throw (custom_error "REFRESH_ACCESS_TOKEN_PARSE_ERROR" (VStr (Http.body res)))
  | Some json_res =>
      do access_token <- lift (prop json_res "access_token");
      if truthy access_token then
        if negb (truthy scope)
        then update (with_access_token access_token)
        else update (with_grantless_token (ToString scope) access_token)
      else if truthy (opt_prop json_res "error") then
        throw (CustomError_new [("code", opt_prop json_res "error");
                                ("message", opt_prop json_res "error_description")])
      else
        throw (custom_error "UNKNOWN_REFRESH_ACCESS_TOKEN_ERROR" (VStr (Http.body res)))
  end.

Definition _validateAccessToken (scope : value) : M unit :=
  do c <- client;
  when (auto_request_tokens (_options c) && negb (_tokenExists c scope))
       (refreshAccessToken scope) ;;
  do c <- client;
  if negb (_tokenExists c scope) then
    throw (custom_error "NO_ACCESS_TOKEN_PRESENT"
             (VStr ("Did you turn off " +:+ quoted "auto_request_tokens"
                    +:+ " and forgot to refresh the access token or the scope for a grantless token?")))
  else ret tt.

Definition _validateOperationAllowance (c : Client) (scope : value) : outcome unit :=
  if only_grantless_operations (_options c) && negb (truthy scope) then
    Throw (custom_error "INVALID_OPERATION_ERROR"
             (VStr ("Operation is not grantless. Set " +:+ quoted "only_grantless_operations"
                    +:+ " to false and provide a " +:+ quoted "refresh_token"
                    +:+ " to be able to call the operation.")))
  else Ok tt.

(** *** [callAPI] *)

Definition rate_limit_header : string := "x-amzn-ratelimit-limit".

Definition _retryThrottledRequest (req_params : value) (res : Response)
  : M (step api_result) :=
  do c <- client;
  let limit := header res rate_limit_header in
  let static := opt_prop req_params "restore_rate" in
  (if truthy limit || truthy static then
     let restore_rate :=
       if truthy limit then VNum (1 / (ToNumber limit * 1))%float else static in
     console_log c [VStr "Request throttled, retrying a call of ";
                    logical_or (opt_prop req_params "operation")
                               (opt_prop req_params "api_path");
                    VStr " in "; restore_rate; VStr " seconds..."] ;;
     _wait restore_rate
   else ret tt) ;;
  ret (Reenter req_params).

(** [error.code.split(/(?=[A-Z])/).join('_').toUpperCase()]. *)
Definition normalize_code (code : string) : string :=
  toUpperCase (join "_" (split_before_upper code)).

(** Lines 669 to 717: what follows a body that was parsed. *)
Definition classify (req_params scope : value) (res : Response) (json_res : value)
  : M (step api_result) :=
  do c <- client;
  do errors <- lift (prop json_res "errors");
  if truthy (opt_prop errors "length") then
    do error <- lift (prop errors "0");
    do code <- lift (prop error "code");
    let details := opt_prop error "details" in
    let message := opt_prop error "message" in
    if (statusCode res =? 403)%Z && is_str code "Unauthorized"
       && test_access_token_expired (ToString details)
    then
      if auto_request_tokens (_options c) then
        console_log c [VStr "Access token expired, refreshing it now"] ;;
        refreshAccessToken scope ;;
        ret (Reenter req_params)
      else
        throw (custom_error "ACCESS_TOKEN_EXPIRED" (logical_or details message))
    else if (statusCode res =? 429)%Z && is_str code "QuotaExceeded" then
      if auto_request_throttled (_options c) then
        _retryThrottledRequest req_params res
      else
        let headers := match Http.headers res with Some hs => hs | None => [] end in
        let rlHeader :=
          find (fun h => String.eqb (toLowerCase h) rate_limit_header) (map fst headers) in
        throw (CustomError_new
                 [("code", VStr "QUOTA_EXCEEDED");
                  ("message", logical_or details message);
                  ("timeout", match rlHeader with
                              | Some h => header res h
                              | None => VUndefined
                              end)])
    else if is_str code "InternalFailure" && use_sandbox (_options c) then
      throw (custom_error "INVALID_SANDBOX_PARAMETERS"
               (VStr ("You're in SANDBOX mode, make sure sandbox parameters are correct, as in Amazon SP API documentation: "
                      +:+ "https://github.com/amzn/selling-partner-api-docs/blob/main/guides/developer-guide/SellingPartnerApiDeveloperGuide.md#how-to-make-a-sandbox-call-to-the-selling-partner-api")))
    else if truthy code then
      match code with
      | VStr code => throw (custom_error (normalize_code code) (logical_or details message))
      | _ => throw TypeError
      end
    else throw (custom_error "UNKNOWN_ERROR" (logical_or details message))
  else
    let pagination := opt_prop json_res "pagination" in
    let payload := opt_prop json_res "payload" in
    if truthy pagination && truthy payload
    then ret (Done (Object_assign pagination payload))
    else ret (Done (Plain (logical_or payload json_res))).

(** Lines 654 to 668: the response, unless the raw result is asked for. *)
Definition respond (options : list (string * value)) (req_params scope : value)
  (res : Response) : M (step api_result) :=
  if truthy (get_prop "raw_result" options) then ret (Done (RawResult res))
  else if (statusCode res =? 204)%Z then
    ret (Done (Plain (VObj [("success", VBool true)])))
  else
    match JSON_parse (strip_newlines (Http.body res)) with
    | None => throw (custom_error "JSON_PARSE_ERROR" (VStr (Http.body res)))
    | Some json_res => classify req_params scope res json_res
    end.

(** [endpoints[endpoint][version][operation](req_params)]. *)
Definition call_builder (endpoint : string) (version : option string)
  (operation : string) (req_params : value) : outcome built :=
  obind (the_endpoint endpoint) (fun ep =>
  match version with
  | None => Throw TypeError
  | Some v =>
      match by_version ep v !! operation with
      | Some f => f req_params
      | None => Throw TypeError
      end
  end).

(** Lines 617 to 641: the options of the call and the request parameters
    the rest of the pass works with. *)
Definition build (req_params : value)
  : M (list (string * value) * list (string * value)) :=
  do options_of_call <- lift (prop req_params "options");
  let options := assign_props [] (own_props options_of_call) in
  do req_params <-
    (if truthy (opt_prop req_params "api_path") then
       match req_params with
       | VObj o =>
           do method <- lift (_validateMethod (get_prop "method" o));
           ret (set_prop "method" method o)
       | _ => throw TypeError
       end
     else
       do '(operation, endpoint) <-
         lift (_validateOperationAndEndpoint (opt_prop req_params "operation")
                                             (opt_prop req_params "endpoint"));
       do c <- client;
       do version <-
         lift (_validateAndGetVersion c operation endpoint (get_prop "version" options));
       do b <- lift (call_builder endpoint version operation req_params);
       do headers <- lift (prop (argument b) "headers");
       let req_params :=
         assign_props (assign_props [] (own_props (returned b)))
                      (own_props (logical_or headers (VObj []))) in
       when (truthy (get_prop "deprecation_date" req_params))
            (emit (Warn "DEPRECATION" (get_prop "deprecation_date" req_params))) ;;
       when (negb (use_sandbox (_options c)) && truthy (get_prop "sandbox_only" req_params))
            (emit (Warn "SANDBOX_ONLY" (VStr operation))) ;;
       ret req_params);
  let restore_rate := get_prop "restore_rate" options in
  let req_params :=
    if truthy restore_rate && negb (isNaN restore_rate)
    then set_prop "restore_rate" restore_rate req_params
    else req_params in
  do c <- client;
  let timeouts :=
    VObj (assign_props (assign_props [] (own_props (timeouts (_options c))))
                       (own_props (get_prop "timeouts" options))) in
  let req_params := set_prop "timeouts" timeouts req_params in
  update (with_current_call_timeouts timeouts) ;;
  ret (options, req_params).

(** Lines 643 to 652: the gate, and the token the request is sent with. *)
Definition authorize (req_params : list (string * value)) : M value :=
  let scope := get_prop "scope" req_params in
  do c <- client;
  lift (_validateOperationAllowance c scope) ;;
  _validateAccessToken scope ;;
  do c <- client;
  ret (if truthy scope then grantless_token c scope
       else if truthy (get_prop "restricted_data_token" req_params)
            then get_prop "restricted_data_token" req_params
            else _access_token c).

(** One pass through the body of [callAPI]. *)
Definition callAPI_pass (req_params : value) : M (step api_result) :=
  do '(options, req_params) <- build req_params;
  do token_for_request <- authorize req_params;
  do res <- api token_for_request (VObj req_params);
  respond options (VObj req_params) (get_prop "scope" req_params) res.

(** [callAPI(req_params)]: both retries are calls of [callAPI] in tail
    position, re-entered here at most [fuel] times. *)
Fixpoint callAPI (fuel : nat) (req_params : value) : M api_result :=
  match fuel with
  | O => fun w => (Pending, w)
  | S fuel' =>
      do s <- callAPI_pass req_params;
      match s with
      | Done r => ret r
      | Reenter req_params' => callAPI fuel' req_params'
      end
  end.

End Client.

(** *** Document download (lines 144 to 233 and 748 to 808) *)

(** [Object.assign({unzip: true}, options)]. *)
Definition download_options (options : value) : list (string * value) :=
  assign_props [("unzip", VBool true)] (own_props options).

Section Transfer.
Context `{Runtime}.
(** zlib's [gunzip], iconv's [decode] (on failure, the message of what it
    throws), the XML parser, the CSV converter with its tab delimiter and
    no quote character, and [fs.writeFile]. *)
Variable gunzip : bytes -> outcome bytes.
Variable iconv_decode : bytes -> value -> string + value.
Variable xml_parse : string -> outcome value.
Variable csv_fromString : string -> outcome value.
Variable fs_writeFile : value -> content -> outcome unit.

Definition _unzip (buffer : bytes) : M bytes := lift (gunzip buffer).

Definition _saveFile (data : content) (options : list (string * value)) : M unit :=
  let data :=
    if truthy (get_prop "json" options) then
      Data (JSON_stringify (match data with
                            | Buffer b => Buffer_toJSON b
                            | Data v => v
                            end))
    else data in
  emit (WriteFile (get_prop "file" options) data) ;;
  lift (fs_writeFile (get_prop "file" options) data).

Definition _validateDocumentDetails (details : value) : outcome unit :=
  if negb (truthy details) || negb (truthy (opt_prop details "url")) then
    Throw (custom_error "DOCUMENT_INFORMATION_MISSING" (VStr "Please provide url"))
  else
    let compression := opt_prop details "compressionAlgorithm" in
    if truthy compression && negb (is_str compression "GZIP") then
      Throw (custom_error "UNKNOWN_ZIP_STANDARD"
               (VStr (template [VStr "Cannot unzip "; compression; VStr ", expecting GZIP"])))
    else Ok tt.

Definition _validateUpOrDownloadSuccess (res : Response) (request_type : string)
  : outcome unit :=
  if negb (statusCode res =? 200)%Z then
    match xml_parse (body res) with
    | Ok json_res =>
        if truthy json_res && truthy (opt_prop json_res "Error") then
          Throw (CustomError_new
                   [("code", opt_prop (opt_prop json_res "Error") "Code");
                    ("message", opt_prop (opt_prop json_res "Error") "Message")])
        else Throw (custom_error (request_type +:+ "_ERROR") json_res)
    | _ => Throw (custom_error (request_type +:+ "_ERROR") (VStr (body res)))
    end
  else Ok tt.

(** [headers['content-type']] where the headers are there. *)
Definition content_type (hs : list (string * string)) : value :=
  match assoc "content-type" hs with Some v => VStr v | None => VUndefined end.

Definition _decodeBuffer (decompressed_buffer : bytes)
  (headers : option (list (string * string))) (charset : value) : outcome string :=
  let charset :=
    if negb (truthy charset) then
      match headers with
      | Some hs =>
          match content_type hs with
          | VStr ct =>
              match match_charset ct with
              | Some found => if String.eqb found "" then charset else VStr found
              | None => charset
              end
          | _ => charset
          end
      | None => charset
      end
    else charset in
  let charset := if negb (truthy charset) then VStr "utf8" else charset in
  match iconv_decode decompressed_buffer charset with
  | inl text => Ok text
  | inr message => Throw (custom_error "DECODE_ERROR" message)
  end.

Definition xlsx : string :=
  "application/vnd.openxmlformats-officedocument.spreadsheetml.sheet".

(** The transformation to JSON of a decoded text (lines 771 to 802). *)
Definition to_json (res : Response) (decoded : string) : outcome value :=
  match Http.headers res with
  | None => Throw TypeError
  | Some hs =>
      if is_str (content_type hs) xlsx then
        Throw (custom_error "PARSE_ERROR"
                 (VStr "Report is a .xlsx file. Could not parse result to JSON. Remove the 'json:true' option."))
      else
        let parse_error :=
          CustomError_new [("code", VStr "PARSE_ERROR");
                           ("message", VStr "Could not parse result to JSON.");
                           ("details", VStr decoded)] in
        match content_type hs with
        | VStr ct =>
            if includes "xml" ct then
              match xml_parse decoded with
              | Ok v => Ok v
              | _ => Throw parse_error
              end
            else if includes "plain" ct then
              match JSON_parse decoded with
              | Some json_res => Ok json_res
              | None =>
                  match csv_fromString decoded with
                  | Ok rows => Ok rows
                  | _ => Throw parse_error
                  end
              end
            else Ok (VStr decoded)
        | _ => Throw parse_error
        end
  end.

Definition download (details options : value) : M content :=
  let options := download_options options in
  lift (_validateDocumentDetails details) ;;
  do res <- execute (VObj [("url", opt_prop details "url");
                           ("timeouts", get_prop "timeouts" options)]);
  lift (_validateUpOrDownloadSuccess res "DOWNLOAD") ;;
  let compressionAlgorithm := opt_prop details "compressionAlgorithm" in
  let unzip := get_prop "unzip" options in
  do decoded <-
    (if truthy compressionAlgorithm && truthy unzip
     then _unzip (Buffer_concat (chunks res))
     else ret (Buffer_concat (chunks res)));
  do decoded <-
    (if negb (truthy compressionAlgorithm) || truthy unzip then
       do text <- lift (_decodeBuffer decoded (Http.headers res) (get_prop "charset" options));
       if truthy (get_prop "json" options) then
         do v <- lift (to_json res text);
         ret (Data v)
       else ret (Data (VStr text))
     else ret (Buffer decoded));
  when (truthy (get_prop "file" options)) (_saveFile decoded options) ;;
  ret decoded.

End Transfer.

(** *** The exchange of an authorization code (lines 418 to 433 and 529 to 554) *)

Section Exchange.
Context `{Runtime}.

Definition _constructExchangeBody (c : Client) (auth_code : value) : outcome value :=
  if negb (truthy auth_code) then
    Throw (custom_error "NO_AUTH_CODE_PROVIDED"
             (VStr ("Please provide an authorization code (spapi_auth_code) operation to exchange it for a "
                    +:+ quoted "refresh_token" +:+ ".")))
  else
    Ok (JSON_stringify (VObj [("grant_type", VStr "authorization_code");
                              ("code", auth_code);
                              ("client_id", app_client_id c);
                              ("client_secret", app_client_secret c)])).

(** The body is built while the request is put together: before anything
    is sent. *)
Definition exchange (auth_code : value) : M value :=
  do c <- client;
  do body <- lift (_constructExchangeBody c auth_code);
  do res <- execute (VObj [("method", VStr "POST");
                           ("url", VStr token_url);
                           ("body", body);
                           ("headers", VObj [("Content-Type", VStr "application/json")])]);
  match JSON_parse (Http.body res) with
  | None =>
      throw (custom_error "EXCHANGE_AUTH_CODE_PARSE_ERROR" (VStr (Http.body res)))
  | Some json_res =>
      do error <- lift (prop json_res "error");
      if truthy error then
        throw (CustomError_new [("code", error);
                                ("message", opt_prop json_res "error_description")])
      else ret json_res
  end.

End Exchange.

(** *** Feed upload (lines 155 to 168 and 815 to 842) *)

(** The encoding [_readFile] reads a file with: the charset that the content
    type names, [utf-8] when it names none, and [latin1] for [ISO-8859-1]. *)
Definition read_encoding (content_type : string) : string :=
  let encoding :=
    match match_charset content_type with
    | Some found => if String.eqb found "" then "utf-8" else found
    | None => "utf-8"
    end in
  if String.eqb (toUpperCase encoding) "ISO-8859-1" then "latin1" else encoding.

Section Feeds.
(** The XML parser, [fs.readFile] with an encoding, and [Buffer.from]. *)
Variable xml_parse : string -> outcome value.
Variable fs_readFile : value -> string -> outcome value.
Variable Buffer_from : value -> outcome value.

(** A content type that is no string has no [match]. *)
Definition _readFile (file content_type : value) : M value :=
  match content_type with
  | VStr ct => lift (fs_readFile file (read_encoding ct))
  | _ => throw TypeError
  end.

Definition upload (details feed : value) : M value :=
  lift (_validateDocumentDetails details) ;;
  if negb (truthy feed)
     || (negb (truthy (opt_prop feed "content")) && negb (truthy (opt_prop feed "file")))
  then
    throw (custom_error "NO_FEED_CONTENT_PROVIDED"
             (VStr ("Please provide " +:+ quoted "content" +:+ " (string) or "
                    +:+ quoted "file" +:+ " (absolute path) of feed.")))
  else if negb (truthy (opt_prop feed "contentType")) then
    throw (custom_error "NO_FEED_CONTENT_TYPE_PROVIDED"
             (VStr ("Please provide " +:+ quoted "contentType"
                    +:+ " of feed (should be identical to the contentType used in "
                    +:+ quoted "createFeedDocument" +:+ " operation).")))
  else
    do feed_content <-
      (if truthy (opt_prop feed "content") then ret (opt_prop feed "content")
       else _readFile (opt_prop feed "file") (opt_prop feed "contentType"));
    do body <- lift (Buffer_from feed_content);
    do res <- execute (VObj [("url", opt_prop details "url");
                             ("method", VStr "PUT");
                             ("headers", VObj [("Content-Type", opt_prop feed "contentType")]);
                             ("body", body)]);
    lift (_validateUpOrDownloadSuccess xml_parse res "UPLOAD") ;;
    ret (VObj [("success", VBool true)]).

End Feeds.

(** *** Streamed download (lines 236 to 249 and 723 to 740) *)

(** What [downloadStream] resolves with: the response stream itself, or its
    pipe through [zlib.createGunzip()]. *)
Inductive stream : Type :=
| Incoming (res : Response)
| Gunzipped (res : Response).

Section Streams.
(** [iconv.decode], the XML parser, and the reading of a response stream to
    its end ([_getStreamChunks]: the chunks, or the error of the stream). *)
Variable iconv_decode : bytes -> value -> string + value.
Variable xml_parse : string -> outcome value.
Variable _getStreamChunks : Response -> outcome (list bytes).

(** [res.body = body]. *)
Definition with_body (body : string) (res : Response) : Response :=
  {| statusCode := statusCode res; headers := Http.headers res;
     body := body; chunks := chunks res |}.

(** [this._request.streamDownload(details)] is the next answer of the remote
    side, as a stream. *)
Definition downloadStream (details options : value) : M stream :=
  let options := download_options options in
  lift (_validateDocumentDetails details) ;;
  do res <- answer;
  (if negb (statusCode res =? 200)%Z then
     do streamChunks <- lift (_getStreamChunks res);
     do body <- lift (_decodeBuffer iconv_decode (Buffer_concat streamChunks)
                        (Http.headers res) VUndefined);
     lift (_validateUpOrDownloadSuccess xml_parse (with_body body res) "DOWNLOAD")
   else ret tt) ;;
  ret (if truthy (opt_prop details "compressionAlgorithm") && truthy (get_prop "unzip" options)
       then Gunzipped res
       else Incoming res).

End Streams.

(** *** The constructor (lines 49 to 92) *)

(** [/^(eu|na|fe)$/.test(region)]. *)
Definition region_matches (region : value) : bool :=
  existsb (String.eqb (ToString region)) ["eu"; "na"; "fe"].

(** An instance: the region it was made for, and its mutable fields. *)
Record Instance : Type := { _region : value; fields : Client }.

Section Construction.
Variable endpoints : gmap string Endpoint.
(** The default [user_agent], which names the versions of the client, of
    Node and of the operating system. *)
Variable user_agent : string.
(** [new Credentials(credentials, path, debug_log).load()]: the id and the
    secret of the app client, as the token manager reads them; and
    [new Request(region, options)]. *)
Variable Credentials_load : value -> value -> value -> outcome (value * value).
Variable Request_new : value -> list (string * value) -> outcome unit.

(** [Object.assign({...defaults}, config.options)]. *)
Definition construct_options (config_options : value) : list (string * value) :=
  assign_props [("auto_request_tokens", VBool true);
                ("auto_request_throttled", VBool true);
                ("use_sandbox", VBool false);
                ("only_grantless_operations", VBool false);
                ("version_fallback", VBool true);
                ("user_agent", VStr user_agent);
                ("debug_log", VBool false);
                ("timeouts", VObj []);
                ("retry_remote_timeout", VBool true)]
               (own_props config_options).

(** The options as the orchestration reads them. *)
Definition read_options (options : list (string * value)) : Options := {|
  auto_request_tokens := truthy (get_prop "auto_request_tokens" options);
  auto_request_throttled := truthy (get_prop "auto_request_throttled" options);
  use_sandbox := truthy (get_prop "use_sandbox" options);
  only_grantless_operations := truthy (get_prop "only_grantless_operations" options);
  version_fallback := truthy (get_prop "version_fallback" options);
  debug_log := truthy (get_prop "debug_log" options);
  timeouts := get_prop "timeouts" options
|}.

Definition constructor (config : value) : outcome Instance :=
  obind (prop config "region") (fun region =>
  let options := construct_options (opt_prop config "options") in
  obind (_validateEndpointsVersions endpoints
           (assign_props [] (own_props (opt_prop config "endpoints_versions"))))
        (fun pins =>
  obind (Credentials_load (opt_prop config "credentials")
           (get_prop "credentials_path" options) (get_prop "debug_log" options))
        (fun '(id, secret) =>
  if negb (truthy region) || negb (region_matches region) then
    Throw (custom_error "NO_VALID_REGION_PROVIDED"
             (VStr ("Please provide one of: " +:+ quoted "eu" +:+ ", " +:+ quoted "na"
                    +:+ " or " +:+ quoted "fe")))
  else if negb (truthy (opt_prop config "refresh_token"))
          && negb (truthy (get_prop "only_grantless_operations" options)) then
    Throw (custom_error "NO_REFRESH_TOKEN_PROVIDED"
             (VStr ("Please provide a refresh token or set "
                    +:+ quoted "only_grantless_operations" +:+ " option to true")))
  else
    obind (Request_new region options) (fun _ =>
    Ok {| _region := region;
          fields := {| _refresh_token := opt_prop config "refresh_token";
                       _access_token := opt_prop config "access_token";
                       _grantless_tokens := ∅;
                       _options := read_options options;
                       _current_call_timeouts := get_prop "timeouts" options;
                       _endpoints_versions := pins;
                       app_client_id := id;
                       app_client_secret := secret |} |})))).

End Construction.

End SellingPartner.

(** ** The report poller (lines 435 to 507 and 844 to 850)

    The poller is written against [this.callAPI], [this._wait] and
    [this.download]; it is embedded over any state [Env] those act on. The
    request parameters of a report download are an object shared with the
    caller and updated in place ([tries]): they are part of the state. *)

Module ReportPoller.
Import JS Errors Http SellingPartner.

(** [res[k]] on what [callAPI] resolved with. *)
Definition result_prop (res : api_result) (k : string) : outcome value :=
  match res with
  | Plain v => prop v k
  | RawResult _ => Ok VUndefined
  | Assigned target props =>
      match lookup_prop k props with
      | Some v => Ok v
      | None => prop target k
      end
  end.

Section Poller.
Context {Env D : Type}.
Variable callAPI : value -> Env -> outcome api_result * Env.
Variable _wait : value -> Env -> outcome unit * Env.
Variable console_log : string -> Env -> outcome unit * Env.
Variable download : api_result -> value -> Env -> outcome D * Env.
(** [this._options.debug_log]. *)
Variable debug_log : bool.

Definition job : Type := list (string * value) * Env.
Definition P (A : Type) : Type := job -> outcome A * job.

Definition pret {A : Type} (a : A) : P A := fun j => (Ok a, j).
Definition pthrow {A : Type} (e : error) : P A := fun j => (Throw e, j).
Definition plift {A : Type} (x : outcome A) : P A := fun j => (x, j).
Definition pbind {A B : Type} (m : P A) (k : A -> P B) : P B := fun j =>
  match m j with
  | (Ok a, j') => k a j'
  | (Throw e, j') => (Throw e, j')
  | (Pending, j') => (Pending, j')
  end.
(** An action on [Env] as an action of the poller. *)
Definition on_env {A : Type} (m : Env -> outcome A * Env) : P A := fun j =>
  let '(r, s) := m (snd j) in (r, (fst j, s)).
(** [req_params[k]] and [req_params[k] = v]. *)
Definition param (k : string) : P value := fun j => (Ok (get_prop k (fst j)), j).
Definition set_param (k : string) (v : value) : P unit := fun j =>
  (Ok tt, (set_prop k v (fst j), snd j)).

Notation "'do' x <- m ; k" := (pbind m (fun x => k))
  (at level 10, x name, m at level 100, k at level 200, only parsing).
Notation "m ;; k" := (pbind m (fun _ => k))
  (at level 100, k at level 200, right associativity, only parsing).

(** The options every report call is given: the version, when one is set. *)
Definition report_options : P value :=
  do version <- param "version";
  pret (VObj (if truthy version then [("version", version)] else [])).

Definition _createReport : P value :=
  do body <- param "body";
  do options <- report_options;
  do res <- on_env (callAPI (VObj [("operation", VStr "reports.createReport");
                                   ("body", body);
                                   ("options", options)]));
  plift (result_prop res "reportId").

Definition _cancelReport (report_id : value) : P unit :=
  do options <- report_options;
  do res <- on_env (callAPI (VObj [("operation", VStr "reports.cancelReport");
                                   ("path", VObj [("reportId", report_id)]);
                                   ("options", options)]));
  pret tt.

(** [_getReport(req_params, report_id)], which calls itself after each
    wait: at most [fuel] polls. *)
Fixpoint _getReport (fuel : nat) (report_id : value) : P value :=
  match fuel with
  | O => fun j => (Pending, j)
  | S fuel' =>
      do options <- report_options;
      do res <- on_env (callAPI (VObj [("operation", VStr "reports.getReport");
                                       ("path", VObj [("reportId", report_id)]);
                                       ("options", options)]));
      do processingStatus <- plift (result_prop res "processingStatus");
      if is_str processingStatus "DONE" then
        plift (result_prop res "reportDocumentId")
      else if is_str processingStatus "CANCELLED" || is_str processingStatus "FATAL" then
        pthrow (custom_error ("REPORT_PROCESSING_" +:+ ToString processingStatus)
                  (VStr "Something went wrong while processing the report."))
      else
        do tries <- param "tries";
        set_param "tries" (VNum (ToNumber tries + 1)%float) ;;
        do tries <- param "tries";
        (if debug_log then
           do body <- param "body";
           do reportType <- plift (prop body "reportType");
           on_env (console_log (template [VStr "Current status of report "; reportType;
                                          VStr ": "; processingStatus;
                                          VStr " (tries: "; tries; VStr ")"]))
         else pret tt) ;;
        do interval_param <- param "interval";
        let interval := logical_or interval_param (VNum 10000) in
        do cancel_after <- param "cancel_after";
        if negb (truthy cancel_after)
           || PrimFloat.ltb (ToNumber tries) (ToNumber cancel_after)
        then
          on_env (_wait (VNum (ToNumber interval / 1000)%float)) ;;
          _getReport fuel' report_id
        else
          _cancelReport report_id ;;
          pthrow (custom_error "REPORT_PROCESSING_CANCELLED_MANUALLY"
                    (VStr (template [VStr "Report did not finish after "; tries;
                                     VStr " tries (interval "; interval;
                                     VStr " ms)."])))
  end.

Definition _getReportDocument (report_document_id : value) : P api_result :=
  do options <- report_options;
  on_env (callAPI (VObj [("operation", VStr "reports.getReportDocument");
                         ("path", VObj [("reportDocumentId", report_document_id)]);
                         ("options", options)])).

Definition downloadReport (fuel : nat) : P D :=
  set_param "tries" (VNum 0) ;;
  do report_id <- _createReport;
  do report_document_id <- _getReport fuel report_id;
  do report_document <- _getReportDocument report_document_id;
  do download_options <- param "download";
  on_env (download report_document (logical_or download_options (VObj []))).

End Poller.

End ReportPoller.

(** ** A scripted client for the poller

    The poller run against a [callAPI] that gives prepared answers in order
    and records what it is asked, a [_wait] that records the delay, and a
    [download] that returns what it is given. *)

Module Script.
Import JS Errors Http SellingPartner ReportPoller.

Record env : Type := {
  answers : list (outcome api_result);
  calls : list value;
  slept : list value;
  logged : list string
}.

Definition callAPI (req_params : value) (e : env) : outcome api_result * env :=
  match answers e with
  | [] =>
      (Pending,
       {| answers := []; calls := calls e ++ [req_params];
          slept := slept e; logged := logged e |})
  | r :: rest =>
      (r,
       {| answers := rest; calls := calls e ++ [req_params];
          slept := slept e; logged := logged e |})
  end.

Definition _wait (seconds : value) (e : env) : outcome unit * env :=
  (Ok tt,
   {| answers := answers e; calls := calls e;
      slept := slept e ++ [seconds]; logged := logged e |}).

Definition console_log (message : string) (e : env) : outcome unit * env :=
  (Ok tt,
   {| answers := answers e; calls := calls e;
      slept := slept e; logged := logged e ++ [message] |}).

Definition download (details : api_result) (options : value) (e : env)
  : outcome (api_result * value) * env :=
  (Ok (details, options), e).

(** The poller of a client whose [debug_log] is [debug]. *)
Definition poll (debug : bool) (fuel : nat) (report_id : value)
  : list (string * value) * env -> outcome value * (list (string * value) * env) :=
  _getReport callAPI _wait console_log debug fuel report_id.

Definition download_report (debug : bool) (fuel : nat)
  : list (string * value) * env
    -> outcome (api_result * value) * (list (string * value) * env) :=
  downloadReport callAPI _wait console_log download debug fuel.

(** The calls the poller makes for a report, with the options [options]. *)
Definition get_report (report_id options : value) : value :=
  VObj [("operation", VStr "reports.getReport");
        ("path", VObj [("reportId", report_id)]);
        ("options", options)].

Definition cancel_report (report_id options : value) : value :=
  VObj [("operation", VStr "reports.cancelReport");
        ("path", VObj [("reportId", report_id)]);
        ("options", options)].

(** Answers of [getReport]. *)
Definition status (s : string) : outcome api_result :=
  Ok (Plain (VObj [("reportId", VStr "ID323"); ("processingStatus", VStr s)])).

Definition done (report_document_id : value) : outcome api_result :=
  Ok (Plain (VObj [("reportId", VStr "ID323");
                   ("processingStatus", VStr "DONE");
                   ("reportDocumentId", report_document_id)])).

(** The options of the report calls of a job. *)
Definition options_of (req_params : list (string * value)) : value :=
  VObj (if truthy (get_prop "version" req_params)
        then [("version", get_prop "version" req_params)]
        else []).

(** The delay between two polls of a job, in seconds. *)
Definition interval_of (req_params : list (string * value)) : value :=
  VNum (ToNumber (logical_or (get_prop "interval" req_params) (VNum 10000)) / 1000)%float.

End Script.

(** ** Notions the properties are stated with *)

Module Notions.
Import JS Registry.

(** [r] with an underscore before each of its uppercase letters. *)
Fixpoint underscored (r : string) : string :=
  match r with
  | EmptyString => EmptyString
  | String c r' =>
      if is_upper c then String "_" (String c (underscored r'))
      else String c (underscored r')
  end.

Fixpoint count_chars (p : ascii -> bool) (s : string) : nat :=
  match s with
  | EmptyString => 0
  | String c r => (if p c then 1 else 0) + count_chars p r
  end.

(** The characters of [s] after the first one. *)
Definition inner (s : string) : string :=
  match s with
  | EmptyString => EmptyString
  | String _ r => r
  end.

(** A string of ASCII characters, on which the upper-casing of the
    embedding is that of the engine. *)
Fixpoint ascii_only (s : string) : bool :=
  match s with
  | EmptyString => true
  | String c r => (code c <? 128)%Z && ascii_only r
  end.

(** The text [s] without its line feeds: the characters of [s] other than
    the line feed, in their order. *)
Definition without_line_feeds (s : string) : string :=
  string_of_list_ascii
    (List.filter (fun c => negb (Ascii.eqb c "010"%char)) (list_ascii_of_string s)).

(** The internal uppercase letter boundaries of a code, and its letters
    after the first character. *)
Definition boundaries (s : string) : nat := count_chars is_upper (inner s).
Definition inner_letters (s : string) : nat := count_chars is_letter (inner s).

(** [v] stands at position [i] of the versions of [ep] and defines the
    operation. *)
Definition defines_at (ep : Endpoint) (operation : string) (i : nat) (v : string) : Prop :=
  nth_error (__versions ep) i = Some v /\ defines ep v operation = true.

(** No version at a position strictly between [i] and [k] (for [lo = S i])
    defines the operation. *)
Definition none_between (ep : Endpoint) (operation : string) (lo : nat) (k : Z) : Prop :=
  forall j w, lo <= j -> (Z.of_nat j < k)%Z ->
              nth_error (__versions ep) j = Some w -> defines ep w operation = false.

(** [v] is the nearest version strictly older than [version] that defines
    the operation: it stands before the first occurrence of [version], and
    no version in between defines the operation. *)
Definition nearest_older (ep : Endpoint) (operation version v : string) : Prop :=
  exists i, defines_at ep operation i v
            /\ (Z.of_nat i < SellingPartner.indexOf (__versions ep) version)%Z
            /\ none_between ep operation (S i) (SellingPartner.indexOf (__versions ep) version).

(** [v] is the oldest version that defines the operation. *)
Definition oldest_defining (ep : Endpoint) (operation v : string) : Prop :=
  exists i, defines_at ep operation i v
            /\ none_between ep operation 0 (Z.of_nat i).

(** A processing status that ends the polling of a report. *)
Definition terminal (s : string) : bool :=
  String.eqb s "DONE" || String.eqb s "CANCELLED" || String.eqb s "FATAL".

(** The timeouts of a call with the options [options] by the client [c]:
    [Object.assign({}, this._options.timeouts, options.timeouts)]. *)
Definition call_timeouts (c : SellingPartner.Client) (options : list (string * value))
  : value :=
  VObj (assign_props
          (assign_props [] (own_props (SellingPartner.timeouts (SellingPartner._options c))))
          (own_props (get_prop "timeouts" options))).

(** What [callAPI] makes of request parameters once they are built: the
    [restore_rate] of the options when that is a number other than zero, and
    the timeouts of the call. *)
Definition finish_params (options rp : list (string * value)) (c : SellingPartner.Client)
  : list (string * value) :=
  set_prop "timeouts" (call_timeouts c options)
    (if truthy (get_prop "restore_rate" options)
        && negb (isNaN (get_prop "restore_rate" options))
     then set_prop "restore_rate" (get_prop "restore_rate" options) rp
     else rp).

(** The token a request is sent with: that of its scope, else its
    restricted data token, else the access token. *)
Definition token_for_request (c : SellingPartner.Client) (rp : list (string * value))
  : value :=
  if truthy (get_prop "scope" rp)
  then SellingPartner.grantless_token c (get_prop "scope" rp)
  else if truthy (get_prop "restricted_data_token" rp)
       then get_prop "restricted_data_token" rp
       else SellingPartner._access_token c.

(** The calls of the API sent, each with its token, and the requests
    executed otherwise, in order. *)
Definition sent (t : list SellingPartner.Event) : list (value * value) :=
  flat_map (fun e => match e with
                     | SellingPartner.Api token rp => [(token, rp)]
                     | _ => []
                     end) t.

Definition executed (t : list SellingPartner.Event) : list value :=
  flat_map (fun e => match e with
                     | SellingPartner.Execute req => [req]
                     | _ => []
                     end) t.

(** The files written, in order. *)
Definition written (t : list SellingPartner.Event) : list (value * Http.content) :=
  flat_map (fun e => match e with
                     | SellingPartner.WriteFile file data => [(file, data)]
                     | _ => []
                     end) t.

Definition is_warning (e : SellingPartner.Event) : bool :=
  match e with SellingPartner.Warn _ _ => true | _ => false end.

(** The wait that a throttled response asks for, if any: after the rate
    limit of its header, else the static restore rate of the request. *)
Definition throttle_delays (req_params : value) (res : Http.Response) : list value :=
  if truthy (Http.header res SellingPartner.rate_limit_header) then
    [VNum (1 / (ToNumber (Http.header res SellingPartner.rate_limit_header) * 1))%float]
  else if truthy (opt_prop req_params "restore_rate")
       then [opt_prop req_params "restore_rate"]
       else [].

End Notions.

(** ** Concrete registries and clients, to run the client on *)

Module Fixtures.
Import JS Registry Http SellingPartner.
(* Decimal literals denote the nearest binary64 value. *)
#[local] Set Warnings "-inexact-float".

(** Modelled from the spec: the registry entry of the endpoint whose
    operation table is part of the sources (the registry itself,
    [lib/endpoints], is not): its versions, the names of its operations, and
    the table of each version. *)
Definition merchantFulfillment (check : value -> value -> outcome value) : Endpoint := {|
  __versions := ["v0"];
  __operations := ["getEligibleShipmentServices"; "getShipment"; "cancelShipment";
                   "createShipment"; "getAdditionalSellerInputs"];
  by_version := fun version => if String.eqb version "v0" then v0 check else ∅
|}.

(** An endpoint of three versions for the resolution to search: its first
    operation is defined by the two older versions only, its second one by
    the newest version only. *)
Definition shipping : Endpoint := {|
  __versions := ["2020-01-01"; "2021-06-30"; "2022-11-01"];
  __operations := ["createShipment"; "getAdditionalSellerInputs"];
  by_version := fun version =>
    if String.eqb version "2020-01-01" || String.eqb version "2021-06-30"
    then <["createShipment" := createShipment]> ∅
    else if String.eqb version "2022-11-01"
         then <["getAdditionalSellerInputs" := getAdditionalSellerInputs]> ∅
         else ∅
|}.

(** [checkAndEncodeParams] where no parameter needs encoding. *)
Definition no_encoding : value -> value -> outcome value := fun req_params _ => Ok req_params.

Definition endpoints : gmap string Endpoint :=
  <["merchantFulfillment" := merchantFulfillment no_encoding]>
  (<["shipping" := shipping]> ∅).

(** A client as the constructor leaves it, given a refresh token and no
    options: no access token yet, no version pinned. *)
Definition fresh_client : Client := {|
  _refresh_token := VStr "Atzr|refresh";
  _access_token := VUndefined;
  _grantless_tokens := ∅;
  _options := default_options;
  _current_call_timeouts := VObj [];
  _endpoints_versions := ∅;
  app_client_id := VStr "amzn1.application-oa2-client.app";
  app_client_secret := VStr "secret"
|}.

(** A world where [c] has done nothing yet and the remote side will give
    the answers [rs]. *)
Definition world (c : Client) (rs : list (outcome Response)) : World :=
  {| this := c; remote := rs; trace := [] |}.

(** A response with a JSON body. *)
Definition json_response (status : Z) (hs : list (string * string)) (v : value)
  : Response :=
  {| statusCode := status;
     headers := Some hs;
     body := ToString (@JSON_stringify Json.runtime v);
     chunks := [] |}.

(** Responses for the classification to run on: an empty success whose body
    is no JSON, a body that is no JSON, and an answer that has a payload and
    a sibling pagination. *)
Definition no_content : Response :=
  {| statusCode := 204; headers := Some []; body := "No Content"; chunks := [] |}.

Definition garbled : Response :=
  {| statusCode := 200; headers := Some [];
     body := "{
oops"; chunks := [] |}.

(** A body whose string is broken by a line feed, which no JSON string may
    hold, and the object it denotes without the line feed. *)
Definition broken_line : Response :=
  {| statusCode := 200; headers := Some [];
     body := "{" +:+ quoted "marketplaceId" +:+ ":" +:+ dq +:+ "A1PA6795
UKMFR9" +:+ dq +:+ "}"; chunks := [] |}.

Definition mended_line : value := VObj [("marketplaceId", VStr "A1PA6795UKMFR9")].

Definition summaries : value :=
  VObj [("pagination", VObj [("nextToken", VStr "seed")]);
        ("payload", VObj [("granularity", VStr "Marketplace");
                          ("inventorySummaries", VArr [])])].

(** A request by raw path. *)
Definition raw_request : value :=
  VObj [("api_path", VStr "/fba/inventory/v1/summaries"); ("method", VStr "GET")].

(** Bodies of the remote side: an expired token, a throttled call, and the
    answer of the authorization endpoint to a token request. *)
Definition expired : value :=
  VObj [("errors",
         VArr [VObj [("code", VStr "Unauthorized");
                     ("message", VStr "Access to requested resource is denied.");
                     ("details", VStr "The access token you provided has expired.")]])].

Definition throttled : value :=
  VObj [("errors",
         VArr [VObj [("code", VStr "QuotaExceeded");
                     ("message", VStr "You exceeded your quota for the requested resource.")]])].

Definition token_answer : value :=
  VObj [("access_token", VStr "Atza|new");
        ("token_type", VStr "bearer");
        ("expires_in", VNum 3600)].

(** A client that holds an access token, and a call of an operation of the
    table of the sources. *)
Definition signed_in : Client := with_access_token (VStr "Atza|old") fresh_client.

Definition create_shipment : value :=
  VObj [("operation", VStr "merchantFulfillment.createShipment");
        ("body", VObj [("ShipmentRequestDetails", VObj [])])].

(** What the build phase makes of [create_shipment]. *)
Definition create_shipment_built : list (string * value) :=
  [("operation", VStr "merchantFulfillment.createShipment");
   ("body", VObj [("ShipmentRequestDetails", VObj [])]);
   ("method", VStr "POST");
   ("api_path", VStr "/mfn/v0/shipments");
   ("restore_rate", VNum 0.5);
   ("timeouts", VObj [])].

(** A raw-path request with a static restore rate of one second. *)
Definition slow_request : value :=
  VObj [("api_path", VStr "/fba/inventory/v1/summaries"); ("method", VStr "GET");
        ("restore_rate", VNum 1)].

(** An error whose [message], not its [details], tells of the expired token. *)
Definition expired_in_message : value :=
  VObj [("errors",
         VArr [VObj [("code", VStr "Unauthorized");
                     ("message", VStr "The access token you provided has expired.")]])].

(** The remote side of the expired-token scenario: the 403, then the answer
    to the token request. *)
Definition expiry_then_token : list (outcome Response) :=
  [Ok (json_response 403 [] expired); Ok (json_response 200 [] token_answer)].

(** A report job as [downloadReport] starts it, and one that gives up after
    one try. *)
Definition report_job : list (string * value) :=
  [("body", VObj [("reportType", VStr "GET_FLAT_FILE_OPEN_LISTINGS_DATA");
                  ("marketplaceIds", VArr [VStr "A1PA6795UKMFR9"])]);
   ("version", VStr "2021-06-30");
   ("interval", VNum 8000);
   ("tries", VNum 0)].

Definition impatient_job : list (string * value) :=
  [("body", VObj [("reportType", VStr "GET_FLAT_FILE_OPEN_LISTINGS_DATA")]);
   ("cancel_after", VNum 1);
   ("tries", VNum 0)].

Definition script (answers : list (outcome api_result)) : Script.env :=
  {| Script.answers := answers; Script.calls := [];
     Script.slept := []; Script.logged := [] |}.

(** A compressed document, the answer of its location, and download options
    that decline the unzipping and ask for everything else. *)
Definition compressed_document : value :=
  VObj [("reportDocumentId", VStr "DOC-1");
        ("url", VStr "https://d.example/DOC-1");
        ("compressionAlgorithm", VStr "GZIP")].

Definition gzip_bytes : list bytes :=
  [[Byte.x1f; Byte.x8b; Byte.x08; Byte.x00]; [Byte.x4b; Byte.xcc]].

Definition compressed_answer : Response :=
  {| statusCode := 200;
     headers := Some [("content-type", "text/plain; charset=iso-8859-1")];
     body := "";
     chunks := gzip_bytes |}.

Definition keep_zipped : value :=
  VObj [("unzip", VBool false); ("json", VBool true); ("charset", VStr "cp1252")].

(** Collaborators that fail whatever they are given, and a file system that
    takes every write. *)
Definition no_gunzip : bytes -> outcome bytes := fun _ => Throw (Failure (VStr "gunzip")).
Definition no_decode : bytes -> value -> string + value := fun _ _ => inr (VStr "decode").
Definition no_parse : string -> outcome value := fun _ => Throw (Failure (VStr "parse")).
Definition accept_write : value -> content -> outcome unit := fun _ _ => Ok tt.

(** A decoder that answers with the name of the charset it is asked for. *)
Definition decode_named : bytes -> value -> string + value :=
  fun _ charset => inl (ToString charset).

(** Clients with other options: one for grantless operations only, one
    that holds a token and does not retry a throttled call. *)
Definition grantless_only : Client := {|
  _refresh_token := VUndefined;
  _access_token := VUndefined;
  _grantless_tokens := ∅;
  _options := {| auto_request_tokens := true; auto_request_throttled := true;
                 use_sandbox := false; only_grantless_operations := true;
                 version_fallback := true; debug_log := false; timeouts := VObj [] |};
  _current_call_timeouts := VObj [];
  _endpoints_versions := ∅;
  app_client_id := VStr "amzn1.application-oa2-client.app";
  app_client_secret := VStr "secret"
|}.

Definition no_retry : Client := {|
  _refresh_token := VStr "Atzr|refresh";
  _access_token := VStr "Atza|old";
  _grantless_tokens := ∅;
  _options := {| auto_request_tokens := true; auto_request_throttled := false;
                 use_sandbox := false; only_grantless_operations := false;
                 version_fallback := true; debug_log := false; timeouts := VObj [] |};
  _current_call_timeouts := VObj [];
  _endpoints_versions := ∅;
  app_client_id := VStr "amzn1.application-oa2-client.app";
  app_client_secret := VStr "secret"
|}.

(** A client that holds a token and does not ask for another one. *)
Definition no_refresh : Client := {|
  _refresh_token := VStr "Atzr|refresh";
  _access_token := VStr "Atza|old";
  _grantless_tokens := ∅;
  _options := {| auto_request_tokens := false; auto_request_throttled := true;
                 use_sandbox := false; only_grantless_operations := false;
                 version_fallback := true; debug_log := false; timeouts := VObj [] |};
  _current_call_timeouts := VObj [];
  _endpoints_versions := ∅;
  app_client_id := VStr "amzn1.application-oa2-client.app";
  app_client_secret := VStr "secret"
|}.

(** A client that pins the newest version of [shipping]. *)
Definition pinned : Client := {|
  _refresh_token := VStr "Atzr|refresh";
  _access_token := VUndefined;
  _grantless_tokens := ∅;
  _options := default_options;
  _current_call_timeouts := VObj [];
  _endpoints_versions := list_to_map [("shipping", "2022-11-01")];
  app_client_id := VStr "amzn1.application-oa2-client.app";
  app_client_secret := VStr "secret"
|}.

(** A client with timeouts of its own. *)
Definition patient : Client := {|
  _refresh_token := VStr "Atzr|refresh";
  _access_token := VUndefined;
  _grantless_tokens := ∅;
  _options := {| auto_request_tokens := true; auto_request_throttled := true;
                 use_sandbox := false; only_grantless_operations := false;
                 version_fallback := true; debug_log := false;
                 timeouts := VObj [("response", VNum 5000); ("deadline", VNum 30000)] |};
  _current_call_timeouts := VObj [("response", VNum 5000); ("deadline", VNum 30000)];
  _endpoints_versions := ∅;
  app_client_id := VStr "amzn1.application-oa2-client.app";
  app_client_secret := VStr "secret"
|}.

(** A request by raw path that asks for the raw result, and a throttled
    answer that names a rate limit. *)
Definition raw_result_request : value :=
  VObj [("api_path", VStr "/fba/inventory/v1/summaries"); ("method", VStr "GET");
        ("options", VObj [("raw_result", VBool true)])].

Definition limited : Response :=
  json_response 429 [("x-amzn-ratelimit-limit", "2")] throttled.

(** An error of the remote side that is none of the retried ones. *)
Definition invalid_input : value :=
  VObj [("errors",
         VArr [VObj [("code", VStr "InvalidInput");
                     ("message", VStr "The marketplace id is not valid.")]])].

(** An answer of the document store that refuses the request, a feed with
    its content, a file system that has no file, a [Buffer.from] that keeps
    what it is given, and a stream that cannot be read. *)
Definition refused : Response :=
  {| statusCode := 403; headers := Some [("content-type", "application/xml")];
     body := "<Error><Code>AccessDenied</Code></Error>"; chunks := [] |}.

Definition stored : Response :=
  {| statusCode := 200; headers := Some []; body := ""; chunks := [] |}.

Definition feed : value :=
  VObj [("content", VStr "sku;price");
        ("contentType", VStr "text/tab-separated-values; charset=UTF-8")].

Definition no_file : value -> string -> outcome value :=
  fun _ _ => Throw (Failure (VStr "ENOENT")).

Definition as_given : value -> outcome value := fun v => Ok v.

Definition unreadable : Response -> outcome (list bytes) :=
  fun _ => Throw (Failure (VStr "aborted")).

End Fixtures.

(** * Properties *)

Import JS Errors Registry Http SellingPartner Notions.

(** ** Error-code normalization *)

Lemma upper_char_idempotent (c : ascii) : upper_char (upper_char c) = upper_char c.
Proof. destruct c as [[] [] [] [] [] [] [] []]; reflexivity. Qed.

Lemma is_upper_upper_char (c : ascii) : is_upper (upper_char c) = is_letter c.
Proof. destruct c as [[] [] [] [] [] [] [] []]; reflexivity. Qed.

Lemma upper_char_not_lower (c : ascii) : is_lower c = false -> upper_char c = c.
Proof. unfold upper_char. intros ->. reflexivity. Qed.

Lemma is_letter_split (c : ascii) :
  is_letter c = false -> is_upper c = false /\ is_lower c = false.
Proof. unfold is_letter. intros E. apply orb_false_elim in E. exact E. Qed.

Lemma length_toUpperCase (s : string) :
  String.length (toUpperCase s) = String.length s.
Proof.
  unfold toUpperCase.
  induction s as [|c r IH]; simpl; [reflexivity | now rewrite IH].
Qed.

Lemma length_underscored (r : string) :
  String.length (underscored r) = String.length r + count_chars is_upper r.
Proof.
  induction r as [|c r IH]; simpl; [reflexivity |].
  destruct (is_upper c); simpl; rewrite IH; lia.
Qed.

Lemma count_upper_toUpperCase (s : string) :
  count_chars is_upper (toUpperCase s) = count_chars is_letter s.
Proof.
  unfold toUpperCase.
  induction s as [|c r IH]; simpl; [reflexivity |].
  rewrite is_upper_upper_char. now rewrite IH.
Qed.

Lemma count_letter_underscored (r : string) :
  count_chars is_letter (underscored r) = count_chars is_letter r.
Proof.
  induction r as [|c r IH]; simpl; [reflexivity |].
  destruct (is_upper c) eqn:E; simpl; rewrite IH; reflexivity.
Qed.

Lemma no_letters_fixed (r : string) :
  count_chars is_letter r = 0 -> underscored r = r /\ toUpperCase r = r.
Proof.
  induction r as [|c r IH]; simpl; [easy |].
  destruct (is_letter c) eqn:E; [discriminate |].
  intros Hr. destruct (IH Hr) as [Hu Ht].
  destruct (is_letter_split c E) as [Eu El].
  rewrite Eu, Hu. unfold toUpperCase in *. simpl.
  rewrite (upper_char_not_lower c El), Ht. easy.
Qed.

Lemma concat_cons_char (c : ascii) (h : string) (t : list string) :
  String.concat "_" (String c h :: t) = String c (String.concat "_" (h :: t)).
Proof. destruct t; reflexivity. Qed.

Lemma join_pieces (r : string) :
  String.concat "_" (fst (pieces r) :: snd (pieces r)) = underscored r.
Proof.
  induction r as [|c r IH]; [reflexivity |].
  cbn [pieces underscored]. destruct (pieces r) as [h t]. cbn [fst snd] in IH.
  destruct (is_upper c); cbn [fst snd].
  - change (String.concat "_" (EmptyString :: String c h :: t))
      with (String "_" (String.concat "_" (String c h :: t))).
    rewrite concat_cons_char, IH. reflexivity.
  - rewrite concat_cons_char, IH. reflexivity.
Qed.

(** The normalization of a non-empty code: its first character stays in
    front, every later uppercase letter gets one underscore before it, and
    the whole is upper-cased. *)
Lemma normalize_code_cons (c : ascii) (r : string) :
  normalize_code (String c r) = toUpperCase (String c (underscored r)).
Proof.
  unfold normalize_code, join, split_before_upper.
  pose proof (join_pieces r) as J. destruct (pieces r) as [h t]. cbn [fst snd] in J.
  rewrite concat_cons_char, J. reflexivity.
Qed.

Lemma upper_char_ascii (c : ascii) :
  (code (upper_char c) <? 128)%Z = (code c <? 128)%Z.
Proof. destruct c as [[] [] [] [] [] [] [] []]; reflexivity. Qed.

Lemma ascii_only_toUpperCase (s : string) : ascii_only (toUpperCase s) = ascii_only s.
Proof.
  unfold toUpperCase.
  induction s as [|c r IH]; simpl; [reflexivity |].
  now rewrite upper_char_ascii, IH.
Qed.

Lemma ascii_only_underscored (r : string) : ascii_only (underscored r) = ascii_only r.
Proof.
  induction r as [|c r IH]; simpl; [reflexivity |].
  destruct (is_upper c); simpl; now rewrite IH.
Qed.

(** C1, as amended: the normalization maps ["QuotaExceeded"] to
    ["QUOTA_EXCEEDED"] and ["InvalidInputXYZ"] to ["INVALID_INPUT_X_Y_Z"]. For
    a code of ASCII characters it keeps the first character in front and
    puts exactly one underscore before every later uppercase letter, so the
    result, again of ASCII characters, is longer than the code by the number
    of internal uppercase letter boundaries; and normalizing twice equals
    normalizing once exactly for the codes with no letter after the first
    character (a normalized code is all uppercase, and a second pass
    separates its letters again). *)
Theorem normalize_code_spec (s : string) :
  ascii_only s = true ->
  normalize_code "QuotaExceeded" = "QUOTA_EXCEEDED"
  /\ normalize_code "InvalidInputXYZ" = "INVALID_INPUT_X_Y_Z"
  /\ (forall c r, s = String c r ->
                  normalize_code s = toUpperCase (String c (underscored r)))
  /\ ascii_only (normalize_code s) = true
  /\ String.length (normalize_code s) = String.length s + boundaries s
  /\ (normalize_code (normalize_code s) = normalize_code s <-> inner_letters s = 0).
Proof.
  intros Hs.
  split; [reflexivity |]. split; [reflexivity |].
  split; [intros c r ->; apply normalize_code_cons |].
  destruct s as [|c r]; [now repeat split |].
  rewrite normalize_code_cons. split; [| split].
  - rewrite ascii_only_toUpperCase. simpl in *.
    now rewrite ascii_only_underscored.
  - rewrite length_toUpperCase. simpl. rewrite length_underscored. reflexivity.
  - unfold inner_letters. simpl inner.
    change (toUpperCase (String c (underscored r)))
      with (String (upper_char c) (toUpperCase (underscored r))).
    rewrite normalize_code_cons.
    change (toUpperCase (String (upper_char c) (underscored (toUpperCase (underscored r)))))
      with (String (upper_char (upper_char c))
                   (toUpperCase (underscored (toUpperCase (underscored r))))).
    rewrite upper_char_idempotent. split.
    + intros E. injection E as E.
      apply (f_equal String.length) in E.
      rewrite length_toUpperCase, length_underscored, count_upper_toUpperCase,
        count_letter_underscored in E.
      lia.
    + intros Hr. destruct (no_letters_fixed r Hr) as [Hu Ht].
      rewrite Hu, Ht, Hu, Ht. reflexivity.
Qed.

(** The second example, and two codes that tell the codes that a second
    normalization leaves alone from the others: ["E2"] has no letter after
    its first character, ["InvalidInputXYZ"] has. *)
Lemma normalize_code_spec_witness :
  (String.length (normalize_code "InvalidInputXYZ") = 15 + 4
   /\ normalize_code (normalize_code "InvalidInputXYZ") <> normalize_code "InvalidInputXYZ")
  /\ normalize_code (normalize_code "E2") = normalize_code "E2".
Proof.
  split.
  - destruct (normalize_code_spec "InvalidInputXYZ" eq_refl)
      as (_ & _ & _ & _ & Hlen & Hidem).
    split; [exact Hlen |].
    intros E. apply Hidem in E. discriminate E.
  - destruct (normalize_code_spec "E2" eq_refl) as (_ & _ & _ & _ & _ & Hidem).
    apply Hidem. reflexivity.
Defined.

(** C1 as stated fails: the normalized code of ["QuotaExceeded"] is not left
    unchanged by a second normalization. *)
Lemma normalize_code_not_idempotent :
  normalize_code "QuotaExceeded" = "QUOTA_EXCEEDED"
  /\ normalize_code (normalize_code "QuotaExceeded") = "Q_U_O_T_A__E_X_C_E_E_D_E_D"
  /\ normalize_code (normalize_code "QuotaExceeded") <> normalize_code "QuotaExceeded".
Proof. repeat split; [reflexivity .. | discriminate]. Qed.

(** ** Version resolution *)

Lemma indexOf_range (a : list string) (x : string) :
  (-1 <= indexOf a x < Z.of_nat (List.length a))%Z.
Proof.
  induction a as [|y a IH]; simpl; [lia |].
  destruct (String.eqb y x); [lia |].
  destruct (indexOf a x <? 0)%Z eqn:E; lia.
Qed.

Lemma indexOf_In (a : list string) (x : string) :
  In x a -> (0 <= indexOf a x)%Z.
Proof.
  induction a as [|y a IH]; simpl; [easy |].
  intros [-> | Hin].
  - rewrite String.eqb_refl. lia.
  - destruct (String.eqb y x); [lia |].
    specialize (IH Hin). destruct (indexOf a x <? 0)%Z eqn:E; lia.
Qed.

(** Before a valid index, [slice] is [firstn]. *)
Lemma slice_to_firstn {A : Type} (a : list A) (k : Z) :
  (0 <= k <= Z.of_nat (List.length a))%Z -> slice_to a k = firstn (Z.to_nat k) a.
Proof.
  intros Hk. unfold slice_to.
  destruct (k <? 0)%Z eqn:E; [lia |].
  rewrite Z.min_l by lia. reflexivity.
Qed.


Lemma nth_error_lt {A : Type} (l : list A) (n : nat) (x : A) :
  nth_error l n = Some x -> n < List.length l.
Proof. intros E. apply nth_error_Some. congruence. Qed.

Lemma nth_error_last {A : Type} (l : list A) (x w : A) (j : nat) :
  List.length l <= j -> nth_error (l ++ [x]) j = Some w -> j = List.length l /\ w = x.
Proof.
  intros Hj Hw. rewrite nth_error_app2 in Hw by lia.
  destruct (j - List.length l) as [|n] eqn:E; simpl in Hw.
  - split; [lia | congruence].
  - destruct n; discriminate.
Qed.

(** What [find] returns on a reversed array: the last element that
    satisfies the test, with its position. *)
Lemma find_rev {A : Type} (p : A -> bool) (l : list A) :
  match find p (rev l) with
  | Some v =>
      exists i, nth_error l i = Some v /\ p v = true
                /\ forall j w, i < j -> nth_error l j = Some w -> p w = false
  | None => forall j w, nth_error l j = Some w -> p w = false
  end.
Proof.
  induction l as [|x l IH] using rev_ind; [now intros [|j] w |].
  rewrite rev_app_distr. simpl. destruct (p x) eqn:Ex.
  - exists (List.length l). split; [| split].
    + rewrite nth_error_app2 by lia. now rewrite Nat.sub_diag.
    + exact Ex.
    + intros j w Hj Hw.
      assert (List.length l <= j) as Hge by lia.
      destruct (nth_error_last l x w j Hge Hw). lia.
  - destruct (find p (rev l)) as [v|].
    + destruct IH as (i & Hi & Hp & Hmax). exists i.
      pose proof (nth_error_lt _ _ _ Hi).
      split; [| split]; [now rewrite nth_error_app1 by lia | exact Hp |].
      intros j w Hj Hw. destruct (Nat.lt_ge_cases j (List.length l)).
      * rewrite nth_error_app1 in Hw by lia. now apply (Hmax j).
      * assert (List.length l <= j) as Hge by lia.
        destruct (nth_error_last l x w j Hge Hw) as [_ ->]. exact Ex.
    + intros j w Hw. destruct (Nat.lt_ge_cases j (List.length l)).
      * rewrite nth_error_app1 in Hw by lia. now apply (IH j).
      * assert (List.length l <= j) as Hge by lia.
        destruct (nth_error_last l x w j Hge Hw) as [_ ->]. exact Ex.
Qed.

(** What [find] returns: the first element that satisfies the test. *)
Lemma find_first {A : Type} (p : A -> bool) (l : list A) :
  match find p l with
  | Some v =>
      exists i, nth_error l i = Some v /\ p v = true
                /\ forall j w, j < i -> nth_error l j = Some w -> p w = false
  | None => forall j w, nth_error l j = Some w -> p w = false
  end.
Proof.
  induction l as [|x l IH]; [now intros [|j] w |].
  simpl. destruct (p x) eqn:Ex.
  - exists 0. repeat split; [exact Ex | intros j w Hj; lia].
  - destruct (find p l) as [v|].
    + destruct IH as (i & Hi & Hp & Hmin). exists (S i).
      repeat split; [exact Hi | exact Hp |].
      intros [|j] w Hj Hw; simpl in Hw; [congruence |].
      apply (Hmin j); [lia | exact Hw].
    + intros [|j] w Hw; simpl in Hw; [congruence | now apply (IH j)].
Qed.

Lemma find_filter {A : Type} (p : A -> bool) (l : list A) :
  find p l = hd_error (List.filter p l).
Proof.
  induction l as [|x l IH]; [reflexivity |].
  simpl. destruct (p x); [reflexivity | exact IH].
Qed.

Section VersionResolution.
Variable endpoints : gmap string Endpoint.

(** The search of [_getFallbackVersion] for a registered reference version:
    among the versions before it, the last one that defines the operation. *)
Lemma fallback_search (ep : Endpoint) (operation version : string) :
  In version (__versions ep) ->
  match find (fun v => defines ep v operation)
             (rev (slice_to (__versions ep) (indexOf (__versions ep) version))) with
  | Some v => nearest_older ep operation version v
  | None => none_between ep operation 0 (indexOf (__versions ep) version)
  end.
Proof.
  intros Hin.
  pose proof (indexOf_range (__versions ep) version) as Hr.
  pose proof (indexOf_In _ _ Hin) as H0.
  rewrite slice_to_firstn by lia.
  set (k := indexOf (__versions ep) version) in *.
  pose proof (find_rev (fun v => defines ep v operation)
                (firstn (Z.to_nat k) (__versions ep))) as F.
  destruct (find _ (rev _)) as [v|].
  - destruct F as (i & Hi & Hp & Hmax).
    rewrite nth_error_firstn in Hi.
    destruct (i <? Z.to_nat k) eqn:E; [| discriminate].
    apply Nat.ltb_lt in E.
    exists i. split; [split; assumption |]. split; [lia |].
    intros j w Hj Hk Hw. apply (Hmax j); [lia |].
    rewrite nth_error_firstn.
    assert ((j <? Z.to_nat k) = true) as -> by (apply Nat.ltb_lt; lia).
    exact Hw.
  - intros j w _ Hk Hw. apply (F j).
    rewrite nth_error_firstn.
    assert ((j <? Z.to_nat k) = true) as -> by (apply Nat.ltb_lt; lia).
    exact Hw.
Qed.

Lemma nearest_older_unique (ep : Endpoint) (operation version v v' : string) :
  nearest_older ep operation version v ->
  nearest_older ep operation version v' -> v = v'.
Proof.
  intros (i & [Hi Hd] & Hlt & Hn) (i' & [Hi' Hd'] & Hlt' & Hn').
  destruct (Nat.lt_trichotomy i i') as [L | [E | L]].
  - rewrite (Hn i' v') in Hd'; [discriminate | lia | lia | exact Hi'].
  - subst. congruence.
  - rewrite (Hn' i v) in Hd; [discriminate | lia | lia | exact Hi].
Qed.

(** What the fallback search returns is the nearest older version. *)
Lemma fallback_returns_nearest_older (c : Client) (operation endpoint version v : string)
  (ep : Endpoint) :
  endpoints !! endpoint = Some ep ->
  In version (__versions ep) ->
  _getFallbackVersion endpoints c operation endpoint version = Ok v ->
  nearest_older ep operation version v.
Proof.
  intros Hep Hin.
  pose proof (fallback_search ep operation version Hin) as F.
  unfold _getFallbackVersion, the_endpoint. rewrite Hep. simpl obind.
  destruct (find _ (rev _)) as [v0|]; [| discriminate].
  destruct (negb _ || _); [discriminate |]. now intros [= <-].
Qed.

(** C2: the fallback search fails with [OPERATION_NOT_FOUND_FOR_VERSION]
    whenever fallback is disabled; and for a reference version of the
    endpoint's registry it returns only the nearest strictly older version
    that defines the operation (a version at a position before the reference
    version, never after it), it does return that version when fallback is
    enabled, and it fails with [OPERATION_NOT_FOUND_FOR_VERSION] whenever no
    strictly older version defines the operation. *)
Theorem fallback_nearest_older (c : Client) (operation endpoint version : string)
  (ep : Endpoint) :
  endpoints !! endpoint = Some ep ->
  (version_fallback (_options c) = false ->
   exists e, _getFallbackVersion endpoints c operation endpoint version = Throw e
             /\ code_of e = VStr "OPERATION_NOT_FOUND_FOR_VERSION")
  /\ (In version (__versions ep) ->
      (forall v, _getFallbackVersion endpoints c operation endpoint version = Ok v ->
                 nearest_older ep operation version v)
      /\ (forall v, nearest_older ep operation version v ->
                    version_fallback (_options c) = true -> v <> EmptyString ->
                    _getFallbackVersion endpoints c operation endpoint version = Ok v)
      /\ (none_between ep operation 0 (indexOf (__versions ep) version) ->
          exists e, _getFallbackVersion endpoints c operation endpoint version = Throw e
                    /\ code_of e = VStr "OPERATION_NOT_FOUND_FOR_VERSION")).
Proof.
  intros Hep. split.
  - intros Hf. unfold _getFallbackVersion, the_endpoint. rewrite Hep, Hf. simpl obind.
    destruct (find _ (rev _)) as [v0|]; eexists; split; reflexivity.
  - intros Hin.
    split; [intros v; now apply fallback_returns_nearest_older |].
    pose proof (fallback_search ep operation version Hin) as F.
    unfold _getFallbackVersion, the_endpoint. rewrite Hep. simpl obind.
    destruct (find _ (rev _)) as [v0|]; split.
    + intros v Hv Hf Hne. rewrite (nearest_older_unique _ _ _ _ _ Hv F).
      rewrite Hf. simpl.
      destruct (String.eqb v0 "") eqn:E; [| reflexivity].
      apply String.eqb_eq in E.
      rewrite (nearest_older_unique _ _ _ _ _ Hv F) in Hne. contradiction.
    + intros Hnone. destruct F as (i & [Hi Hd] & Hlt & _).
      rewrite (Hnone i v0) in Hd; [discriminate | lia | lia | exact Hi].
    + intros v (i & [Hi Hd] & Hlt & _).
      rewrite (F i v) in Hd; [discriminate | lia | lia | exact Hi].
    + intros _. eexists. split; reflexivity.
Qed.

(** C6: with no version in the options of the call and no version pinned
    for the endpoint, resolution returns what [find] returns over the
    versions in registry order: the oldest version that defines the
    operation, whenever one does; an operation that the endpoint defines
    in the versions ["2020-01-01"] and ["2021-06-30"] only resolves to
    ["2020-01-01"]. *)
Theorem default_version_is_oldest (c : Client) (operation endpoint : string)
  (version : value) (ep : Endpoint) :
  endpoints !! endpoint = Some ep ->
  truthy version = false ->
  (_endpoints_versions c !! endpoint = None
   \/ _endpoints_versions c !! endpoint = Some EmptyString) ->
  (exists r, _validateAndGetVersion endpoints c operation endpoint version = Ok r
             /\ (forall v, r = Some v <-> oldest_defining ep operation v)
             /\ ((exists i v, defines_at ep operation i v) -> r <> None))
  /\ (List.filter (fun v => defines ep v operation) (__versions ep)
      = ["2020-01-01"; "2021-06-30"] ->
      _validateAndGetVersion endpoints c operation endpoint version
      = Ok (Some "2020-01-01")).
Proof.
  intros Hep Hv Hpin.
  assert (_validateAndGetVersion endpoints c operation endpoint version
          = Ok (find (fun v => defines ep v operation) (__versions ep))) as E.
  { unfold _validateAndGetVersion. rewrite Hv.
    unfold _validateGloballySetVersion, the_endpoint. rewrite Hep. simpl obind.
    destruct Hpin as [-> | ->]; reflexivity. }
  rewrite E. split.
  - eexists. split; [reflexivity |].
    pose proof (find_first (fun v => defines ep v operation) (__versions ep)) as F.
    destruct (find _ _) as [v0|]; split.
    + intros v. destruct F as (i & Hi & Hd & Hmin). split.
      * intros [= <-]. exists i. split; [split; assumption |].
        intros j w _ Hj Hw. apply (Hmin j); [lia | exact Hw].
      * intros (i' & [Hi' Hd'] & Hmin'). f_equal.
        destruct (Nat.lt_trichotomy i i') as [L | [Eq | L]].
        -- rewrite (Hmin' i v0) in Hd; [discriminate | lia | lia | exact Hi].
        -- subst. congruence.
        -- rewrite (Hmin i' v) in Hd'; [discriminate | lia | exact Hi'].
    + discriminate.
    + intros v. split; [discriminate |].
      intros (i & [Hi Hd] & _). rewrite (F i v Hi) in Hd. discriminate.
    + intros (i & v & Hi & Hd). rewrite (F i v Hi) in Hd. discriminate.
  - intros Hf. rewrite find_filter, Hf. reflexivity.
Qed.

End VersionResolution.

(** The fallback search run on the three versions of [Fixtures.shipping]:
    from the newest version, [createShipment] falls back to ["2021-06-30"],
    the nearer of the two older versions that define it. *)
Lemma fallback_nearest_older_witness :
  _getFallbackVersion Fixtures.endpoints Fixtures.fresh_client
    "createShipment" "shipping" "2022-11-01" = Ok "2021-06-30"
  /\ nearest_older Fixtures.shipping "createShipment" "2022-11-01" "2021-06-30"
  /\ exists e,
       _getFallbackVersion Fixtures.endpoints Fixtures.fresh_client
         "getAdditionalSellerInputs" "shipping" "2021-06-30" = Throw e
       /\ code_of e = VStr "OPERATION_NOT_FOUND_FOR_VERSION".
Proof.
  split; [vm_compute; reflexivity |]. split.
  - destruct (fallback_nearest_older Fixtures.endpoints Fixtures.fresh_client
                "createShipment" "shipping" "2022-11-01" Fixtures.shipping eq_refl)
      as [_ Hregistered].
    apply Hregistered; [simpl; tauto | vm_compute; reflexivity].
  - destruct (fallback_nearest_older Fixtures.endpoints Fixtures.fresh_client
                "getAdditionalSellerInputs" "shipping" "2021-06-30" Fixtures.shipping
                eq_refl) as [_ Hregistered].
    apply Hregistered; [simpl; tauto |].
    intros j w _ Hj Hw.
    change (indexOf (__versions Fixtures.shipping) "2021-06-30") with 1%Z in Hj.
    assert (j = 0) as -> by lia.
    simpl in Hw. injection Hw as <-. vm_compute. reflexivity.
Defined.

(** The default resolution run on [Fixtures.shipping]: [createShipment] is
    defined in ["2020-01-01"] and ["2021-06-30"] only, no version is set or
    pinned, and the call resolves to ["2020-01-01"]. *)
Lemma default_version_is_oldest_witness :
  List.filter (fun v => defines Fixtures.shipping v "createShipment")
              (__versions Fixtures.shipping) = ["2020-01-01"; "2021-06-30"]
  /\ _validateAndGetVersion Fixtures.endpoints Fixtures.fresh_client
       "createShipment" "shipping" VUndefined = Ok (Some "2020-01-01").
Proof.
  split; [vm_compute; reflexivity |].
  apply (default_version_is_oldest Fixtures.endpoints Fixtures.fresh_client
           "createShipment" "shipping" VUndefined Fixtures.shipping).
  - vm_compute. reflexivity.
  - reflexivity.
  - left. vm_compute. reflexivity.
  - vm_compute. reflexivity.
Defined.

(** ** Objects *)

Lemma lookup_set_prop_same (k : string) (v : value) (o : list (string * value)) :
  lookup_prop k (set_prop k v o) = Some v.
Proof.
  induction o as [|[k' v'] o IH]; simpl.
  - now rewrite String.eqb_refl.
  - destruct (String.eqb k' k) eqn:E; simpl.
    + now rewrite String.eqb_refl.
    + now rewrite E.
Qed.

Lemma lookup_set_prop_other (k k' : string) (v : value) (o : list (string * value)) :
  k <> k' -> lookup_prop k' (set_prop k v o) = lookup_prop k' o.
Proof.
  intros Hne. induction o as [|[k0 v0] o IH]; simpl.
  - apply String.eqb_neq in Hne. now rewrite Hne.
  - destruct (String.eqb k0 k) eqn:E; simpl.
    + apply String.eqb_eq in E. subst k0.
      apply String.eqb_neq in Hne. now rewrite Hne.
    + destruct (String.eqb k0 k'); [reflexivity | exact IH].
Qed.

(** A property that the source does not have is the target's. *)
Lemma lookup_assign_props_target (k : string) (source target : list (string * value)) :
  lookup_prop k source = None ->
  lookup_prop k (assign_props target source) = lookup_prop k target.
Proof.
  unfold assign_props. revert target.
  induction source as [|[k' v'] source IH]; intros target Hs; [reflexivity |].
  simpl in *. destruct (String.eqb k' k) eqn:E; [discriminate |].
  rewrite IH by assumption. apply lookup_set_prop_other.
  now apply String.eqb_neq.
Qed.

Lemma lookup_prop_not_in (k : string) (o : list (string * value)) :
  ~ In k (map fst o) -> lookup_prop k o = None.
Proof.
  induction o as [|[k' v'] o IH]; simpl; [reflexivity |].
  intros Hn. destruct (String.eqb k' k) eqn:E.
  - apply String.eqb_eq in E. tauto.
  - apply IH. tauto.
Qed.

(** A property of the source, whose names are distinct, is the result's. *)
Lemma lookup_assign_props_source (k : string) (v : value)
  (source target : list (string * value)) :
  List.NoDup (map fst source) ->
  lookup_prop k source = Some v ->
  lookup_prop k (assign_props target source) = Some v.
Proof.
  unfold assign_props. revert target.
  induction source as [|[k' v'] source IH]; intros target Hnd Hs; [discriminate |].
  simpl in *. inversion Hnd as [|? ? Hnotin Hnd']; subst.
  destruct (String.eqb k' k) eqn:E.
  - injection Hs as ->. apply String.eqb_eq in E. subst k'.
    change (fold_left _ source (set_prop k v target))
      with (assign_props (set_prop k v target) source).
    rewrite lookup_assign_props_target by now apply lookup_prop_not_in.
    apply lookup_set_prop_same.
  - now apply IH.
Qed.

(** ** The code and the message of an error of the client *)

Lemma code_of_custom_error (code : string) (message : value) :
  code_of (custom_error code message) = VStr code.
Proof. reflexivity. Qed.

Lemma message_of_custom_error (code : string) (message : value) :
  message_of (custom_error code message) = message.
Proof. reflexivity. Qed.

(** ** Response classification *)

Lemma line_feed_code (c : ascii) : (code c =? 10)%Z = Ascii.eqb c "010"%char.
Proof. destruct c as [[] [] [] [] [] [] [] []]; reflexivity. Qed.

(** What [replace(/\n/g, '')] returns is the text without its line feeds. *)
Lemma strip_newlines_filter (s : string) : strip_newlines s = without_line_feeds s.
Proof.
  unfold without_line_feeds.
  induction s as [|c r IH]; [reflexivity |].
  cbn [strip_newlines list_ascii_of_string List.filter].
  rewrite line_feed_code.
  destruct (Ascii.eqb c "010"%char); cbn [negb string_of_list_ascii]; now rewrite IH.
Qed.

Section Classification.
Context `{Runtime}.

(** C7: unless the raw result is asked for, a response with status 204
    resolves to the success marker whatever its body is and whatever the
    parser would make of it; the body of any other response is parsed
    without its line feeds, a text that does not parse fails the call with an
    error whose code is [JSON_PARSE_ERROR] and whose message is the raw
    body, line feeds included, and what a text that parses denotes is what
    the classification goes on with. *)
Theorem respond_parses_unless_204 (options : list (string * value))
  (req_params scope : value) (res : Response) (w : World) :
  truthy (get_prop "raw_result" options) = false ->
  (statusCode res = 204%Z ->
   respond options req_params scope res w
   = (Ok (Done (Plain (VObj [("success", VBool true)]))), w))
  /\ (statusCode res <> 204%Z ->
      (JSON_parse (without_line_feeds (body res)) = None ->
       exists err,
         respond options req_params scope res w = (Throw err, w)
         /\ err = custom_error "JSON_PARSE_ERROR" (VStr (body res))
         /\ code_of err = VStr "JSON_PARSE_ERROR"
         /\ message_of err = VStr (body res))
      /\ (forall json_res,
            JSON_parse (without_line_feeds (body res)) = Some json_res ->
            respond options req_params scope res w
            = classify req_params scope res json_res w)).
Proof.
  intros Hraw. unfold respond. rewrite Hraw, strip_newlines_filter. split.
  - intros ->. reflexivity.
  - intros Hs. apply Z.eqb_neq in Hs. rewrite Hs. split.
    + intros ->. eexists. split; [reflexivity |].
      rewrite code_of_custom_error, message_of_custom_error. now repeat split.
    + intros json_res ->. reflexivity.
Qed.


End Classification.

(** The classification run with the executable JSON: a 204 whose body is no
    JSON resolves to the success marker; a body that does not parse is the
    message of the [JSON_PARSE_ERROR]; and a body whose string is broken by
    a line feed, which does not parse as it is, resolves to the object it
    denotes without the line feed. *)
Lemma respond_parses_unless_204_witness :
  respond (H := Json.runtime) [] Fixtures.raw_request VUndefined Fixtures.no_content
    (Fixtures.world Fixtures.fresh_client [])
  = (Ok (Done (Plain (VObj [("success", VBool true)]))),
     Fixtures.world Fixtures.fresh_client [])
  /\ (exists err,
        respond (H := Json.runtime) [] Fixtures.raw_request VUndefined Fixtures.garbled
          (Fixtures.world Fixtures.fresh_client [])
        = (Throw err, Fixtures.world Fixtures.fresh_client [])
        /\ code_of err = VStr "JSON_PARSE_ERROR"
        /\ message_of err = VStr (body Fixtures.garbled))
  /\ Json.parse (body Fixtures.broken_line) = None
  /\ respond (H := Json.runtime) [] Fixtures.raw_request VUndefined Fixtures.broken_line
       (Fixtures.world Fixtures.fresh_client [])
     = (Ok (Done (Plain Fixtures.mended_line)), Fixtures.world Fixtures.fresh_client []).
Proof.
  split; [| split; [| split]].
  - apply (respond_parses_unless_204 (H := Json.runtime) [] Fixtures.raw_request
             VUndefined Fixtures.no_content); reflexivity.
  - destruct (respond_parses_unless_204 (H := Json.runtime) [] Fixtures.raw_request
                VUndefined Fixtures.garbled (Fixtures.world Fixtures.fresh_client [])
                eq_refl) as [_ Hparsed].
    destruct (Hparsed ltac:(discriminate)) as [Hfails _].
    destruct (Hfails ltac:(vm_compute; reflexivity)) as (err & E & _ & Hcode & Hmessage).
    exists err. split; [exact E |]. split; [exact Hcode | exact Hmessage].
  - vm_compute. reflexivity.
  - destruct (respond_parses_unless_204 (H := Json.runtime) [] Fixtures.raw_request
                VUndefined Fixtures.broken_line (Fixtures.world Fixtures.fresh_client [])
                eq_refl) as [_ Hparsed].
    destruct (Hparsed ltac:(discriminate)) as [_ Hgoes].
    rewrite (Hgoes Fixtures.mended_line); vm_compute; reflexivity.
Defined.



(** ** The two retries *)

Lemma waits_app (t u : list Event) : waits (t ++ u) = waits t ++ waits u.
Proof. unfold waits. apply flat_map_app. Qed.

(** What [_retryThrottledRequest] does: it leaves the client and the
    remote side as they are, and re-enters with the parameters it was given. *)
Lemma retry_throttled_run (req_params : value) (res : Response) (w : World) :
  let limit := header res rate_limit_header in
  let static := opt_prop req_params "restore_rate" in
  let restore_rate :=
    if truthy limit then VNum (1 / (ToNumber limit * 1))%float else static in
  _retryThrottledRequest req_params res w
  = (Ok (Reenter req_params),
     {| this := this w;
        remote := remote w;
        trace :=
          if truthy limit || truthy static then
            (if debug_log (_options (this w)) then
               trace w ++ [ConsoleLog
                             (template [VStr "Request throttled, retrying a call of ";
                                        logical_or (opt_prop req_params "operation")
                                           (opt_prop req_params "api_path");
                                        VStr " in "; restore_rate; VStr " seconds..."])]
             else trace w) ++ [Wait restore_rate]
          else trace w |}).
Proof.
  intros limit static restore_rate. destruct w as [c rs t].
  unfold _retryThrottledRequest, bind, client, console_log, when, _wait, emit, ret.
  fold limit static. cbn [this remote trace].
  destruct (truthy limit || truthy static); [| reflexivity].
  fold restore_rate. destruct (debug_log (_options c)); reflexivity.
Qed.

Section Retries.
Context `{Runtime}.
Variable endpoints : gmap string Endpoint.

(** C3, as amended: on a 429 whose first error has code [QuotaExceeded], with
    auto-throttle-retry enabled, the pass re-enters [callAPI] with the request
    parameters it dispatched, after one wait: of 1 / (the numeric reading of
    the rate-limit header) seconds whenever the header has a non-empty value,
    numeric or not; else of the static [restore_rate] of the request, when
    that is truthy; and after no wait when neither is. A header value of [2]
    gives a wait of 0.5 seconds. *)
Theorem throttle_retry_delay (req_params scope : value) (res : Response)
  (json_res errors error : value) (w : World) :
  statusCode res = 429%Z ->
  prop json_res "errors" = Ok errors ->
  truthy (opt_prop errors "length") = true ->
  prop errors "0" = Ok error ->
  prop error "code" = Ok (VStr "QuotaExceeded") ->
  auto_request_throttled (_options (this w)) = true ->
  let limit := header res rate_limit_header in
  let static := opt_prop req_params "restore_rate" in
  let w' := snd (classify req_params scope res json_res w) in
  classify req_params scope res json_res w = _retryThrottledRequest req_params res w
  /\ fst (classify req_params scope res json_res w) = Ok (Reenter req_params)
  /\ this w' = this w /\ remote w' = remote w
  /\ (truthy limit = true ->
      waits (trace w') = waits (trace w) ++ [VNum (1 / (ToNumber limit * 1))%float])
  /\ (truthy limit = false -> truthy static = true ->
      waits (trace w') = waits (trace w) ++ [static])
  /\ (truthy limit = false -> truthy static = false -> trace w' = trace w)
  /\ (limit = VStr "2" -> waits (trace w') = waits (trace w) ++ [VNum 0.5]).
Proof.
  intros Hs He Hl H0 Hc Hauto limit static w'.
  assert (classify req_params scope res json_res w
          = _retryThrottledRequest req_params res w) as E.
  { unfold classify at 1, bind, client, lift. rewrite He, Hl, H0, Hc, Hs, Hauto.
    reflexivity. }
  subst w'. rewrite E, retry_throttled_run. cbn [fst snd this remote trace].
  fold limit static.
  repeat split.
  - intros ->. cbn [orb]. rewrite waits_app.
    destruct (debug_log _); [rewrite waits_app |]; cbn [waits flat_map app];
      rewrite ?app_nil_r; reflexivity.
  - intros -> ->. cbn [orb]. rewrite waits_app.
    destruct (debug_log _); [rewrite waits_app |]; cbn [waits flat_map app];
      rewrite ?app_nil_r; reflexivity.
  - intros -> ->. reflexivity.
  - intros ->. cbn [truthy String.eqb negb orb]. rewrite waits_app.
    destruct (debug_log _); [rewrite waits_app |]; cbn [waits flat_map app];
      rewrite ?app_nil_r; reflexivity.
Qed.

End Retries.

(** The throttled call of the scenario: the header says [2], and the pass
    waits half a second before it re-enters. *)
Lemma throttle_retry_delay_witness :
  waits (trace (snd (classify (H := Json.runtime)
                       (VObj Fixtures.create_shipment_built) VUndefined
                       (Fixtures.json_response 429 [("x-amzn-ratelimit-limit", "2")]
                          Fixtures.throttled)
                       Fixtures.throttled
                       (Fixtures.world Fixtures.signed_in []))))
  = [VNum 0.5].
Proof.
  destruct (throttle_retry_delay (H := Json.runtime)
              (VObj Fixtures.create_shipment_built) VUndefined
              (Fixtures.json_response 429 [("x-amzn-ratelimit-limit", "2")]
                 Fixtures.throttled)
              Fixtures.throttled
              (VArr [VObj [("code", VStr "QuotaExceeded");
                           ("message",
                            VStr "You exceeded your quota for the requested resource.")]])
              (VObj [("code", VStr "QuotaExceeded");
                     ("message",
                      VStr "You exceeded your quota for the requested resource.")])
              (Fixtures.world Fixtures.signed_in [])
              eq_refl eq_refl eq_refl eq_refl eq_refl eq_refl)
    as (_ & _ & _ & _ & _ & _ & _ & Htwo).
  exact (Htwo eq_refl).
Defined.

(** C3 as stated fails: with a rate-limit header that is present and not
    numeric, and a static restore rate of one second, the delay slept is not
    the static restore rate but the [NaN] that the header divides to. *)
Lemma non_numeric_limit_is_slept :
  isNaN (header (Fixtures.json_response 429 [("x-amzn-ratelimit-limit", "soon")]
                   Fixtures.throttled) rate_limit_header) = true
  /\ opt_prop Fixtures.slow_request "restore_rate" = VNum 1
  /\ waits (trace (snd (respond (H := Json.runtime) [] Fixtures.slow_request VUndefined
                          (Fixtures.json_response 429
                             [("x-amzn-ratelimit-limit", "soon")] Fixtures.throttled)
                          (Fixtures.world Fixtures.signed_in []))))
     = [VNum nan]
  /\ VNum nan <> VNum 1.
Proof.
  repeat split; try (vm_compute; reflexivity).
  intros E. apply (f_equal isNaN) in E. vm_compute in E. discriminate.
Qed.

(** ** Token expiry *)

Lemma bind_assoc {A B C : Type} (m : M A) (f : A -> M B) (g : B -> M C) (w : World) :
  bind (bind m f) g w = bind m (fun x => bind (f x) g) w.
Proof. unfold bind. destruct (m w) as [[a|e|] w1]; reflexivity. Qed.

(** A pass that gets as far as a parsed body goes on with its
    classification, on the request parameters that the build phase made. *)
Lemma callAPI_pass_classify `{Runtime} (endpoints : gmap string Endpoint)
  (original : value) (options built : list (string * value)) (token : value)
  (res : Response) (json_res : value) (w0 w1 w2 w : World) :
  build endpoints original w0 = (Ok (options, built), w1) ->
  authorize built w1 = (Ok token, w2) ->
  api token (VObj built) w2 = (Ok res, w) ->
  truthy (get_prop "raw_result" options) = false ->
  statusCode res <> 204%Z ->
  JSON_parse (strip_newlines (body res)) = Some json_res ->
  callAPI_pass endpoints original w0
  = classify (VObj built) (get_prop "scope" built) res json_res w.
Proof.
  intros Hb Ha Hr Hraw Hs Hj.
  unfold callAPI_pass, bind. rewrite Hb, Ha, Hr.
  unfold respond. rewrite Hraw. apply Z.eqb_neq in Hs. rewrite Hs, Hj. reflexivity.
Qed.

Section TokenExpiry.
Context `{Runtime}.
Variable endpoints : gmap string Endpoint.

(** C4, as amended: when a pass of [callAPI] receives a 403 whose first
    error has code [Unauthorized] and whose [details] match
    [/access token.*expired/], then with auto-token-refresh enabled it
    refreshes the token for the scope of the call and re-enters [callAPI]
    with the request parameters as its build phase left them (for a call by
    operation the output of the builder, with [api_path] and [method], and
    the merged timeouts), and with auto-token-refresh disabled it fails with
    an error whose code is [ACCESS_TOKEN_EXPIRED] and whose message is the
    details of the answer. *)
Theorem expired_token_is_refreshed (original : value)
  (options built : list (string * value)) (token : value) (res : Response)
  (json_res errors error : value) (w0 w1 w2 w : World) (fuel : nat) :
  build endpoints original w0 = (Ok (options, built), w1) ->
  authorize built w1 = (Ok token, w2) ->
  api token (VObj built) w2 = (Ok res, w) ->
  truthy (get_prop "raw_result" options) = false ->
  statusCode res = 403%Z ->
  JSON_parse (strip_newlines (body res)) = Some json_res ->
  prop json_res "errors" = Ok errors ->
  truthy (opt_prop errors "length") = true ->
  prop errors "0" = Ok error ->
  prop error "code" = Ok (VStr "Unauthorized") ->
  test_access_token_expired (ToString (opt_prop error "details")) = true ->
  let scope := get_prop "scope" built in
  let refresh :=
    bind (console_log (this w) [VStr "Access token expired, refreshing it now"])
         (fun _ => refreshAccessToken scope) in
  (auto_request_tokens (_options (this w)) = true ->
   callAPI_pass endpoints original w0
   = bind refresh (fun _ => ret (Reenter (VObj built))) w
   /\ callAPI endpoints (S fuel) original w0
      = bind refresh (fun _ => callAPI endpoints fuel (VObj built)) w)
  /\ (auto_request_tokens (_options (this w)) = false ->
      exists err,
        callAPI_pass endpoints original w0 = (Throw err, w)
        /\ err = custom_error "ACCESS_TOKEN_EXPIRED"
                   (logical_or (opt_prop error "details") (opt_prop error "message"))
        /\ code_of err = VStr "ACCESS_TOKEN_EXPIRED"
        /\ message_of err
           = logical_or (opt_prop error "details") (opt_prop error "message")).
Proof.
  intros Hb Ha Hr Hraw Hs Hj He Hl H0 Hc Ht scope refresh.
  assert (statusCode res <> 204%Z) as Hn by (rewrite Hs; discriminate).
  pose proof (callAPI_pass_classify endpoints original options built token res
                json_res w0 w1 w2 w Hb Ha Hr Hraw Hn Hj) as E.
  fold scope in E.
  assert (classify (VObj built) scope res json_res w
          = if auto_request_tokens (_options (this w))
            then bind refresh (fun _ => ret (Reenter (VObj built))) w
            else (Throw (custom_error "ACCESS_TOKEN_EXPIRED"
                           (logical_or (opt_prop error "details") (opt_prop error "message"))),
                  w)) as C.
  { unfold classify at 1, bind at 1 2 3 4, client, lift. rewrite He, Hl, H0, Hc, Hs, Ht.
    cbn [Z.eqb Pos.eqb is_str String.eqb Ascii.eqb Bool.eqb andb].
    destruct (auto_request_tokens (_options (this w))); [| reflexivity].
    subst refresh. now rewrite bind_assoc. }
  split.
  - intros Hauto. rewrite Hauto in C. split; [now rewrite E, C |].
    cbn [callAPI]. unfold bind at 1. rewrite E, C.
    change (bind (bind refresh (fun _ => ret (Reenter (VObj built))))
                 (fun s => match s with
                           | Done r => ret r
                           | Reenter req_params' => callAPI endpoints fuel req_params'
                           end) w
            = bind refresh (fun _ => callAPI endpoints fuel (VObj built)) w).
    now rewrite bind_assoc.
  - intros Hauto. rewrite Hauto in C. rewrite E, C.
    eexists. split; [reflexivity |].
    rewrite code_of_custom_error, message_of_custom_error. now repeat split.
Qed.

End TokenExpiry.

(** The expired-token scenario run: the call of [createShipment] is sent
    with the old token, answered with the 403, the token is refreshed, and
    the pass re-enters with what the build phase made of the call. The same
    answer to a client that does not refresh its tokens fails the call. *)
Lemma expired_token_is_refreshed_witness :
  (fst (callAPI_pass (H := Json.runtime) Fixtures.endpoints Fixtures.create_shipment
          (Fixtures.world Fixtures.signed_in Fixtures.expiry_then_token))
   = Ok (Reenter (VObj Fixtures.create_shipment_built))
   /\ _access_token
        (this (snd (callAPI_pass (H := Json.runtime) Fixtures.endpoints
                      Fixtures.create_shipment
                      (Fixtures.world Fixtures.signed_in Fixtures.expiry_then_token))))
      = VStr "Atza|new")
  /\ exists err,
       fst (callAPI_pass (H := Json.runtime) Fixtures.endpoints Fixtures.create_shipment
              (Fixtures.world Fixtures.no_refresh
                 [Ok (Fixtures.json_response 403 [] Fixtures.expired)]))
       = Throw err
       /\ code_of err = VStr "ACCESS_TOKEN_EXPIRED"
       /\ message_of err = VStr "The access token you provided has expired.".
Proof.
  split.
  - pose (w0 := Fixtures.world Fixtures.signed_in Fixtures.expiry_then_token).
    pose (w1 := snd (build Fixtures.endpoints Fixtures.create_shipment w0)).
    pose (w2 := snd (authorize (H := Json.runtime) Fixtures.create_shipment_built w1)).
    pose (w := snd (api (VStr "Atza|old") (VObj Fixtures.create_shipment_built) w2)).
    destruct (expired_token_is_refreshed (H := Json.runtime) Fixtures.endpoints
                Fixtures.create_shipment [] Fixtures.create_shipment_built
                (VStr "Atza|old") (Fixtures.json_response 403 [] Fixtures.expired)
                Fixtures.expired
                (VArr [VObj [("code", VStr "Unauthorized");
                             ("message", VStr "Access to requested resource is denied.");
                             ("details", VStr "The access token you provided has expired.")]])
                (VObj [("code", VStr "Unauthorized");
                       ("message", VStr "Access to requested resource is denied.");
                       ("details", VStr "The access token you provided has expired.")])
                w0 w1 w2 w 0)
      as [Hauto _]; try (vm_compute; reflexivity).
    destruct (Hauto eq_refl) as [Hpass _].
    change (Fixtures.world Fixtures.signed_in Fixtures.expiry_then_token) with w0.
    rewrite Hpass. split; vm_compute; reflexivity.
  - pose (w0 := Fixtures.world Fixtures.no_refresh
                  [Ok (Fixtures.json_response 403 [] Fixtures.expired)]).
    pose (w1 := snd (build Fixtures.endpoints Fixtures.create_shipment w0)).
    pose (w2 := snd (authorize (H := Json.runtime) Fixtures.create_shipment_built w1)).
    pose (w := snd (api (VStr "Atza|old") (VObj Fixtures.create_shipment_built) w2)).
    destruct (expired_token_is_refreshed (H := Json.runtime) Fixtures.endpoints
                Fixtures.create_shipment [] Fixtures.create_shipment_built
                (VStr "Atza|old") (Fixtures.json_response 403 [] Fixtures.expired)
                Fixtures.expired
                (VArr [VObj [("code", VStr "Unauthorized");
                             ("message", VStr "Access to requested resource is denied.");
                             ("details", VStr "The access token you provided has expired.")]])
                (VObj [("code", VStr "Unauthorized");
                       ("message", VStr "Access to requested resource is denied.");
                       ("details", VStr "The access token you provided has expired.")])
                w0 w1 w2 w 0)
      as [_ Hoff]; try (vm_compute; reflexivity).
    destruct (Hoff eq_refl) as (err & Hpass & _ & Hcode & Hmessage).
    change (Fixtures.world Fixtures.no_refresh
              [Ok (Fixtures.json_response 403 [] Fixtures.expired)]) with w0.
    rewrite Hpass. exists err. split; [reflexivity |]. split; [exact Hcode | exact Hmessage].
Defined.

(** C4 as stated fails, twice. An error whose [message] matches, and which
    has no [details], is not taken for an expired token: nothing is
    refreshed and the call fails with the normalized code. And the request
    parameters a pass re-enters with are not the original ones: for a call by
    operation they are the output of the builder, which has an [api_path]. *)
Lemma expired_token_counterexample :
  test_access_token_expired "The access token you provided has expired." = true
  /\ respond (H := Json.runtime) [] Fixtures.raw_request VUndefined
       (Fixtures.json_response 403 [] Fixtures.expired_in_message)
       (Fixtures.world Fixtures.signed_in [Ok (Fixtures.json_response 200 [] Fixtures.token_answer)])
     = (Throw (custom_error "UNAUTHORIZED"
                 (VStr "The access token you provided has expired.")),
        Fixtures.world Fixtures.signed_in
          [Ok (Fixtures.json_response 200 [] Fixtures.token_answer)])
  /\ fst (callAPI_pass (H := Json.runtime) Fixtures.endpoints Fixtures.create_shipment
            (Fixtures.world Fixtures.signed_in Fixtures.expiry_then_token))
     = Ok (Reenter (VObj Fixtures.create_shipment_built))
  /\ opt_prop Fixtures.create_shipment "api_path" = VUndefined
  /\ opt_prop (VObj Fixtures.create_shipment_built) "api_path" = VStr "/mfn/v0/shipments"
  /\ VObj Fixtures.create_shipment_built <> Fixtures.create_shipment.
Proof.
  repeat split; try (vm_compute; reflexivity).
  intros E. apply (f_equal (fun v => opt_prop v "api_path")) in E.
  vm_compute in E. discriminate.
Qed.

(** ** The token manager *)

Lemma valid_scopes_truthy (s : string) : In s valid_scopes -> truthy (VStr s) = true.
Proof. intros [<- | [<- | []]]; reflexivity. Qed.

Lemma includes_valid_scope (s : string) :
  In s valid_scopes -> includes_value valid_scopes (VStr s) = true.
Proof. intros [<- | [<- | []]]; reflexivity. Qed.

Lemma excludes_other_scope (scope : value) :
  (forall s, In s valid_scopes -> scope <> VStr s) ->
  includes_value valid_scopes scope = false.
Proof.
  intros Hn. destruct scope as [| | | |s| |]; try reflexivity.
  unfold includes_value, valid_scopes. cbn [existsb].
  destruct (String.eqb s "sellingpartnerapi::notifications") eqn:E1.
  - apply String.eqb_eq in E1. subst s. exfalso. apply (Hn _ (or_introl eq_refl)). reflexivity.
  - destruct (String.eqb s "sellingpartnerapi::client_credential:rotation") eqn:E2;
      [| reflexivity].
    apply String.eqb_eq in E2. subst s. exfalso.
    apply (Hn _ (or_intror (or_introl eq_refl))). reflexivity.
Qed.

Section TokenManager.
Context `{Runtime}.

(** C9: without a scope the exchange body is that of a [refresh_token]
    grant with the stored refresh token, and building it fails with
    [NO_SCOPE_PROVIDED] for a grantless-only client; with a scope it is that
    of a [client_credentials] grant with the scope, and building it fails
    with [INVALID_SCOPE_ERROR] whenever the scope is none of the two
    recognized literals; and when the answer to the token request parses and
    carries a truthy [access_token], the token is stored in the default slot
    when no scope was given and in the slot of the scope otherwise, the
    other slots staying as they were. *)
Theorem refresh_token_exchange (c : Client) (scope : value) :
  (truthy scope = false -> only_grantless_operations (_options c) = false ->
   _constructRefreshAccessTokenBody c scope
   = Ok (JSON_stringify (VObj [("client_id", app_client_id c);
                               ("client_secret", app_client_secret c);
                               ("grant_type", VStr "refresh_token");
                               ("refresh_token", _refresh_token c)])))
  /\ (truthy scope = false -> only_grantless_operations (_options c) = true ->
      exists e, _constructRefreshAccessTokenBody c scope = Throw e
                /\ code_of e = VStr "NO_SCOPE_PROVIDED")
  /\ (forall s, scope = VStr s -> In s valid_scopes ->
      _constructRefreshAccessTokenBody c scope
      = Ok (JSON_stringify (VObj [("client_id", app_client_id c);
                                  ("client_secret", app_client_secret c);
                                  ("grant_type", VStr "client_credentials");
                                  ("scope", scope)])))
  /\ (truthy scope = true -> (forall s, In s valid_scopes -> scope <> VStr s) ->
      exists e, _constructRefreshAccessTokenBody c scope = Throw e
                /\ code_of e = VStr "INVALID_SCOPE_ERROR")
  /\ (forall (w : World) (request : value) (res : Response) (rest : list (outcome Response))
             (json_res token : value),
        this w = c ->
        _constructRefreshAccessTokenBody c scope = Ok request ->
        remote w = Ok res :: rest ->
        JSON_parse (body res) = Some json_res ->
        prop json_res "access_token" = Ok token ->
        truthy token = true ->
        exists w',
          refreshAccessToken scope w = (Ok tt, w')
          /\ remote w' = rest
          /\ trace w'
             = trace w ++ [Execute (VObj [("method", VStr "POST");
                                          ("url", VStr token_url);
                                          ("body", request);
                                          ("headers",
                                           VObj [("Content-Type", VStr "application/json")]);
                                          ("timeouts", _current_call_timeouts c)])]
          /\ (truthy scope = false ->
              _access_token (this w') = token
              /\ _grantless_tokens (this w') = _grantless_tokens c)
          /\ (truthy scope = true ->
              _grantless_tokens (this w') !! ToString scope = Some token
              /\ (forall other, other <> ToString scope ->
                                _grantless_tokens (this w') !! other
                                = _grantless_tokens c !! other)
              /\ _access_token (this w') = _access_token c)).
Proof.
  split; [| split; [| split; [| split]]].
  - intros Hs Hg. unfold _constructRefreshAccessTokenBody. rewrite Hs, Hg. reflexivity.
  - intros Hs Hg. unfold _constructRefreshAccessTokenBody. rewrite Hs, Hg.
    eexists. split; reflexivity.
  - intros s -> Hin. unfold _constructRefreshAccessTokenBody.
    rewrite (valid_scopes_truthy s Hin), (includes_valid_scope s Hin). reflexivity.
  - intros Hs Hn. unfold _constructRefreshAccessTokenBody.
    rewrite Hs, (excludes_other_scope scope Hn). eexists. split; reflexivity.
  - intros w request res rest json_res token Hc Hb Hr Hj Hp Ht.
    destruct w as [c0 rs t]. cbn [this remote trace] in *. subst c0 rs.
    cbv [refreshAccessToken bind client lift execute emit answer].
    cbn [this remote trace]. rewrite Hb. cbn [remote]. rewrite Hj, Hp, Ht.
    destruct (truthy scope) eqn:Hs; cbn [negb]; unfold update; cbn [this remote trace];
      eexists; (split; [reflexivity |]); (split; [reflexivity |]);
      (split; [reflexivity |]); split; try discriminate; intros _.
    + split; [apply lookup_insert_eq |]. split; [| reflexivity].
      intros other Hne. cbn [with_grantless_token _grantless_tokens].
      apply lookup_insert_ne. congruence.
    + split; reflexivity.
Qed.

End TokenManager.

(** The token manager run on the answer of the authorization endpoint: with
    no scope the new token is the default one; with the notifications scope
    it is the token of that scope. *)
Lemma refresh_token_exchange_witness :
  _access_token
    (this (snd (refreshAccessToken (H := Json.runtime) VUndefined
                  (Fixtures.world Fixtures.fresh_client
                     [Ok (Fixtures.json_response 200 [] Fixtures.token_answer)]))))
  = VStr "Atza|new"
  /\ _grantless_tokens
       (this (snd (refreshAccessToken (H := Json.runtime)
                     (VStr "sellingpartnerapi::notifications")
                     (Fixtures.world Fixtures.fresh_client
                        [Ok (Fixtures.json_response 200 [] Fixtures.token_answer)]))))
     !! "sellingpartnerapi::notifications"
     = Some (VStr "Atza|new").
Proof.
  split.
  - destruct (refresh_token_exchange (H := Json.runtime) Fixtures.fresh_client VUndefined)
      as (Hbody & _ & _ & _ & Hrun).
    destruct (Hrun (Fixtures.world Fixtures.fresh_client
                      [Ok (Fixtures.json_response 200 [] Fixtures.token_answer)])
                _ (Fixtures.json_response 200 [] Fixtures.token_answer) []
                Fixtures.token_answer (VStr "Atza|new")
                eq_refl (Hbody eq_refl eq_refl) eq_refl eq_refl eq_refl eq_refl)
      as (w' & -> & _ & _ & Hdefault & _).
    exact (proj1 (Hdefault eq_refl)).
  - destruct (refresh_token_exchange (H := Json.runtime) Fixtures.fresh_client
                (VStr "sellingpartnerapi::notifications"))
      as (_ & _ & Hbody & _ & Hrun).
    destruct (Hrun (Fixtures.world Fixtures.fresh_client
                      [Ok (Fixtures.json_response 200 [] Fixtures.token_answer)])
                _ (Fixtures.json_response 200 [] Fixtures.token_answer) []
                Fixtures.token_answer (VStr "Atza|new")
                eq_refl (Hbody _ eq_refl (or_introl eq_refl)) eq_refl eq_refl eq_refl eq_refl)
      as (w' & -> & _ & _ & _ & Hscoped).
    exact (proj1 (Hscoped eq_refl)).
Defined.

(** ** The report poller *)

Import ReportPoller.

Lemma get_prop_set_other (k k' : string) (v : value) (o : list (string * value)) :
  k <> k' -> get_prop k' (set_prop k v o) = get_prop k' o.
Proof. intros Hne. unfold get_prop. now rewrite lookup_set_prop_other. Qed.

Lemma get_prop_set_same (k : string) (v : value) (o : list (string * value)) :
  get_prop k (set_prop k v o) = v.
Proof. unfold get_prop. now rewrite lookup_set_prop_same. Qed.

(** Counting a try leaves the options and the interval of a job alone. *)
Lemma options_of_tries (v : value) (req : list (string * value)) :
  Script.options_of (set_prop "tries" v req) = Script.options_of req.
Proof. unfold Script.options_of. now rewrite !get_prop_set_other by discriminate. Qed.

Lemma interval_of_tries (v : value) (req : list (string * value)) :
  Script.interval_of (set_prop "tries" v req) = Script.interval_of req.
Proof. unfold Script.interval_of. now rewrite !get_prop_set_other by discriminate. Qed.

Lemma not_terminal (s : string) :
  terminal s = false ->
  String.eqb s "DONE" = false /\ String.eqb s "CANCELLED" = false
  /\ String.eqb s "FATAL" = false.
Proof.
  unfold terminal. intros E.
  apply orb_false_elim in E as [E E3]. apply orb_false_elim in E as [E1 E2]. easy.
Qed.

(** A poll that is answered [DONE] returns the document id of the answer. *)
Lemma poll_done (debug : bool) (fuel : nat) (report_id document_id : value)
  (req : list (string * value)) (e : Script.env) (rest : list (outcome api_result)) :
  Script.answers e = Script.done document_id :: rest ->
  Script.poll debug (S fuel) report_id (req, e)
  = (Ok document_id,
     (req,
      {| Script.answers := rest;
         Script.calls := Script.calls e
                         ++ [Script.get_report report_id (Script.options_of req)];
         Script.slept := Script.slept e;
         Script.logged := Script.logged e |})).
Proof.
  intros Ha. unfold Script.poll. cbn [_getReport].
  cbv [pbind report_options param on_env Script.callAPI pret plift set_param fst snd].
  rewrite Ha. reflexivity.
Qed.

(** A poll that is answered [CANCELLED] or [FATAL] fails at once. *)
Lemma poll_fails (debug : bool) (fuel : nat) (report_id : value)
  (req : list (string * value)) (e : Script.env) (s : string)
  (rest : list (outcome api_result)) :
  s = "CANCELLED" \/ s = "FATAL" ->
  Script.answers e = Script.status s :: rest ->
  Script.poll debug (S fuel) report_id (req, e)
  = (Throw (custom_error ("REPORT_PROCESSING_" +:+ s)
              (VStr "Something went wrong while processing the report.")),
     (req,
      {| Script.answers := rest;
         Script.calls := Script.calls e
                         ++ [Script.get_report report_id (Script.options_of req)];
         Script.slept := Script.slept e;
         Script.logged := Script.logged e |})).
Proof.
  intros Hs Ha. unfold Script.poll. cbn [_getReport].
  cbv [pbind report_options param on_env Script.callAPI pret plift set_param fst snd].
  rewrite Ha. destruct Hs as [-> | ->]; reflexivity.
Qed.

(** A poll that is answered with another status, while the job may go on:
    one more try is counted, the interval is slept, and the poller polls
    again. *)
Lemma poll_waits (debug : bool) (fuel : nat) (report_id : value)
  (req : list (string * value)) (e : Script.env) (s : string)
  (rest : list (outcome api_result)) :
  Script.answers e = Script.status s :: rest ->
  terminal s = false ->
  (debug = true -> exists t, prop (get_prop "body" req) "reportType" = Ok t) ->
  truthy (get_prop "cancel_after" req) = false
  \/ PrimFloat.ltb (ToNumber (get_prop "tries" req) + 1)%float
                   (ToNumber (get_prop "cancel_after" req)) = true ->
  exists log,
    Script.poll debug (S fuel) report_id (req, e)
    = Script.poll debug fuel report_id
        (set_prop "tries" (VNum (ToNumber (get_prop "tries" req) + 1)%float) req,
         {| Script.answers := rest;
            Script.calls := Script.calls e
                            ++ [Script.get_report report_id (Script.options_of req)];
            Script.slept := Script.slept e ++ [Script.interval_of req];
            Script.logged := Script.logged e ++ log |}).
Proof.
  intros Ha Hs Hd Hc. destruct (not_terminal s Hs) as (H1 & H2 & H3).
  assert (negb (truthy (get_prop "cancel_after" req))
          || PrimFloat.ltb (ToNumber (VNum (ToNumber (get_prop "tries" req) + 1)%float))
                           (ToNumber (get_prop "cancel_after" req)) = true) as Hgo.
  { destruct Hc as [-> | Hc]; [reflexivity |]. cbn [ToNumber]. rewrite Hc. apply orb_true_r. }
  unfold Script.poll. cbn [_getReport].
  cbv [pbind report_options param on_env Script.callAPI pret plift set_param fst snd].
  rewrite Ha. unfold Script.status. cbn [result_prop].
  change (prop (VObj [("reportId", VStr "ID323"); ("processingStatus", VStr s)])
               "processingStatus") with (Ok (VStr s)).
  cbv [is_str]. rewrite H1, H2, H3. cbn [orb].
  rewrite !get_prop_set_same.
  destruct debug; cbv beta iota zeta.
  - rewrite !get_prop_set_other by discriminate.
    destruct (Hd eq_refl) as [t Ht]. rewrite Ht.
    cbv [Script.console_log]. cbv beta iota zeta.
    rewrite !get_prop_set_other by discriminate. rewrite Hgo.
    cbv [Script._wait]. cbv beta iota zeta.
    cbn [Script.answers Script.calls Script.slept Script.logged].
    eexists [_]. reflexivity.
  - rewrite !get_prop_set_other by discriminate. rewrite Hgo.
    cbv [Script._wait]. cbv beta iota zeta.
    cbn [Script.answers Script.calls Script.slept Script.logged].
    exists []. rewrite app_nil_r. reflexivity.
Qed.

(** A poll that is answered with another status when the job has used up
    its tries: the try is counted, the report is cancelled, and the poller
    fails without a wait. *)
Lemma poll_cancels (debug : bool) (fuel : nat) (report_id : value)
  (req : list (string * value)) (e : Script.env) (s : string) (answer : api_result)
  (rest : list (outcome api_result)) :
  Script.answers e = Script.status s :: Ok answer :: rest ->
  terminal s = false ->
  (debug = true -> exists t, prop (get_prop "body" req) "reportType" = Ok t) ->
  truthy (get_prop "cancel_after" req) = true ->
  PrimFloat.ltb (ToNumber (get_prop "tries" req) + 1)%float
                (ToNumber (get_prop "cancel_after" req)) = false ->
  exists log,
    Script.poll debug (S fuel) report_id (req, e)
    = (Throw (custom_error "REPORT_PROCESSING_CANCELLED_MANUALLY"
                (VStr (template [VStr "Report did not finish after ";
                                 VNum (ToNumber (get_prop "tries" req) + 1)%float;
                                 VStr " tries (interval ";
                                 logical_or (get_prop "interval" req) (VNum 10000);
                                 VStr " ms)."]))),
       (set_prop "tries" (VNum (ToNumber (get_prop "tries" req) + 1)%float) req,
        {| Script.answers := rest;
           Script.calls := Script.calls e
                           ++ [Script.get_report report_id (Script.options_of req);
                               Script.cancel_report report_id (Script.options_of req)];
           Script.slept := Script.slept e;
           Script.logged := Script.logged e ++ log |})).
Proof.
  intros Ha Hs Hd Hc Hl. destruct (not_terminal s Hs) as (H1 & H2 & H3).
  assert (negb (truthy (get_prop "cancel_after" req))
          || PrimFloat.ltb (ToNumber (VNum (ToNumber (get_prop "tries" req) + 1)%float))
                           (ToNumber (get_prop "cancel_after" req)) = false) as Hstop.
  { rewrite Hc. cbn [ToNumber negb orb]. exact Hl. }
  unfold Script.poll. cbn [_getReport].
  cbv [pbind report_options param on_env Script.callAPI pret plift set_param fst snd].
  rewrite Ha. unfold Script.status. cbn [result_prop].
  change (prop (VObj [("reportId", VStr "ID323"); ("processingStatus", VStr s)])
               "processingStatus") with (Ok (VStr s)).
  cbv [is_str]. rewrite H1, H2, H3. cbn [orb].
  rewrite !get_prop_set_same.
  destruct debug; cbv beta iota zeta.
  - rewrite !get_prop_set_other by discriminate.
    destruct (Hd eq_refl) as [t Ht]. rewrite Ht.
    cbv [Script.console_log]. cbv beta iota zeta.
    rewrite !get_prop_set_other by discriminate. rewrite Hstop.
    cbv [_cancelReport pbind report_options param on_env Script.callAPI pret pthrow fst snd].
    cbn [Script.answers Script.calls Script.slept Script.logged].
    rewrite !get_prop_set_other by discriminate.
    rewrite <- app_assoc. eexists [_]. reflexivity.
  - rewrite !get_prop_set_other by discriminate. rewrite Hstop.
    cbv [_cancelReport pbind report_options param on_env Script.callAPI pret pthrow fst snd].
    cbn [Script.answers Script.calls Script.slept Script.logged].
    rewrite !get_prop_set_other by discriminate.
    rewrite <- app_assoc. exists []. rewrite app_nil_r. reflexivity.
Qed.

(** C5: polled with the statuses [IN_PROGRESS], [IN_PROGRESS], [DONE] and
    no [cancel_after], a job that starts at zero tries sleeps its interval
    exactly twice, polls three times and returns the document id of the
    [DONE] answer; with [cancel_after] 1, after the first status that is not
    terminal it calls [cancelReport] and fails with an error whose code is
    [REPORT_PROCESSING_CANCELLED_MANUALLY] and whose message names the one
    try and the interval, one try counted and no wait made; and a status
    [CANCELLED] or [FATAL] fails the poll at once with an error whose code is
    [REPORT_PROCESSING_] followed by the status, with no wait, no further
    call and no try counted. *)
Theorem report_polling (debug : bool) (fuel : nat) (report_id : value)
  (req : list (string * value)) (e : Script.env) :
  (forall document_id rest,
     (debug = true -> exists t, prop (get_prop "body" req) "reportType" = Ok t) ->
     get_prop "tries" req = VNum 0 ->
     truthy (get_prop "cancel_after" req) = false ->
     Script.answers e
     = Script.status "IN_PROGRESS" :: Script.status "IN_PROGRESS"
       :: Script.done document_id :: rest ->
     exists req' e',
       Script.poll debug (3 + fuel) report_id (req, e) = (Ok document_id, (req', e'))
       /\ Script.slept e'
          = Script.slept e ++ [Script.interval_of req; Script.interval_of req]
       /\ Script.calls e'
          = Script.calls e ++ [Script.get_report report_id (Script.options_of req);
                               Script.get_report report_id (Script.options_of req);
                               Script.get_report report_id (Script.options_of req)]
       /\ Script.answers e' = rest
       /\ get_prop "tries" req' = VNum 2)
  /\ (forall s answer rest,
        (debug = true -> exists t, prop (get_prop "body" req) "reportType" = Ok t) ->
        get_prop "tries" req = VNum 0 ->
        get_prop "cancel_after" req = VNum 1 ->
        terminal s = false ->
        Script.answers e = Script.status s :: Ok answer :: rest ->
        exists req' e' err,
          Script.poll debug (1 + fuel) report_id (req, e) = (Throw err, (req', e'))
          /\ err = custom_error "REPORT_PROCESSING_CANCELLED_MANUALLY"
                     (VStr (template [VStr "Report did not finish after "; VNum 1;
                                      VStr " tries (interval ";
                                      logical_or (get_prop "interval" req) (VNum 10000);
                                      VStr " ms)."]))
          /\ code_of err = VStr "REPORT_PROCESSING_CANCELLED_MANUALLY"
          /\ message_of err
             = VStr (template [VStr "Report did not finish after "; VNum 1;
                               VStr " tries (interval ";
                               logical_or (get_prop "interval" req) (VNum 10000);
                               VStr " ms)."])
          /\ Script.calls e'
             = Script.calls e ++ [Script.get_report report_id (Script.options_of req);
                                  Script.cancel_report report_id (Script.options_of req)]
          /\ Script.slept e' = Script.slept e
          /\ Script.answers e' = rest
          /\ get_prop "tries" req' = VNum 1)
  /\ (forall s rest,
        s = "CANCELLED" \/ s = "FATAL" ->
        Script.answers e = Script.status s :: rest ->
        exists err,
          Script.poll debug (1 + fuel) report_id (req, e)
          = (Throw err,
             (req,
              {| Script.answers := rest;
                 Script.calls := Script.calls e
                                 ++ [Script.get_report report_id (Script.options_of req)];
                 Script.slept := Script.slept e;
                 Script.logged := Script.logged e |}))
          /\ err = custom_error ("REPORT_PROCESSING_" +:+ s)
                     (VStr "Something went wrong while processing the report.")
          /\ code_of err = VStr ("REPORT_PROCESSING_" +:+ s)
          /\ message_of err = VStr "Something went wrong while processing the report.").
Proof.
  split; [| split].
  - intros document_id rest Hd Ht Hc Ha.
    destruct (poll_waits debug (2 + fuel) report_id req e "IN_PROGRESS" _ Ha eq_refl Hd
                (or_introl Hc)) as [log1 E1].
    set (req1 := set_prop "tries" (VNum (ToNumber (get_prop "tries" req) + 1)%float) req) in *.
    assert (debug = true -> exists t, prop (get_prop "body" req1) "reportType" = Ok t) as Hd1.
    { subst req1. now rewrite get_prop_set_other by discriminate. }
    assert (truthy (get_prop "cancel_after" req1) = false) as Hc1.
    { subst req1. now rewrite get_prop_set_other by discriminate. }
    match type of E1 with _ = Script.poll _ _ _ (_, ?e1) =>
      destruct (poll_waits debug (1 + fuel) report_id req1 e1 "IN_PROGRESS" _ eq_refl
                  eq_refl Hd1 (or_introl Hc1)) as [log2 E2] end.
    cbn [Script.answers Script.calls Script.slept Script.logged] in E2.
    change (3 + fuel) with (S (2 + fuel)). rewrite E1.
    change (2 + fuel) with (S (1 + fuel)). rewrite E2.
    change (1 + fuel) with (S fuel). erewrite poll_done by reflexivity.
    cbn [Script.answers Script.calls Script.slept Script.logged].
    eexists _, _. split; [reflexivity |].
    cbn [Script.answers Script.calls Script.slept Script.logged].
    unfold req1.
    rewrite !options_of_tries, !interval_of_tries, get_prop_set_same, get_prop_set_same, Ht.
    rewrite <- !app_assoc. repeat split; reflexivity.
  - intros s answer rest Hd Ht Hc Hs Ha.
    assert (truthy (get_prop "cancel_after" req) = true) as Hc1 by (rewrite Hc; reflexivity).
    assert (PrimFloat.ltb (ToNumber (get_prop "tries" req) + 1)%float
                          (ToNumber (get_prop "cancel_after" req)) = false) as Hl
        by (rewrite Ht, Hc; reflexivity).
    destruct (poll_cancels debug fuel report_id req e s answer rest Ha Hs Hd Hc1 Hl)
      as (log & E).
    change (1 + fuel) with (S fuel). rewrite E.
    eexists _, _, _. split; [reflexivity |].
    rewrite code_of_custom_error, message_of_custom_error.
    cbn [Script.answers Script.calls Script.slept Script.logged].
    rewrite get_prop_set_same, Ht. repeat split; reflexivity.
  - intros s rest Hs Ha. change (1 + fuel) with (S fuel).
    rewrite (poll_fails debug fuel report_id req e s rest Hs Ha).
    eexists. split; [reflexivity |].
    rewrite code_of_custom_error, message_of_custom_error. now repeat split.
Qed.

(** The scenarios run on the jobs of the fixtures, with logging on: the
    report that is done at the third poll, the job that gives up after one
    try, whose interval is the default one, and the report that ends
    [FATAL]. *)
Lemma report_polling_witness :
  (fst (Script.poll true 3 (VStr "ID323")
          (Fixtures.report_job,
           Fixtures.script [Script.status "IN_PROGRESS"; Script.status "IN_PROGRESS";
                            Script.done (VStr "DOC-1")]))
   = Ok (VStr "DOC-1")
   /\ Script.slept
        (snd (snd (Script.poll true 3 (VStr "ID323")
                     (Fixtures.report_job,
                      Fixtures.script [Script.status "IN_PROGRESS";
                                       Script.status "IN_PROGRESS";
                                       Script.done (VStr "DOC-1")]))))
      = [VNum 8; VNum 8])
  /\ (exists err,
        fst (Script.poll true 1 (VStr "ID323")
               (Fixtures.impatient_job,
                Fixtures.script [Script.status "IN_QUEUE"; Ok (Plain (VObj []))]))
        = Throw err
        /\ code_of err = VStr "REPORT_PROCESSING_CANCELLED_MANUALLY"
        /\ message_of err
           = VStr "Report did not finish after 1 tries (interval 10000 ms).")
  /\ (exists err,
        fst (Script.poll true 1 (VStr "ID323")
               (Fixtures.report_job, Fixtures.script [Script.status "FATAL"]))
        = Throw err
        /\ code_of err = VStr "REPORT_PROCESSING_FATAL"
        /\ message_of err = VStr "Something went wrong while processing the report.").
Proof.
  split; [| split].
  - destruct (report_polling true 0 (VStr "ID323") Fixtures.report_job
                (Fixtures.script [Script.status "IN_PROGRESS"; Script.status "IN_PROGRESS";
                                  Script.done (VStr "DOC-1")])) as (Hwait & _ & _).
    destruct (Hwait (VStr "DOC-1") [] (fun _ => ex_intro _ _ eq_refl) eq_refl eq_refl eq_refl)
      as (req' & e' & E & Hslept & _).
    change (3 + 0) with 3 in E. rewrite E. split; [reflexivity | exact Hslept].
  - destruct (report_polling true 0 (VStr "ID323") Fixtures.impatient_job
                (Fixtures.script [Script.status "IN_QUEUE"; Ok (Plain (VObj []))]))
      as (_ & Hcancel & _).
    destruct (Hcancel "IN_QUEUE" (Plain (VObj [])) [] (fun _ => ex_intro _ _ eq_refl)
                eq_refl eq_refl eq_refl eq_refl)
      as (req' & e' & err & E & _ & Hcode & Hmessage & _).
    change (1 + 0) with 1 in E. rewrite E. exists err.
    split; [reflexivity |]. split; [exact Hcode |].
    rewrite Hmessage. vm_compute. reflexivity.
  - destruct (report_polling true 0 (VStr "ID323") Fixtures.report_job
                (Fixtures.script [Script.status "FATAL"])) as (_ & _ & Hfail).
    destruct (Hfail "FATAL" [] (or_intror eq_refl) eq_refl)
      as (err & E & _ & Hcode & Hmessage).
    change (1 + 0) with 1 in E. rewrite E. exists err.
    split; [reflexivity |]. split; [exact Hcode | exact Hmessage].
Defined.

(** [downloadReport] run on the first scenario: the tries start from zero
    whatever the job says, the report is created, polled three times with two
    waits between, and the document that is fetched and handed to the
    download is the one the [DONE] answer names. *)
Lemma download_report_run :
  Script.download_report false 3
    (set_prop "tries" (VNum 7) Fixtures.report_job,
     Fixtures.script [Ok (Plain (VObj [("reportId", VStr "ID323")]));
                      Script.status "IN_PROGRESS"; Script.status "IN_PROGRESS";
                      Script.done (VStr "DOC-1");
                      Ok (Plain (VObj [("url", VStr "https://d.example/DOC-1")]))])
  = (Ok (Plain (VObj [("url", VStr "https://d.example/DOC-1")]), VObj []),
     (set_prop "tries" (VNum 2) Fixtures.report_job,
      {| Script.answers := [];
         Script.calls :=
           [VObj [("operation", VStr "reports.createReport");
                  ("body", get_prop "body" Fixtures.report_job);
                  ("options", VObj [("version", VStr "2021-06-30")])];
            Script.get_report (VStr "ID323") (VObj [("version", VStr "2021-06-30")]);
            Script.get_report (VStr "ID323") (VObj [("version", VStr "2021-06-30")]);
            Script.get_report (VStr "ID323") (VObj [("version", VStr "2021-06-30")]);
            VObj [("operation", VStr "reports.getReportDocument");
                  ("path", VObj [("reportDocumentId", VStr "DOC-1")]);
                  ("options", VObj [("version", VStr "2021-06-30")])]];
         Script.slept := [VNum 8; VNum 8];
         Script.logged := [] |})).
Proof. vm_compute. reflexivity. Qed.


(** ** Document download *)

(** Only an object has a truthy [url]. *)
Lemma truthy_url_object (details : value) :
  truthy (opt_prop details "url") = true -> exists o, details = VObj o.
Proof.
  destruct details as [| | b | n | s | l | o]; try discriminate;
    [intros E; vm_compute in E; discriminate .. | eauto].
Qed.

(** C10: a download that is answered with status 200, for a document that
    declares a compression algorithm (which passes the validation as [GZIP]
    only: any other fails it before a request is made), with the [unzip]
    option falsy, resolves with the concatenated chunks of the response as
    they are: whatever zlib, iconv, the XML, JSON and CSV parsers would do
    and whatever the [charset] and [json] options are. When a [file] is asked
    for, the content is written first (as [_saveFile] writes it: the buffer,
    or under [json] the [JSON.stringify] of the buffer) and the download
    fails only as the write fails. *)
Theorem download_keeps_compressed_bytes `{Runtime}
  (gunzip : bytes -> outcome bytes) (iconv_decode : bytes -> value -> string + value)
  (xml_parse csv_fromString : string -> outcome value)
  (fs_writeFile : value -> content -> outcome unit)
  (details options : value) (res : Response) (rest : list (outcome Response))
  (w : World) :
  remote w = Ok res :: rest ->
  statusCode res = 200%Z ->
  truthy (opt_prop details "url") = true ->
  truthy (opt_prop details "compressionAlgorithm") = true ->
  truthy (get_prop "unzip" (download_options options)) = false ->
  let run := download gunzip iconv_decode xml_parse csv_fromString fs_writeFile
               details options w in
  let raw := Buffer (Buffer_concat (chunks res)) in
  let file := get_prop "file" (download_options options) in
  let written :=
    if truthy (get_prop "json" (download_options options))
    then Data (JSON_stringify (Buffer_toJSON (Buffer_concat (chunks res))))
    else raw in
  let requested :=
    trace w ++ [Execute (VObj [("url", opt_prop details "url");
                               ("timeouts", get_prop "timeouts" (download_options options))])] in
  (is_str (opt_prop details "compressionAlgorithm") "GZIP" = false ->
   exists e, run = (Throw e, w) /\ code_of e = VStr "UNKNOWN_ZIP_STANDARD")
  /\ (is_str (opt_prop details "compressionAlgorithm") "GZIP" = true ->
      (truthy file = false ->
       run = (Ok raw, {| this := this w; remote := rest; trace := requested |}))
      /\ (truthy file = true ->
          run = (match fs_writeFile file written with
                 | Ok _ => Ok raw
                 | Throw e => Throw e
                 | Pending => Pending
                 end,
                 {| this := this w; remote := rest;
                    trace := requested ++ [WriteFile file written] |}))).
Proof.
  intros Hr Hs Hu Hc Hz. cbv zeta.
  destruct (truthy_url_object details Hu) as [o ->].
  destruct w as [c rs t]. cbn [this remote trace] in *. subst rs.
  unfold download.
  cbv [bind lift _validateDocumentDetails].
  cbn [truthy negb orb]. rewrite Hu, Hc. cbn [negb orb andb].
  split.
  - intros Hg. rewrite Hg. cbn [negb]. eexists. split; reflexivity.
  - intros Hg. rewrite Hg. cbn [negb].
    cbv [execute emit answer bind]. cbn [this remote trace].
    unfold _validateUpOrDownloadSuccess. rewrite Hs. cbn [Z.eqb Pos.eqb negb].
    rewrite Hz. cbn [andb orb negb]. cbv [ret when].
    split; intros Hf; rewrite Hf; [reflexivity |].
    unfold _saveFile. cbv [bind emit lift]. cbn [this remote trace].
    destruct (fs_writeFile _ _) as [[]|e|]; reflexivity.
Qed.

(** The download of a compressed document with [unzip: false], [json: true]
    and a [charset], by a client whose decoders all fail: the bytes of the
    response come back as they are. *)
Lemma download_keeps_compressed_bytes_witness :
  fst (download (H := Json.runtime) Fixtures.no_gunzip Fixtures.no_decode
         Fixtures.no_parse Fixtures.no_parse Fixtures.accept_write
         Fixtures.compressed_document Fixtures.keep_zipped
         (Fixtures.world Fixtures.fresh_client [Ok Fixtures.compressed_answer]))
  = Ok (Buffer [Byte.x1f; Byte.x8b; Byte.x08; Byte.x00; Byte.x4b; Byte.xcc]).
Proof.
  destruct (download_keeps_compressed_bytes (H := Json.runtime)
              Fixtures.no_gunzip Fixtures.no_decode Fixtures.no_parse Fixtures.no_parse
              Fixtures.accept_write Fixtures.compressed_document Fixtures.keep_zipped
              Fixtures.compressed_answer []
              (Fixtures.world Fixtures.fresh_client [Ok Fixtures.compressed_answer])
              eq_refl eq_refl eq_refl eq_refl eq_refl) as [_ Hgzip].
  destruct (Hgzip eq_refl) as [Hplain _].
  rewrite (Hplain eq_refl). reflexivity.
Defined.

(** ** Where the reference version of a fallback comes from

    [_getFallbackVersion] is called with an explicit version that passed
    [includes], or with a pin that the constructor validated: either way with
    one of the versions of the endpoint. *)

Lemma filter_nil_false {A : Type} (p : A -> bool) (l : list A) (x : A) :
  List.filter p l = [] -> In x l -> p x = false.
Proof.
  intros E Hin. destruct (p x) eqn:Ep; [| reflexivity].
  assert (In x (List.filter p l)) as Hx by (apply filter_In; split; assumption).
  rewrite E in Hx. destruct Hx.
Qed.

Lemma includes_value_In (a : list string) (v : value) :
  includes_value a v = true -> exists s, v = VStr s /\ In s a.
Proof.
  destruct v as [| | | |s| |]; try discriminate. simpl.
  intros E. apply existsb_exists in E as (x & Hin & Ex).
  apply String.eqb_eq in Ex. subst x. eauto.
Qed.

Section CallSites.
Variable endpoints : gmap string Endpoint.

(** The pins that the constructor accepts are versions of their endpoints. *)
Lemma pins_are_registered (endpoints_versions : list (string * value))
  (pins : gmap string string) (endpoint version : string) :
  _validateEndpointsVersions endpoints endpoints_versions = Ok pins ->
  pins !! endpoint = Some version ->
  exists ep, endpoints !! endpoint = Some ep /\ In version (__versions ep).
Proof.
  unfold _validateEndpointsVersions.
  destruct (List.filter _ (map fst endpoints_versions)) as [|? ?] eqn:E1; [| discriminate].
  destruct (List.filter _ (map fst endpoints_versions)) as [|? ?] eqn:E2 in |- *;
    [| discriminate].
  intros [= <-] Hp.
  apply elem_of_list_to_map_2, list_elem_of_In, in_map_iff in Hp
    as (k & [= -> <-] & Hin).
  pose proof (filter_nil_false _ _ endpoint E2 Hin) as Hk. cbv beta in Hk.
  destruct (endpoints !! endpoint) as [ep|]; [| discriminate].
  apply negb_false_iff, includes_value_In in Hk as (s & -> & Hs).
  exists ep. split; [reflexivity | exact Hs].
Qed.

(** The resolution of an explicit version: the version itself when it
    defines the operation, else the nearest older version that does. *)
Lemma explicit_version_resolution (c : Client) (operation endpoint : string)
  (version : value) (ep : Endpoint) (v : string) :
  endpoints !! endpoint = Some ep ->
  _validateLocallySetVersion endpoints c operation endpoint version = Ok v ->
  exists reference,
    version = VStr reference /\ In reference (__versions ep)
    /\ ((v = reference /\ defines ep v operation = true)
        \/ (defines ep reference operation = false
            /\ nearest_older ep operation reference v)).
Proof.
  intros Hep. unfold _validateLocallySetVersion, the_endpoint. rewrite Hep.
  cbn [obind]. destruct version as [| | | |reference| |]; try discriminate.
  destruct (existsb _ _) eqn:Hin; [| discriminate].
  apply existsb_exists in Hin as (x & Hin & Ex).
  apply String.eqb_eq in Ex. subst x.
  destruct (defines ep reference operation) eqn:Hd; cbn [negb].
  - intros [= <-]. exists reference. repeat split; [exact Hin |]. now left.
  - intros Hf. exists reference. repeat split; [exact Hin |]. right. split; [exact Hd |].
    now apply (fallback_returns_nearest_older endpoints c operation endpoint reference v ep).
Qed.

End CallSites.

(** ** The options of a download *)

(** An [unzip] that the caller sets is the one the download reads. *)
Lemma download_options_unzip (o : list (string * value)) (v : value) :
  List.NoDup (map fst o) ->
  lookup_prop "unzip" o = Some v ->
  get_prop "unzip" (download_options (VObj o)) = v.
Proof.
  intros Hnd Hv. unfold download_options, get_prop. cbn [own_props].
  now rewrite (lookup_assign_props_source "unzip" v o _ Hnd Hv).
Qed.

(** ** Where the normalization is applied *)

(** X1: An answer whose first error has a code of ASCII characters, and is
    neither a 403 [Unauthorized] whose details tell of an expired access
    token, nor a 429 [QuotaExceeded], nor an [InternalFailure] in sandbox
    mode, fails the call at once: the code of the error is the normalized
    code of the answer, [UNKNOWN_ERROR] for an empty code, and its message
    is the details or else the message of the answer. A 403 or a 429 of any
    other kind is among them. *)
Lemma remote_error_is_normalized `{Runtime} (req_params scope : value) (res : Response)
  (json_res errors error : value) (code : string) (w : World) :
  prop json_res "errors" = Ok errors ->
  truthy (opt_prop errors "length") = true ->
  prop errors "0" = Ok error ->
  prop error "code" = Ok (VStr code) ->
  ascii_only code = true ->
  ~ (statusCode res = 403%Z /\ code = "Unauthorized"
     /\ test_access_token_expired (ToString (opt_prop error "details")) = true) ->
  ~ (statusCode res = 429%Z /\ code = "QuotaExceeded") ->
  ~ (code = "InternalFailure" /\ use_sandbox (_options (this w)) = true) ->
  exists err,
    classify req_params scope res json_res w = (Throw err, w)
    /\ err = custom_error (if String.eqb code "" then "UNKNOWN_ERROR"
                           else normalize_code code)
               (logical_or (opt_prop error "details") (opt_prop error "message"))
    /\ code_of err
       = VStr (if String.eqb code "" then "UNKNOWN_ERROR" else normalize_code code)
    /\ message_of err
       = logical_or (opt_prop error "details") (opt_prop error "message").
Proof.
  intros He Hl H0 Hc _ H403 H429 Hsb.
  unfold classify, bind, client, lift. rewrite He, Hl, H0, Hc. cbn [is_str].
  assert ((statusCode res =? 403)%Z && String.eqb code "Unauthorized"
          && test_access_token_expired (ToString (opt_prop error "details")) = false) as ->.
  { destruct (_ && _ && _) eqn:E; [| reflexivity]. exfalso. apply H403.
    apply andb_prop in E as [E E3]. apply andb_prop in E as [E1 E2].
    apply Z.eqb_eq in E1. apply String.eqb_eq in E2. easy. }
  assert ((statusCode res =? 429)%Z && String.eqb code "QuotaExceeded" = false) as ->.
  { destruct (_ && _) eqn:E; [| reflexivity]. exfalso. apply H429.
    apply andb_prop in E as [E1 E2].
    apply Z.eqb_eq in E1. apply String.eqb_eq in E2. easy. }
  assert (String.eqb code "InternalFailure" && use_sandbox (_options (this w)) = false) as ->.
  { destruct (_ && _) eqn:E; [| reflexivity]. exfalso. apply Hsb.
    apply andb_prop in E as [E1 E2]. apply String.eqb_eq in E1. easy. }
  cbn [truthy]. destruct (String.eqb code "") eqn:Ee; cbn [negb]; unfold throw;
    eexists; (split; [reflexivity |]);
    rewrite code_of_custom_error, message_of_custom_error; now repeat split.
Qed.

(** A 403 whose message, not its details, tells of the expired token: it is
    no expired token for the client, which fails the call under the code
    [UNAUTHORIZED]. *)
Lemma remote_error_is_normalized_witness :
  exists err,
    classify (H := Json.runtime) Fixtures.raw_request VUndefined
      (Fixtures.json_response 403 [] Fixtures.expired_in_message)
      Fixtures.expired_in_message (Fixtures.world Fixtures.signed_in [])
    = (Throw err, Fixtures.world Fixtures.signed_in [])
    /\ code_of err = VStr "UNAUTHORIZED"
    /\ message_of err = VStr "The access token you provided has expired.".
Proof.
  destruct (remote_error_is_normalized (H := Json.runtime) Fixtures.raw_request VUndefined
              (Fixtures.json_response 403 [] Fixtures.expired_in_message)
              Fixtures.expired_in_message
              (VArr [VObj [("code", VStr "Unauthorized");
                           ("message",
                            VStr "The access token you provided has expired.")]])
              (VObj [("code", VStr "Unauthorized");
                     ("message", VStr "The access token you provided has expired.")])
              "Unauthorized" (Fixtures.world Fixtures.signed_in [])
              eq_refl eq_refl eq_refl eq_refl eq_refl)
    as (err & E & _ & Hcode & Hmessage).
  - intros (_ & _ & E). vm_compute in E. discriminate E.
  - intros (E & _). vm_compute in E. discriminate E.
  - intros (E & _). discriminate E.
  - exists err. split; [exact E |]. split; [exact Hcode | exact Hmessage].
Defined.

(** * Further properties of the client *)

(** ** The constructor *)

Section Constructed.
Variable endpoints : gmap string Endpoint.
Variable user_agent : string.
Variable Credentials_load : value -> value -> value -> outcome (value * value).
Variable Request_new : value -> list (string * value) -> outcome unit.


End Constructed.


(** ** Version pins and explicit versions *)

Lemma filter_nonempty {A : Type} (p : A -> bool) (l : list A) (x : A) :
  In x l -> p x = true -> List.filter p l <> [].
Proof.
  intros Hin Hp E.
  assert (In x (List.filter p l)) as Hx by (apply filter_In; split; assumption).
  rewrite E in Hx. destruct Hx.
Qed.

Section Pins.
Variable endpoints : gmap string Endpoint.

(** X3: The version pins of the configuration, none of them under a name that
    an object inherits, are checked as a whole: one name that is no endpoint
    of the registry fails the construction with
    [VERSION_DEFINED_FOR_INVALID_ENDPOINTS], before any version is looked
    at; one version that its endpoint does not have fails it with
    [INVALID_VERSION_FOR_ENDPOINTS]; and the pins that are accepted are kept
    as they are given, each a version of its endpoint. *)
Theorem version_pins_are_checked (endpoints_versions : list (string * value)) :
  let keys := map fst endpoints_versions in
  (forall k, In k keys -> inherited k = false) ->
  ((exists k, In k keys /\ endpoints !! k = None) ->
   exists e, _validateEndpointsVersions endpoints endpoints_versions = Throw e
             /\ code_of e = VStr "VERSION_DEFINED_FOR_INVALID_ENDPOINTS")
  /\ ((forall k, In k keys -> endpoints !! k <> None) ->
      (exists k ep, In k keys /\ endpoints !! k = Some ep
                    /\ includes_value (__versions ep) (get_prop k endpoints_versions)
                       = false) ->
      exists e, _validateEndpointsVersions endpoints endpoints_versions = Throw e
                /\ code_of e = VStr "INVALID_VERSION_FOR_ENDPOINTS")
  /\ (forall pins,
        _validateEndpointsVersions endpoints endpoints_versions = Ok pins ->
        (forall k, In k keys ->
                   exists version ep,
                     get_prop k endpoints_versions = VStr version
                     /\ pins !! k = Some version
                     /\ endpoints !! k = Some ep /\ In version (__versions ep))
        /\ (forall k, ~ In k keys -> pins !! k = None)).
Proof.
  intros keys _. split; [| split].
  - intros (k & Hin & Hk). unfold _validateEndpointsVersions. fold keys.
    destruct (List.filter _ keys) as [|x l] eqn:E.
    + exfalso. apply (filter_nonempty _ keys k Hin) in E; [exact E |]. now rewrite Hk.
    + eexists. split; reflexivity.
  - intros Hall (k & ep & Hin & Hk & Hv). unfold _validateEndpointsVersions. fold keys.
    destruct (List.filter _ keys) as [|x l] eqn:E1.
    + destruct (List.filter _ keys) as [|x l] eqn:E2 in |- *.
      * exfalso. apply (filter_nonempty _ keys k Hin) in E2; [exact E2 |].
        now rewrite Hk, Hv.
      * eexists. split; reflexivity.
    + exfalso. assert (In x (List.filter
                               (fun endpoint => match endpoints !! endpoint with
                                                | Some _ => false
                                                | None => true
                                                end) keys)) as Hx
          by (rewrite E1; now left).
      apply filter_In in Hx as [Hx Hn]. specialize (Hall x Hx).
      destruct (endpoints !! x); [discriminate | contradiction].
  - intros pins Hp. split.
    + intros k Hin.
      pose proof Hp as Hp'. unfold _validateEndpointsVersions in Hp'. fold keys in Hp'.
      destruct (List.filter _ keys) as [|? ?] eqn:E1 in Hp'; [| discriminate].
      destruct (List.filter _ keys) as [|? ?] eqn:E2 in Hp'; [| discriminate].
      injection Hp' as <-.
      pose proof (filter_nil_false _ _ k E2 Hin) as Hk. cbv beta in Hk.
      destruct (endpoints !! k) as [ep|] eqn:Hep; [| discriminate].
      apply negb_false_iff, includes_value_In in Hk as (version & Hv & Hs).
      exists version, ep. rewrite Hv. repeat split; [| exact Hs].
      apply elem_of_list_to_map_1'.
      * intros y Hy. apply list_elem_of_In, in_map_iff in Hy as (k' & [= -> <-] & _).
        now rewrite Hv.
      * apply list_elem_of_In, in_map_iff. exists k. rewrite Hv. now split.
    + intros k Hn.
      unfold _validateEndpointsVersions in Hp. fold keys in Hp.
      destruct (List.filter _ keys) as [|? ?] eqn:E1 in Hp; [| discriminate].
      destruct (List.filter _ keys) as [|? ?] eqn:E2 in Hp; [| discriminate].
      injection Hp as <-. apply not_elem_of_list_to_map_1.
      rewrite <- list_fmap_compose. intros Hk. apply Hn.
      apply list_elem_of_In in Hk. apply in_map_iff in Hk as (k' & Hk' & Hin).
      cbn in Hk'. now subst.
Qed.

(** X4: A call with no version of its own, of an endpoint that has a pin: the
    call resolves to the pin when the pinned version defines the operation,
    and else to the nearest older version that does, never to a newer one. *)
Theorem pinned_version_resolution (endpoints_versions : list (string * value))
  (c : Client) (operation endpoint version : string) (r : option string) :
  _validateEndpointsVersions endpoints endpoints_versions = Ok (_endpoints_versions c) ->
  _endpoints_versions c !! endpoint = Some version ->
  version <> EmptyString ->
  _validateGloballySetVersion endpoints c operation endpoint = Ok r ->
  exists ep v,
    endpoints !! endpoint = Some ep /\ In version (__versions ep) /\ r = Some v
    /\ ((v = version /\ defines ep version operation = true)
        \/ (defines ep version operation = false
            /\ nearest_older ep operation version v)).
Proof.
  intros Hp Hpin Hne.
  destruct (pins_are_registered endpoints _ _ _ _ Hp Hpin) as (ep & Hep & Hin).
  unfold _validateGloballySetVersion, the_endpoint. rewrite Hep, Hpin. cbn [obind].
  apply String.eqb_neq in Hne. rewrite Hne.
  destruct (defines ep version operation) eqn:Hd; cbn [negb].
  - intros [= <-]. exists ep, version. repeat split; auto.
  - destruct (_getFallbackVersion endpoints c operation endpoint version) as [v|e|] eqn:Hf;
      try discriminate.
    cbn [obind]. intros [= <-]. exists ep, v. repeat split; auto. right. split; [exact Hd |].
    now apply (fallback_returns_nearest_older endpoints c operation endpoint version v ep).
Qed.

(** X5: A call with a version of its own: a version that the endpoint does not
    have fails the call with [INVALID_VERSION]; one that it has resolves to
    itself when it defines the operation, and else to the nearest older
    version that does. *)
Theorem explicit_version_outcome (c : Client) (operation endpoint : string)
  (version : value) (ep : Endpoint) :
  endpoints !! endpoint = Some ep ->
  (includes_value (__versions ep) version = false ->
   exists e, _validateLocallySetVersion endpoints c operation endpoint version = Throw e
             /\ code_of e = VStr "INVALID_VERSION")
  /\ (forall v,
        _validateLocallySetVersion endpoints c operation endpoint version = Ok v ->
        exists reference,
          version = VStr reference /\ In reference (__versions ep)
          /\ ((v = reference /\ defines ep v operation = true)
              \/ (defines ep reference operation = false
                  /\ nearest_older ep operation reference v)))
  /\ (forall reference,
        version = VStr reference -> In reference (__versions ep) ->
        defines ep reference operation = true ->
        _validateLocallySetVersion endpoints c operation endpoint version = Ok reference).
Proof.
  intros Hep. split; [| split].
  - intros Hn. unfold _validateLocallySetVersion, the_endpoint. rewrite Hep. cbn [obind].
    destruct version as [| | | |reference| |]; try (eexists; split; reflexivity).
    cbn [includes_value] in Hn. rewrite Hn. eexists; split; reflexivity.
  - intros v. now apply explicit_version_resolution.
  - intros reference -> Hin Hd.
    unfold _validateLocallySetVersion, the_endpoint. rewrite Hep. cbn [obind].
    assert (existsb (String.eqb reference) (__versions ep) = true) as ->.
    { apply existsb_exists. exists reference. split; [exact Hin | apply String.eqb_refl]. }
    now rewrite Hd.
Qed.

End Pins.

(** The pins of the two endpoints of the fixtures, and a pin of an endpoint
    that is none. *)
Lemma version_pins_are_checked_witness :
  (exists pins,
     _validateEndpointsVersions Fixtures.endpoints
       [("shipping", VStr "2021-06-30"); ("merchantFulfillment", VStr "v0")] = Ok pins
     /\ pins !! "shipping" = Some "2021-06-30")
  /\ exists e,
       _validateEndpointsVersions Fixtures.endpoints
         [("shipping", VStr "2099-01-01"); ("reports", VStr "2021-06-30")] = Throw e
       /\ code_of e = VStr "VERSION_DEFINED_FOR_INVALID_ENDPOINTS".
Proof.
  split.
  - destruct (_validateEndpointsVersions Fixtures.endpoints
                [("shipping", VStr "2021-06-30"); ("merchantFulfillment", VStr "v0")])
      as [pins|e|] eqn:E; [| vm_compute in E; discriminate ..].
    exists pins. split; [reflexivity |].
    destruct (version_pins_are_checked Fixtures.endpoints
                [("shipping", VStr "2021-06-30"); ("merchantFulfillment", VStr "v0")])
      as (_ & _ & Hok); [intros k [<- | [<- | []]]; reflexivity |].
    destruct (Hok pins E) as [Hkeys _].
    destruct (Hkeys "shipping" (or_introl eq_refl)) as (version & ep & Hv & Hpin & _).
    rewrite Hpin. f_equal. cbv in Hv. now injection Hv as <-.
  - destruct (version_pins_are_checked Fixtures.endpoints
                [("shipping", VStr "2099-01-01"); ("reports", VStr "2021-06-30")])
      as (Hbad & _); [intros k [<- | [<- | []]]; reflexivity |].
    apply Hbad. exists "reports". split; [right; left; reflexivity |].
    vm_compute. reflexivity.
Defined.

(** A client that pins the newest version of the endpoint of the fixtures:
    an operation that this version lacks resolves to the nearest older
    version that has it. *)
Lemma pinned_version_resolution_witness :
  _validateGloballySetVersion Fixtures.endpoints Fixtures.pinned
    "createShipment" "shipping"
  = Ok (Some "2021-06-30").
Proof.
  destruct (_validateGloballySetVersion Fixtures.endpoints Fixtures.pinned
              "createShipment" "shipping") as [r|e|] eqn:E;
    [| vm_compute in E; discriminate ..].
  destruct (pinned_version_resolution Fixtures.endpoints
              [("shipping", VStr "2022-11-01")] Fixtures.pinned
              "createShipment" "shipping" "2022-11-01" r)
    as (ep & v & Hep & _ & -> & _); [vm_compute; reflexivity .. | discriminate | exact E |].
  vm_compute in E. exact (eq_sym E).
Defined.

Lemma explicit_version_outcome_witness :
  _validateLocallySetVersion Fixtures.endpoints Fixtures.fresh_client
    "createShipment" "shipping" (VStr "2021-06-30")
  = Ok "2021-06-30"
  /\ exists e,
       _validateLocallySetVersion Fixtures.endpoints Fixtures.fresh_client
         "createShipment" "shipping" (VStr "2023-01-01") = Throw e
       /\ code_of e = VStr "INVALID_VERSION".
Proof.
  split.
  - destruct (explicit_version_outcome Fixtures.endpoints Fixtures.fresh_client
                "createShipment" "shipping" (VStr "2021-06-30") Fixtures.shipping eq_refl)
      as (_ & _ & Hsame).
    apply Hsame; [reflexivity | right; left; reflexivity | reflexivity].
  - destruct (explicit_version_outcome Fixtures.endpoints Fixtures.fresh_client
                "createShipment" "shipping" (VStr "2023-01-01") Fixtures.shipping eq_refl)
      as (Hbad & _).
    apply Hbad. reflexivity.
Defined.

(** ** What the validations accept *)

(** A method that passes the validation is one of the five, in upper case. *)
Lemma validated_method (method m : value) :
  _validateMethod method = Ok m ->
  exists s, method = VStr s /\ m = VStr (toUpperCase s)
            /\ In (toUpperCase s) ["GET"; "POST"; "PUT"; "DELETE"; "PATCH"].
Proof.
  unfold _validateMethod. destruct (negb (truthy method)); [discriminate |].
  destruct method as [| | | |s| |]; try discriminate.
  destruct (existsb _ _) eqn:E; [| discriminate].
  intros [= <-]. exists s. repeat split.
  apply existsb_exists in E as (x & Hin & Ex). apply String.eqb_eq in Ex. now subst.
Qed.

Lemma validated_method_again (method m : value) :
  _validateMethod method = Ok m -> _validateMethod m = Ok m.
Proof.
  intros Hm. destruct (validated_method _ _ Hm) as (s & -> & -> & Hin).
  cbn [In] in Hin.
  destruct Hin as [<- | [<- | [<- | [<- | [<- | []]]]]]; reflexivity.
Qed.

(** X6: The HTTP method of a call by raw path passes the validation exactly
    when, in upper case, it is one of the five methods; what the validation
    returns is the method in upper case, which passes again as itself; a
    method that is missing fails with [NO_VALID_METHOD_PROVIDED]. *)
Theorem method_validation (method : value) :
  (forall m, _validateMethod method = Ok m ->
             exists s, method = VStr s /\ m = VStr (toUpperCase s)
                       /\ In (toUpperCase s) ["GET"; "POST"; "PUT"; "DELETE"; "PATCH"]
                       /\ _validateMethod m = Ok m)
  /\ (forall s, method = VStr s ->
                In (toUpperCase s) ["GET"; "POST"; "PUT"; "DELETE"; "PATCH"] ->
                _validateMethod method = Ok (VStr (toUpperCase s)))
  /\ (forall s, method = VStr s ->
                ~ In (toUpperCase s) ["GET"; "POST"; "PUT"; "DELETE"; "PATCH"] ->
                exists e, _validateMethod method = Throw e
                          /\ code_of e = VStr "NO_VALID_METHOD_PROVIDED")
  /\ (truthy method = false ->
      exists e, _validateMethod method = Throw e
                /\ code_of e = VStr "NO_VALID_METHOD_PROVIDED").
Proof.
  split; [| split; [| split]].
  - intros m Hm. destruct (validated_method _ _ Hm) as (s & -> & -> & Hin).
    exists s. repeat split; [exact Hin |]. exact (validated_method_again _ _ Hm).
  - intros s -> Hin. unfold _validateMethod.
    assert (truthy (VStr s) = true) as ->.
    { destruct s; [| reflexivity]. cbn in Hin. intuition discriminate. }
    cbn [negb].
    assert (existsb (String.eqb (toUpperCase s)) ["GET"; "POST"; "PUT"; "DELETE"; "PATCH"]
            = true) as ->; [| reflexivity].
    apply existsb_exists. exists (toUpperCase s). split; [exact Hin | apply String.eqb_refl].
  - intros s -> Hn. unfold _validateMethod.
    destruct (negb (truthy (VStr s))); [eexists; split; reflexivity |].
    destruct (existsb _ _) eqn:E; [| eexists; split; reflexivity].
    apply existsb_exists in E as (x & Hin & Ex). apply String.eqb_eq in Ex. now subst.
  - intros Ht. unfold _validateMethod. rewrite Ht. eexists. split; reflexivity.
Qed.

Lemma method_validation_witness :
  _validateMethod (VStr "patch") = Ok (VStr "PATCH")
  /\ _validateMethod (VStr "PATCH") = Ok (VStr "PATCH").
Proof.
  destruct (method_validation (VStr "patch")) as (Hagain & Hin & _).
  pose proof (Hin "patch" eq_refl
                (or_intror (or_intror (or_intror (or_intror (or_introl eq_refl))))))
    as Hpatch.
  split; [exact Hpatch |].
  destruct (Hagain _ Hpatch) as (s & _ & _ & _ & Hsame). exact Hsame.
Defined.

(** Strings with no dot, and the shorthand notation made of two of them. *)
Lemma includes_dot (s : string) :
  includes "." s = true <-> exists a b, s = a +:+ "." +:+ b.
Proof.
  induction s as [|c s IH].
  - split; [discriminate |]. intros ([|? ?] & b & E); discriminate.
  - cbn [includes starts_with]. destruct (Ascii.eqb "." c) eqn:Ec.
    + apply Ascii.eqb_eq in Ec. subst c. split; [| reflexivity].
      intros _. exists EmptyString, s. reflexivity.
    + cbn [andb orb]. rewrite IH. split.
      * intros (a & b & ->). exists (String c a), b. reflexivity.
      * intros ([|c' a] & b & E); injection E as Hc Hs.
        -- subst c. now rewrite Ascii.eqb_refl in Ec.
        -- eauto.
Qed.

Lemma split_no_dot (s : string) : includes "." s = false -> split_char "." s = [s].
Proof.
  induction s as [|c s IH]; [reflexivity |].
  cbn [includes starts_with split_char]. rewrite (Ascii.eqb_sym c ".").
  destruct (Ascii.eqb "." c); [discriminate |]. cbn [andb orb].
  intros Hs. now rewrite (IH Hs).
Qed.

Lemma split_shorthand (e o : string) :
  includes "." e = false -> split_char "." (e +:+ "." +:+ o) = e :: split_char "." o.
Proof.
  induction e as [|c e IH]; [reflexivity |].
  cbn [includes starts_with]. intros He.
  change (String c e +:+ "." +:+ o) with (String c (e +:+ "." +:+ o)).
  cbn [split_char]. rewrite (Ascii.eqb_sym c ".").
  destruct (Ascii.eqb "." c); [discriminate |]. cbn [andb orb] in He.
  now rewrite (IH He).
Qed.

Section Operations.
Variable endpoints : gmap string Endpoint.

(** X7: The shorthand notation [endpoint.operation] is read as the operation
    of that endpoint, whatever endpoint is given beside it; and a pair of
    operation and endpoint passes the validation only when the endpoint is
    one of the registry and the operation one of its operations. *)
Theorem shorthand_names_the_endpoint (e o : string) (given : value) :
  includes "." e = false -> includes "." o = false ->
  e <> EmptyString -> o <> EmptyString ->
  _validateOperationAndEndpoint endpoints (VStr (e +:+ "." +:+ o)) given
  = _validateOperationAndEndpoint endpoints (VStr o) (VStr e)
  /\ (forall operation endpoint,
        _validateOperationAndEndpoint endpoints (VStr o) (VStr e) = Ok (operation, endpoint) ->
        operation = o /\ endpoint = e
        /\ exists ep, endpoints !! e = Some ep /\ In o (__operations ep)).
Proof.
  intros He Ho Hne Hno.
  assert (truthy (VStr o) = true) as Hto by (destruct o; [contradiction | reflexivity]).
  assert (truthy (VStr e) = true) as Hte by (destruct e; [contradiction | reflexivity]).
  assert (truthy (VStr (e +:+ "." +:+ o)) = true) as Hts by (destruct e; reflexivity).
  assert (includes "." (e +:+ "." +:+ o) = true) as Hi by (apply includes_dot; eauto).
  assert (_validateOperationAndEndpoint endpoints (VStr o) (VStr e)
          = match endpoints !! e with
            | None =>
                Throw (custom_error "ENDPOINT_NOT_FOUND"
                         (VStr (template [VStr "No endpoint found: "; VStr e])))
            | Some ep =>
                if existsb (String.eqb o) (__operations ep) then Ok (o, e)
                else Throw (custom_error "INVALID_OPERATION_FOR_ENDPOINT"
                              (VStr (template [VStr "The operation "; VStr o;
                                               VStr " is not valid for endpoint ";
                                               VStr e])))
            end) as Eq.
  { unfold _validateOperationAndEndpoint. rewrite Hto, Ho, Hte. reflexivity. }
  split.
  - rewrite Eq. unfold _validateOperationAndEndpoint. rewrite Hts, Hi.
    rewrite (split_shorthand e o He), (split_no_dot o Ho). reflexivity.
  - intros operation endpoint. rewrite Eq.
    destruct (endpoints !! e) as [ep|]; [| discriminate].
    destruct (existsb _ _) eqn:E; [| discriminate].
    intros [= <- <-]. repeat split. exists ep. split; [reflexivity |].
    apply existsb_exists in E as (x & Hin & Ex). apply String.eqb_eq in Ex. now subst.
Qed.

End Operations.

Lemma shorthand_names_the_endpoint_witness :
  _validateOperationAndEndpoint Fixtures.endpoints
    (VStr "merchantFulfillment.getShipment") (VStr "shipping")
  = Ok ("getShipment", "merchantFulfillment").
Proof.
  destruct (shorthand_names_the_endpoint Fixtures.endpoints "merchantFulfillment"
              "getShipment" (VStr "shipping") eq_refl eq_refl)
    as [Hsame _]; [discriminate | discriminate |].
  change (VStr "merchantFulfillment.getShipment")
    with (VStr ("merchantFulfillment" +:+ "." +:+ "getShipment")).
  rewrite Hsame. vm_compute. reflexivity.
Defined.

(** ** The build phase of a call and its re-entry *)

Lemma set_prop_unchanged (k : string) (v : value) (o : list (string * value)) :
  lookup_prop k o = Some v -> set_prop k v o = o.
Proof.
  induction o as [|[k' v'] o IH]; [discriminate |]. cbn [lookup_prop set_prop].
  destruct (String.eqb k' k) eqn:E.
  - intros [= ->]. apply String.eqb_eq in E. now subst.
  - intros Hl. now rewrite IH.
Qed.

Lemma sent_app (t u : list Event) : sent (t ++ u) = sent t ++ sent u.
Proof. unfold sent. apply flat_map_app. Qed.

Lemma executed_app (t u : list Event) : executed (t ++ u) = executed t ++ executed u.
Proof. unfold executed. apply flat_map_app. Qed.

Lemma finish_params_lookup (options rp : list (string * value)) (c : Client) (k : string) :
  k <> "timeouts" -> k <> "restore_rate" ->
  lookup_prop k (finish_params options rp c) = lookup_prop k rp.
Proof.
  intros H1 H2. unfold finish_params.
  rewrite lookup_set_prop_other by congruence.
  destruct (_ && _); [| reflexivity]. now rewrite lookup_set_prop_other by congruence.
Qed.

Lemma finish_params_again (options rp : list (string * value)) (c : Client) :
  finish_params options (finish_params options rp c) c = finish_params options rp c.
Proof.
  unfold finish_params at 1.
  assert (lookup_prop "timeouts" (finish_params options rp c)
          = Some (call_timeouts c options)) as Ht
      by (unfold finish_params; apply lookup_set_prop_same).
  destruct (truthy (get_prop "restore_rate" options)
            && negb (isNaN (get_prop "restore_rate" options))) eqn:E.
  - assert (lookup_prop "restore_rate" (finish_params options rp c)
            = Some (get_prop "restore_rate" options)) as Hr.
    { unfold finish_params. rewrite E.
      rewrite lookup_set_prop_other by discriminate. apply lookup_set_prop_same. }
    rewrite (set_prop_unchanged _ _ _ Hr). now apply set_prop_unchanged.
  - now apply set_prop_unchanged.
Qed.

Section BuildPhase.
Variable endpoints : gmap string Endpoint.

(** The build phase of a call by raw path. *)
Lemma build_raw_path (o : list (string * value)) (w : World) :
  truthy (get_prop "api_path" o) = true ->
  build endpoints (VObj o) w
  = match _validateMethod (get_prop "method" o) with
    | Ok method =>
        let options := assign_props [] (own_props (get_prop "options" o)) in
        (Ok (options, finish_params options (set_prop "method" method o) (this w)),
         {| this := with_current_call_timeouts (call_timeouts (this w) options) (this w);
            remote := remote w; trace := trace w |})
    | Throw e => (Throw e, w)
    | Pending => (Pending, w)
    end.
Proof.
  intros Hp. unfold build. cbn [prop opt_prop]. rewrite Hp.
  cbv [bind lift ret client update].
  destruct (_validateMethod (get_prop "method" o)) as [m|e|]; reflexivity.
Qed.

Lemma build_stable (o options rp : list (string * value)) (w w1 : World) :
  truthy (get_prop "api_path" o) = true ->
  build endpoints (VObj o) w = (Ok (options, rp), w1) ->
  forall w', this w' = this w1 ->
             build endpoints (VObj rp) w' = (Ok (options, rp), w').
Proof.
  intros Hp Hb w' Hw'. rewrite (build_raw_path o w Hp) in Hb.
  destruct (_validateMethod (get_prop "method" o)) as [m|e|] eqn:Hm; try discriminate.
  cbv zeta in Hb. injection Hb as Ho Hrp Hw1. rewrite Ho in Hrp, Hw1.
  set (c := this w) in *.
  assert (lookup_prop "method" rp = Some m) as Hmethod.
  { subst rp. rewrite finish_params_lookup by discriminate. apply lookup_set_prop_same. }
  assert (get_prop "api_path" rp = get_prop "api_path" o) as Hpath.
  { subst rp. unfold get_prop. rewrite finish_params_lookup by discriminate.
    now rewrite lookup_set_prop_other by discriminate. }
  assert (get_prop "options" rp = get_prop "options" o) as Hopt.
  { subst rp. unfold get_prop. rewrite finish_params_lookup by discriminate.
    now rewrite lookup_set_prop_other by discriminate. }
  rewrite build_raw_path by (now rewrite Hpath).
  unfold get_prop at 1. rewrite Hmethod, (validated_method_again _ _ Hm). cbv zeta.
  rewrite Hopt, Ho, (set_prop_unchanged _ _ _ Hmethod).
  assert (call_timeouts (this w') options = call_timeouts c options) as Hc
      by (rewrite Hw', <- Hw1; reflexivity).
  assert (finish_params options rp (this w') = rp) as ->.
  { unfold finish_params at 1. rewrite Hc. fold (finish_params options rp c).
    rewrite <- Hrp. apply finish_params_again. }
  rewrite Hc. f_equal. destruct w' as [c' rs t]. cbn [this remote trace] in *.
  subst c'. rewrite <- Hw1. reflexivity.
Qed.

(** X8: A call by raw path re-enters with request parameters that build to
    themselves: the method in upper case validates to itself, the restore
    rate and the timeouts are set to what they are already, the options
    are read again from the same place, and the timeouts that the client
    keeps for the call stay. *)
Theorem reentry_builds_the_same_request (o options rp : list (string * value))
  (w w1 : World) :
  truthy (get_prop "api_path" o) = true ->
  build endpoints (VObj o) w = (Ok (options, rp), w1) ->
  build endpoints (VObj rp) w1 = (Ok (options, rp), w1)
  /\ (forall rs t,
        build endpoints (VObj rp) {| this := this w1; remote := rs; trace := t |}
        = (Ok (options, rp), {| this := this w1; remote := rs; trace := t |})).
Proof.
  intros Hp Hb. split.
  - now apply (build_stable o options rp w w1 Hp Hb).
  - intros rs t. now apply (build_stable o options rp w w1 Hp Hb).
Qed.

End BuildPhase.

(** A request by raw path with a lower-case method and a restore rate in
    its options: what the first pass builds, the second pass builds again. *)
Lemma reentry_builds_the_same_request_witness :
  let o := [("api_path", VStr "/fba/inventory/v1/summaries"); ("method", VStr "get");
            ("options", VObj [("restore_rate", VNum 2)])] in
  let rp := [("api_path", VStr "/fba/inventory/v1/summaries"); ("method", VStr "GET");
             ("options", VObj [("restore_rate", VNum 2)]);
             ("restore_rate", VNum 2); ("timeouts", VObj [])] in
  let w1 := Fixtures.world Fixtures.signed_in [] in
  build Fixtures.endpoints (VObj o) w1 = (Ok ([("restore_rate", VNum 2)], rp), w1)
  /\ build Fixtures.endpoints (VObj rp) w1 = (Ok ([("restore_rate", VNum 2)], rp), w1).
Proof.
  cbv zeta. split; [vm_compute; reflexivity |].
  apply (reentry_builds_the_same_request Fixtures.endpoints
           [("api_path", VStr "/fba/inventory/v1/summaries"); ("method", VStr "get");
            ("options", VObj [("restore_rate", VNum 2)])]
           [("restore_rate", VNum 2)] _
           (Fixtures.world Fixtures.signed_in []) (Fixtures.world Fixtures.signed_in [])).
  - vm_compute; reflexivity.
  - vm_compute; reflexivity.
Defined.

Section BuildEffects.
Variable endpoints : gmap string Endpoint.

(** The request parameters that the build phase goes on with, before the
    restore rate and the timeouts are set: nothing is changed but, in a call
    by operation, warnings are issued. *)
Lemma build_effects (req_params : value) (w w1 : World)
  (r : outcome (list (string * value) * list (string * value))) :
  build endpoints req_params w = (r, w1) ->
  remote w1 = remote w
  /\ (exists warnings, trace w1 = trace w ++ warnings
                       /\ forallb is_warning warnings = true)
  /\ match r with
     | Ok (options, rp) =>
         options = assign_props [] (own_props (opt_prop req_params "options"))
         /\ this w1 = with_current_call_timeouts (call_timeouts (this w) options) (this w)
         /\ get_prop "timeouts" rp = call_timeouts (this w) options
     | _ => this w1 = this w
     end.
Proof.
  destruct w as [c rs t]. unfold build.
  unfold bind at 1. unfold lift at 1.
  destruct (prop req_params "options") as [opts|e|] eqn:Ho;
    [| intros [= <- <-]; repeat split; exists []; now rewrite app_nil_r ..].
  assert (opt_prop req_params "options" = opts) as Hopts by (unfold opt_prop; now rewrite Ho).
  rewrite Hopts.
  unfold bind at 1.
  match goal with |- context [match ?m {| this := c; remote := rs; trace := t |} with _ => _ end] =>
    assert (exists r0 warnings, m {| this := c; remote := rs; trace := t |}
            = (r0, {| this := c; remote := rs; trace := t ++ warnings |})
            /\ forallb is_warning warnings = true) as (r0 & warnings & -> & Hw)
  end.
  { destruct (truthy (opt_prop req_params "api_path")).
    - destruct req_params as [| | | | | |o];
        try (exists (Throw TypeError), []; now rewrite app_nil_r).
      unfold bind, lift, ret.
      destruct (_validateMethod (get_prop "method" o)) as [m|e|];
        eexists _, []; rewrite app_nil_r; split; reflexivity.
    - unfold bind at 1. unfold lift at 1.
      destruct (_validateOperationAndEndpoint _ _ _) as [[operation endpoint]|e|];
        [| eexists _, []; rewrite app_nil_r; split; reflexivity ..].
      unfold bind at 1. unfold client at 1. cbn [this].
      unfold bind at 1. unfold lift at 1.
      destruct (_validateAndGetVersion _ _ _ _ _) as [version|e|];
        [| eexists _, []; rewrite app_nil_r; split; reflexivity ..].
      unfold bind at 1. unfold lift at 1.
      destruct (call_builder _ _ _ _ _) as [b|e|];
        [| eexists _, []; rewrite app_nil_r; split; reflexivity ..].
      unfold bind at 1. unfold lift at 1.
      destruct (prop (argument b) "headers") as [headers|e|];
        [| eexists _, []; rewrite app_nil_r; split; reflexivity ..].
      cbv zeta. unfold bind, when, emit, ret. cbn [this remote trace].
      destruct (truthy (get_prop "deprecation_date" _));
        destruct (negb (use_sandbox (_options c)) && truthy (get_prop "sandbox_only" _));
        cbn [this remote trace]; rewrite <- ?app_assoc;
        first [ eexists _, _; split; [reflexivity |]; reflexivity
              | eexists _, []; rewrite app_nil_r; split; reflexivity ]. }
  destruct r0 as [rp0|e|];
    [| intros [= <- <-]; cbn [this remote trace]; repeat split; eauto ..].
  cbv zeta. unfold bind, client, update, ret. cbn [this remote trace].
  intros [= <- <-]. cbn [this remote trace]. repeat split; eauto.
  unfold get_prop. now rewrite lookup_set_prop_same.
Qed.

End BuildEffects.

(** ** The build phase of a call by operation *)

Section OperationCalls.
Variable endpoints : gmap string Endpoint.

(** X9: A call by operation is built by the builder that the registry has for
    the resolved version, and the properties of the [headers] of the caller
    are then laid over what the builder returns, at the top level of the
    request parameters: a header wins over a property of the same name that
    the builder set, and every other property is the builder's. Nothing is
    sent while the call is built; a warning is issued for an operation that
    is deprecated, and for one that is for the sandbox only when the client
    is not in sandbox mode. *)
Theorem headers_are_laid_over_the_request (req_params opts headers : value)
  (operation endpoint : string) (version : option string) (b : built) (w : World) :
  truthy (opt_prop req_params "api_path") = false ->
  prop req_params "options" = Ok opts ->
  _validateOperationAndEndpoint endpoints (opt_prop req_params "operation")
    (opt_prop req_params "endpoint") = Ok (operation, endpoint) ->
  _validateAndGetVersion endpoints (this w) operation endpoint
    (get_prop "version" (assign_props [] (own_props opts))) = Ok version ->
  call_builder endpoints endpoint version operation req_params = Ok b ->
  prop (argument b) "headers" = Ok headers ->
  let options := assign_props [] (own_props opts) in
  let of_builder := assign_props [] (own_props (returned b)) in
  let of_caller := own_props (logical_or headers (VObj [])) in
  let merged := assign_props of_builder of_caller in
  build endpoints req_params w
  = (Ok (options, finish_params options merged (this w)),
     {| this := with_current_call_timeouts (call_timeouts (this w) options) (this w);
        remote := remote w;
        trace :=
          (trace w
           ++ (if truthy (get_prop "deprecation_date" merged)
               then [Warn "DEPRECATION" (get_prop "deprecation_date" merged)] else []))
          ++ (if negb (use_sandbox (_options (this w)))
                 && truthy (get_prop "sandbox_only" merged)
              then [Warn "SANDBOX_ONLY" (VStr operation)] else []) |})
  /\ (forall k v, List.NoDup (map fst of_caller) -> lookup_prop k of_caller = Some v ->
                  lookup_prop k merged = Some v)
  /\ (forall k, lookup_prop k of_caller = None ->
                lookup_prop k merged = lookup_prop k of_builder).
Proof.
  intros Hp Ho Hv Hr Hb Hh options of_builder of_caller merged.
  split; [| split].
  - destruct w as [c rs t]. cbn [this remote trace] in *.
    unfold build. cbv [bind lift client]. rewrite Ho, Hp. cbn [this].
    rewrite Hv. cbn [this]. rewrite Hr, Hb, Hh. fold options.
    fold of_builder of_caller merged.
    cbv [when emit ret update]. cbn [this remote trace].
    destruct (truthy (get_prop "deprecation_date" merged));
      destruct (negb (use_sandbox (_options c)) && truthy (get_prop "sandbox_only" merged));
      cbn [this remote trace]; rewrite ?app_nil_r; reflexivity.
  - intros k v Hnd Hk. now apply lookup_assign_props_source.
  - intros k Hk. now apply lookup_assign_props_target.
Qed.

End OperationCalls.

(** A call of [createShipment] with a header named [method]: the request
    that is built has the header as its method. *)
Lemma headers_are_laid_over_the_request_witness :
  match fst (build Fixtures.endpoints
               (VObj [("operation", VStr "merchantFulfillment.createShipment");
                      ("headers", VObj [("method", VStr "PUT")])])
               (Fixtures.world Fixtures.signed_in [])) with
  | Ok (_, rp) => get_prop "method" rp = VStr "PUT"
                  /\ get_prop "api_path" rp = VStr "/mfn/v0/shipments"
  | _ => False
  end.
Proof.
  destruct (headers_are_laid_over_the_request Fixtures.endpoints
              (VObj [("operation", VStr "merchantFulfillment.createShipment");
                     ("headers", VObj [("method", VStr "PUT")])])
              VUndefined (VObj [("method", VStr "PUT")])
              "createShipment" "merchantFulfillment" (Some "v0")
              {| returned := VObj [("operation", VStr "merchantFulfillment.createShipment");
                                   ("headers", VObj [("method", VStr "PUT")]);
                                   ("method", VStr "POST");
                                   ("api_path", VStr "/mfn/v0/shipments");
                                   ("restore_rate", VNum 0.5)];
                 argument := VObj [("operation", VStr "merchantFulfillment.createShipment");
                                   ("headers", VObj [("method", VStr "PUT")]);
                                   ("method", VStr "POST");
                                   ("api_path", VStr "/mfn/v0/shipments");
                                   ("restore_rate", VNum 0.5)] |}
              (Fixtures.world Fixtures.signed_in []))
    as (Hbuild & Hcaller & Hbuilder); [vm_compute; reflexivity .. |].
  rewrite Hbuild. cbn [fst]. unfold get_prop.
  rewrite !finish_params_lookup by discriminate.
  rewrite (Hcaller "method" (VStr "PUT")); [| repeat constructor; cbn; tauto | reflexivity].
  rewrite (Hbuilder "api_path"); [| reflexivity].
  split; reflexivity.
Defined.

(** ** The two retries, repeated *)

Section Passes.
Context `{Runtime}.
Variable endpoints : gmap string Endpoint.

(** With a token at hand nothing is requested. *)
Lemma validate_token_present (scope : value) (w : World) :
  _tokenExists (this w) scope = true -> _validateAccessToken scope w = (Ok tt, w).
Proof.
  intros Ht. unfold _validateAccessToken, bind, client, when.
  rewrite Ht. cbn [negb andb]. rewrite andb_false_r. unfold ret. cbn. now rewrite Ht.
Qed.

Lemma authorize_present (rp : list (string * value)) (w : World) :
  only_grantless_operations (_options (this w)) && negb (truthy (get_prop "scope" rp)) = false ->
  _tokenExists (this w) (get_prop "scope" rp) = true ->
  authorize rp w = (Ok (token_for_request (this w) rp), w).
Proof.
  intros Hg Ht. unfold authorize, bind, client, lift, _validateOperationAllowance.
  rewrite Hg. now rewrite (validate_token_present _ _ Ht).
Qed.

Lemma callAPI_reenter (fuel : nat) (req rp : value) (w w' : World) :
  callAPI_pass endpoints req w = (Ok (Reenter rp), w') ->
  callAPI endpoints (S fuel) req w = callAPI endpoints fuel rp w'.
Proof. intros E. cbn [callAPI]. unfold bind. now rewrite E. Qed.

Lemma callAPI_done (fuel : nat) (req : value) (r : api_result) (w w' : World) :
  callAPI_pass endpoints req w = (Ok (Done r), w') ->
  callAPI endpoints (S fuel) req w = (Ok r, w').
Proof. intros E. cbn [callAPI]. unfold bind. now rewrite E. Qed.

Lemma callAPI_throws (fuel : nat) (req : value) (e : error) (w w' : World) :
  callAPI_pass endpoints req w = (Throw e, w') ->
  callAPI endpoints (S fuel) req w = (Throw e, w').
Proof. intros E. cbn [callAPI]. unfold bind. now rewrite E. Qed.

(** A pass that is answered with a throttled response, by a client that
    retries and holds a token. *)
Lemma throttled_pass (req : value) (options rp : list (string * value)) (w w1 : World)
  (res : Response) (json_res errors error : value) (rest : list (outcome Response)) :
  build endpoints req w = (Ok (options, rp), w1) ->
  truthy (get_prop "raw_result" options) = false ->
  only_grantless_operations (_options (this w1)) && negb (truthy (get_prop "scope" rp)) = false ->
  _tokenExists (this w1) (get_prop "scope" rp) = true ->
  auto_request_throttled (_options (this w1)) = true ->
  statusCode res = 429%Z ->
  JSON_parse (strip_newlines (body res)) = Some json_res ->
  prop json_res "errors" = Ok errors ->
  truthy (opt_prop errors "length") = true ->
  prop errors "0" = Ok error ->
  prop error "code" = Ok (VStr "QuotaExceeded") ->
  remote w1 = Ok res :: rest ->
  exists w',
    callAPI_pass endpoints req w = (Ok (Reenter (VObj rp)), w')
    /\ this w' = this w1 /\ remote w' = rest
    /\ sent (trace w') = sent (trace w1) ++ [(token_for_request (this w1) rp, VObj rp)]
    /\ waits (trace w') = waits (trace w1) ++ throttle_delays (VObj rp) res.
Proof.
  intros Hb Hraw Hg Ht Hauto Hs Hj He Hl H0 Hc Hr.
  pose (w2 := {| this := this w1; remote := rest;
                 trace := trace w1 ++ [Api (token_for_request (this w1) rp) (VObj rp)] |}).
  assert (api (token_for_request (this w1) rp) (VObj rp) w1 = (Ok res, w2)) as Ha.
  { unfold api, bind, emit, answer. cbn [this remote trace]. now rewrite Hr. }
  assert (statusCode res <> 204%Z) as Hn by (rewrite Hs; discriminate).
  rewrite (callAPI_pass_classify endpoints req options rp _ res json_res w w1 w1 w2
             Hb (authorize_present rp w1 Hg Ht) Ha Hraw Hn Hj).
  assert (classify (VObj rp) (get_prop "scope" rp) res json_res w2
          = _retryThrottledRequest (VObj rp) res w2) as ->.
  { unfold classify at 1, bind, client, lift. rewrite He, Hl, H0, Hc, Hs.
    cbn [this w2]. rewrite Hauto. reflexivity. }
  rewrite retry_throttled_run. eexists. split; [reflexivity |].
  cbn [this remote trace w2]. repeat split.
  - unfold throttle_delays.
    destruct (truthy (header res rate_limit_header)); cbn [orb];
      [| destruct (truthy (opt_prop (VObj rp) "restore_rate"))];
      try destruct (debug_log _); rewrite ?sent_app; cbn [sent flat_map app];
      rewrite ?app_nil_r; reflexivity.
  - unfold throttle_delays.
    destruct (truthy (header res rate_limit_header)); cbn [orb];
      [| destruct (truthy (opt_prop (VObj rp) "restore_rate"))];
      try destruct (debug_log _); rewrite ?waits_app; cbn [waits flat_map app];
      rewrite ?app_nil_r; reflexivity.
Qed.

Lemma throttled_loop (options rp : list (string * value)) (c : Client)
  (res : Response) (json_res errors error : value) (rest : list (outcome Response))
  (n : nat) :
  (forall w, this w = c -> build endpoints (VObj rp) w = (Ok (options, rp), w)) ->
  truthy (get_prop "raw_result" options) = false ->
  only_grantless_operations (_options c) && negb (truthy (get_prop "scope" rp)) = false ->
  _tokenExists c (get_prop "scope" rp) = true ->
  auto_request_throttled (_options c) = true ->
  statusCode res = 429%Z ->
  JSON_parse (strip_newlines (body res)) = Some json_res ->
  prop json_res "errors" = Ok errors ->
  truthy (opt_prop errors "length") = true ->
  prop errors "0" = Ok error ->
  prop error "code" = Ok (VStr "QuotaExceeded") ->
  forall k w,
    this w = c ->
    remote w = repeat (Ok res) k ++ rest ->
    exists w',
      callAPI endpoints (k + n) (VObj rp) w = callAPI endpoints n (VObj rp) w'
      /\ this w' = c /\ remote w' = rest
      /\ sent (trace w') = sent (trace w) ++ repeat (token_for_request c rp, VObj rp) k
      /\ waits (trace w')
         = waits (trace w) ++ List.concat (repeat (throttle_delays (VObj rp) res) k).
Proof.
  intros Hst Hraw Hg Ht Hauto Hs Hj He Hl H0 Hc.
  induction k as [|k IH]; intros w Hw Hr.
  - exists w. cbn [repeat app List.concat Nat.add] in *. now rewrite !app_nil_r.
  - cbn [repeat app] in Hr.
    destruct (throttled_pass (VObj rp) options rp w w res json_res errors error
                (repeat (Ok res) k ++ rest) (Hst w Hw))
      as (w1 & Hp & Hc1 & Hr1 & Hsent & Hwaits); try (rewrite ?Hw; assumption).
    destruct (IH w1 (eq_trans Hc1 Hw) Hr1) as (w' & E & Hc' & Hr' & Hsent' & Hwaits').
    exists w'. cbn [Nat.add]. rewrite (callAPI_reenter _ _ _ _ _ Hp), E.
    repeat split; [assumption | assumption | |].
    + rewrite Hsent', Hsent, Hw, <- app_assoc. reflexivity.
    + rewrite Hwaits', Hwaits, <- app_assoc. reflexivity.
Qed.

(** X10: However often a call by raw path is throttled, it is sent again: a
    client that retries, holds a token and is answered [k + 1] times with a
    429 whose first error is [QuotaExceeded] sends the request that its
    first pass built [k + 1] times over, each time with the same token,
    waits after each answer as the answer asks, and goes on with what the
    remote side answers next. No count of retries ends the call. *)
Theorem throttled_call_is_repeated (o options rp : list (string * value)) (w0 w1 : World)
  (res : Response) (json_res errors error : value) (rest : list (outcome Response))
  (k n : nat) :
  truthy (get_prop "api_path" o) = true ->
  build endpoints (VObj o) w0 = (Ok (options, rp), w1) ->
  truthy (get_prop "raw_result" options) = false ->
  only_grantless_operations (_options (this w0)) && negb (truthy (get_prop "scope" rp))
  = false ->
  _tokenExists (this w0) (get_prop "scope" rp) = true ->
  auto_request_throttled (_options (this w0)) = true ->
  statusCode res = 429%Z ->
  JSON_parse (strip_newlines (body res)) = Some json_res ->
  prop json_res "errors" = Ok errors ->
  truthy (opt_prop errors "length") = true ->
  prop errors "0" = Ok error ->
  prop error "code" = Ok (VStr "QuotaExceeded") ->
  remote w0 = repeat (Ok res) (S k) ++ rest ->
  exists w',
    callAPI endpoints (S k + n) (VObj o) w0 = callAPI endpoints n (VObj rp) w'
    /\ this w' = this w1 /\ remote w' = rest
    /\ sent (trace w')
       = sent (trace w0) ++ repeat (token_for_request (this w0) rp, VObj rp) (S k)
    /\ waits (trace w')
       = waits (trace w0) ++ List.concat (repeat (throttle_delays (VObj rp) res) (S k)).
Proof.
  intros Hp Hb Hraw Hg Ht Hauto Hs Hj He Hl H0 Hc Hr.
  destruct (build_effects endpoints _ _ _ _ Hb) as (Hr1 & (warnings & Htr & Hw) & _ & Hc1 & _).
  assert (trace w1 = trace w0) as Htrace.
  { rewrite (build_raw_path endpoints o w0 Hp) in Hb.
    destruct (_validateMethod _); try discriminate. now injection Hb as _ _ <-. }
  assert (token_for_request (this w1) rp = token_for_request (this w0) rp) as Htok
      by (rewrite Hc1; reflexivity).
  cbn [repeat app] in Hr.
  destruct (throttled_pass (VObj o) options rp w0 w1 res json_res errors error
              (repeat (Ok res) k ++ rest) Hb Hraw)
    as (w2 & Hpass & Hc2 & Hr2 & Hsent & Hwaits);
    try (rewrite Hc1; assumption); try assumption; [now rewrite Hr1 |].
  destruct (throttled_loop options rp (this w1) res json_res errors error rest n)
    with (k := k) (w := w2) as (w' & E & Hc' & Hr' & Hsent' & Hwaits');
    try (rewrite Hc1; assumption); try assumption.
  { intros w Hthis. now apply (build_stable endpoints o options rp w0 w1 Hp Hb). }
  exists w'. cbn [Nat.add]. rewrite (callAPI_reenter _ _ _ _ _ Hpass), E.
  repeat split; [assumption | assumption | |].
  - rewrite Hsent', Hsent, Htrace, Htok, <- app_assoc. reflexivity.
  - rewrite Hwaits', Hwaits, Htrace, <- app_assoc. reflexivity.
Qed.

End Passes.

(** A call that is throttled twice, with a rate limit of 2 in the header of
    each answer, and then answered: three requests, two waits of half a
    second, and the payload of the last answer. *)
Lemma throttled_call_is_repeated_witness :
  let limited :=
    Fixtures.json_response 429 [("x-amzn-ratelimit-limit", "2")] Fixtures.throttled in
  let w0 :=
    Fixtures.world Fixtures.signed_in
      [Ok limited; Ok limited; Ok (Fixtures.json_response 200 [] Fixtures.summaries)] in
  exists w',
    callAPI (H := Json.runtime) Fixtures.endpoints 3 Fixtures.raw_request w0
    = callAPI (H := Json.runtime) Fixtures.endpoints 1
        (VObj [("api_path", VStr "/fba/inventory/v1/summaries"); ("method", VStr "GET");
               ("timeouts", VObj [])]) w'
    /\ waits (trace w') = [VNum 0.5; VNum 0.5]
    /\ List.length (sent (trace w')) = 2
    /\ fst (callAPI (H := Json.runtime) Fixtures.endpoints 3 Fixtures.raw_request w0)
       = Ok (Plain (VObj [("nextToken", VStr "seed");
                          ("granularity", VStr "Marketplace");
                          ("inventorySummaries", VArr [])])).
Proof.
  cbv zeta.
  destruct (throttled_call_is_repeated (H := Json.runtime) Fixtures.endpoints
              [("api_path", VStr "/fba/inventory/v1/summaries"); ("method", VStr "GET")]
              []
              [("api_path", VStr "/fba/inventory/v1/summaries"); ("method", VStr "GET");
               ("timeouts", VObj [])]
              (Fixtures.world Fixtures.signed_in
                 [Ok (Fixtures.json_response 429 [("x-amzn-ratelimit-limit", "2")]
                        Fixtures.throttled);
                  Ok (Fixtures.json_response 429 [("x-amzn-ratelimit-limit", "2")]
                        Fixtures.throttled);
                  Ok (Fixtures.json_response 200 [] Fixtures.summaries)])
              (Fixtures.world Fixtures.signed_in
                 [Ok (Fixtures.json_response 429 [("x-amzn-ratelimit-limit", "2")]
                        Fixtures.throttled);
                  Ok (Fixtures.json_response 429 [("x-amzn-ratelimit-limit", "2")]
                        Fixtures.throttled);
                  Ok (Fixtures.json_response 200 [] Fixtures.summaries)])
              (Fixtures.json_response 429 [("x-amzn-ratelimit-limit", "2")]
                 Fixtures.throttled)
              Fixtures.throttled
              (VArr [VObj [("code", VStr "QuotaExceeded");
                           ("message",
                            VStr "You exceeded your quota for the requested resource.")]])
              (VObj [("code", VStr "QuotaExceeded");
                     ("message",
                      VStr "You exceeded your quota for the requested resource.")])
              [Ok (Fixtures.json_response 200 [] Fixtures.summaries)] 1 1)
    as (w' & E & _ & _ & Hsent & Hwaits); [vm_compute; reflexivity .. |].
  exists w'. split; [exact E |]. split; [rewrite Hwaits; vm_compute; reflexivity |].
  split; [rewrite Hsent; reflexivity |]. vm_compute; reflexivity.
Defined.

(** ** What a pass sends, and when *)

Lemma warnings_send_nothing (warnings : list Event) :
  forallb is_warning warnings = true ->
  sent warnings = [] /\ executed warnings = [] /\ waits warnings = []
  /\ written warnings = [].
Proof.
  induction warnings as [|e l IH]; [now repeat split |].
  cbn [forallb]. intros Hw. apply andb_prop in Hw as [He Hl].
  destruct e; try discriminate. now apply IH.
Qed.

(** A successful refresh leaves the token of its scope in place. *)
Lemma refresh_stores_token `{Runtime} (scope : value) (w w' : World) :
  refreshAccessToken scope w = (Ok tt, w') -> _tokenExists (this w') scope = true.
Proof.
  destruct w as [c rs t].
  cbv [refreshAccessToken bind client lift execute emit answer]. cbn [this remote trace].
  destruct (_constructRefreshAccessTokenBody c scope) as [request|e|]; try discriminate.
  cbn [remote]. destruct rs as [|[res|e|] rest]; try discriminate.
  destruct (JSON_parse (body res)) as [json_res|]; [| discriminate].
  destruct (prop json_res "access_token") as [token|e|]; try discriminate.
  destruct (truthy token) eqn:Ht.
  - destruct (truthy scope) eqn:Hs; cbn [negb]; unfold update; cbn [this remote trace];
      intros [= <-]; cbn [this]; unfold _tokenExists; rewrite Hs.
    + cbn [negb andb orb]. rewrite andb_false_r. cbn [orb].
      unfold grantless_token. cbn [with_grantless_token _grantless_tokens].
      now rewrite lookup_insert_eq.
    + cbn [with_access_token _access_token negb]. now rewrite Ht.
  - destruct (truthy (opt_prop json_res "error")); discriminate.
Qed.

Section Authorization.
Context `{Runtime}.
Variable endpoints : gmap string Endpoint.

(** X11: For a scope that is no name an object inherits, the token of a call
    is at hand when the call has no scope and the client holds an access
    token, or when it has a scope and the client holds a token under it. The
    validation of the access token asks for a token only when none is at
    hand: with the token in place it does nothing at all, without it a
    client that requests its tokens does what a refresh does (and ends as
    the refresh ends: a refresh that succeeds leaves the token in place),
    and a client that does not fails with [NO_ACCESS_TOKEN_PRESENT] without
    a request. *)
Theorem token_is_requested_when_missing (scope : value) (w : World) :
  inherited (ToString scope) = false ->
  (_tokenExists (this w) scope = true
   <-> (truthy scope = false /\ truthy (_access_token (this w)) = true)
       \/ (truthy scope = true
           /\ exists token, _grantless_tokens (this w) !! ToString scope = Some token
                            /\ truthy token = true))
  /\ (_tokenExists (this w) scope = true -> _validateAccessToken scope w = (Ok tt, w))
  /\ (_tokenExists (this w) scope = false ->
      auto_request_tokens (_options (this w)) = true ->
      _validateAccessToken scope w = refreshAccessToken scope w)
  /\ (_tokenExists (this w) scope = false ->
      auto_request_tokens (_options (this w)) = false ->
      exists e, _validateAccessToken scope w = (Throw e, w)
                /\ code_of e = VStr "NO_ACCESS_TOKEN_PRESENT").
Proof.
  intros _. split; [| split; [| split]].
  - unfold _tokenExists, grantless_token.
    destruct (truthy scope); cbn [negb andb orb]; rewrite ?andb_false_r; cbn [orb]; split.
    + intros Ht. right. split; [reflexivity |].
      destruct (_grantless_tokens (this w) !! ToString scope) as [token|];
        [now exists token | discriminate].
    + intros [[Hs _] | [_ (token & -> & Ht)]]; [discriminate | exact Ht].
    + intros Ht. left. rewrite andb_true_r, orb_false_r in Ht. now split.
    + intros [[_ Ht] | [Hs _]]; [now rewrite Ht | discriminate].
  - apply validate_token_present.
  - intros Ht Hauto. unfold _validateAccessToken, bind at 1 2, client at 1, when.
    rewrite Ht, Hauto. cbn [negb andb].
    destruct (refreshAccessToken scope w) as [[[]|e|] w'] eqn:E; try reflexivity.
    unfold bind, client. rewrite (refresh_stores_token scope w w' E). reflexivity.
  - intros Ht Hauto. unfold _validateAccessToken, bind, client, when, ret.
    rewrite Ht, Hauto. cbn [negb andb]. rewrite Ht. eexists. split; reflexivity.
Qed.

(** X12: A client for grantless operations only sends nothing for a call that
    has no scope: the call fails with [INVALID_OPERATION_ERROR] once its
    request is built, before a token is asked for and before the API is
    called. *)
Theorem grantless_client_sends_no_other_call (req : value)
  (options rp : list (string * value)) (w w1 : World) (fuel : nat) :
  build endpoints req w = (Ok (options, rp), w1) ->
  only_grantless_operations (_options (this w)) = true ->
  truthy (get_prop "scope" rp) = false ->
  exists e,
    callAPI endpoints (S fuel) req w = (Throw e, w1)
    /\ code_of e = VStr "INVALID_OPERATION_ERROR"
    /\ remote w1 = remote w
    /\ sent (trace w1) = sent (trace w)
    /\ executed (trace w1) = executed (trace w).
Proof.
  intros Hb Hg Hs.
  destruct (build_effects endpoints _ _ _ _ Hb) as (Hr & (warnings & Ht & Hw) & _ & Hc & _).
  destruct (warnings_send_nothing warnings Hw) as (Hsent & Hexec & _).
  eexists. split; [| split].
  - apply callAPI_throws. unfold callAPI_pass, bind at 1 2. rewrite Hb.
    unfold authorize, bind at 1 2, client at 1, lift, _validateOperationAllowance.
    rewrite Hc. cbn [_options with_current_call_timeouts]. rewrite Hg, Hs. reflexivity.
  - reflexivity.
  - rewrite Ht, sent_app, executed_app, Hsent, Hexec, !app_nil_r. now repeat split.
Qed.

(** X13: With [raw_result] set a call resolves with the response as it is,
    whatever its status and its body: nothing is parsed, a 429 or a 403 is
    not retried, and no error is raised. *)
Theorem raw_result_is_the_response (req : value) (options rp : list (string * value))
  (token : value) (res : Response) (rest : list (outcome Response)) (w w1 w2 : World)
  (fuel : nat) :
  build endpoints req w = (Ok (options, rp), w1) ->
  authorize rp w1 = (Ok token, w2) ->
  remote w2 = Ok res :: rest ->
  truthy (get_prop "raw_result" options) = true ->
  callAPI endpoints (S fuel) req w
  = (Ok (RawResult res),
     {| this := this w2; remote := rest; trace := trace w2 ++ [Api token (VObj rp)] |}).
Proof.
  intros Hb Ha Hr Hraw. apply callAPI_done.
  unfold callAPI_pass, bind. rewrite Hb, Ha.
  unfold api, bind, emit, answer. cbn [this remote trace]. rewrite Hr.
  unfold respond. now rewrite Hraw.
Qed.

End Authorization.

(** A client without a token that is answered by the authorization endpoint:
    the validation is the refresh, and the token is in place after it. *)
Lemma token_is_requested_when_missing_witness :
  _validateAccessToken (H := Json.runtime) VUndefined
    (Fixtures.world Fixtures.fresh_client
       [Ok (Fixtures.json_response 200 [] Fixtures.token_answer)])
  = refreshAccessToken (H := Json.runtime) VUndefined
      (Fixtures.world Fixtures.fresh_client
         [Ok (Fixtures.json_response 200 [] Fixtures.token_answer)])
  /\ _access_token
       (this (snd (_validateAccessToken (H := Json.runtime) VUndefined
                     (Fixtures.world Fixtures.fresh_client
                        [Ok (Fixtures.json_response 200 [] Fixtures.token_answer)]))))
     = VStr "Atza|new".
Proof.
  destruct (token_is_requested_when_missing (H := Json.runtime) VUndefined
              (Fixtures.world Fixtures.fresh_client
                 [Ok (Fixtures.json_response 200 [] Fixtures.token_answer)]) eq_refl)
    as (_ & _ & Hrefresh & _).
  split; [exact (Hrefresh eq_refl eq_refl) |].
  rewrite (Hrefresh eq_refl eq_refl). vm_compute. reflexivity.
Defined.

(** A call by raw path, which has no scope, by a client for grantless
    operations only. *)
Lemma grantless_client_sends_no_other_call_witness :
  exists e,
    callAPI (H := Json.runtime) Fixtures.endpoints 1 Fixtures.raw_request
      (Fixtures.world Fixtures.grantless_only
         [Ok (Fixtures.json_response 200 [] Fixtures.token_answer)])
    = (Throw e,
       Fixtures.world Fixtures.grantless_only
         [Ok (Fixtures.json_response 200 [] Fixtures.token_answer)])
    /\ code_of e = VStr "INVALID_OPERATION_ERROR".
Proof.
  destruct (grantless_client_sends_no_other_call (H := Json.runtime) Fixtures.endpoints
              Fixtures.raw_request []
              [("api_path", VStr "/fba/inventory/v1/summaries"); ("method", VStr "GET");
               ("timeouts", VObj [])]
              (Fixtures.world Fixtures.grantless_only
                 [Ok (Fixtures.json_response 200 [] Fixtures.token_answer)])
              (Fixtures.world Fixtures.grantless_only
                 [Ok (Fixtures.json_response 200 [] Fixtures.token_answer)])
              0 eq_refl eq_refl eq_refl) as (e & E & Hcode & _).
  exists e. split; assumption.
Defined.

(** A throttled answer to a call that asks for the raw result comes back as
    it is, from a client that would retry. *)
Lemma raw_result_is_the_response_witness :
  fst (callAPI (H := Json.runtime) Fixtures.endpoints 1 Fixtures.raw_result_request
         (Fixtures.world Fixtures.signed_in [Ok Fixtures.limited]))
  = Ok (RawResult Fixtures.limited).
Proof.
  rewrite (raw_result_is_the_response (H := Json.runtime) Fixtures.endpoints
             Fixtures.raw_result_request [("raw_result", VBool true)]
             [("api_path", VStr "/fba/inventory/v1/summaries"); ("method", VStr "GET");
              ("options", VObj [("raw_result", VBool true)]); ("timeouts", VObj [])]
             (VStr "Atza|old") Fixtures.limited []
             (Fixtures.world Fixtures.signed_in [Ok Fixtures.limited])
             (Fixtures.world Fixtures.signed_in [Ok Fixtures.limited])
             (Fixtures.world Fixtures.signed_in [Ok Fixtures.limited])
             0 eq_refl eq_refl eq_refl eq_refl).
  reflexivity.
Defined.

(** ** The timeouts of a call *)

(** Whatever the remote side answers, a refresh sends one request, with the
    timeouts that the client keeps for the call under way. *)
Lemma refresh_executes `{Runtime} (scope request : value) (w : World) :
  _constructRefreshAccessTokenBody (this w) scope = Ok request ->
  executed (trace (snd (refreshAccessToken scope w)))
  = executed (trace w)
    ++ [VObj [("method", VStr "POST");
              ("url", VStr token_url);
              ("body", request);
              ("headers", VObj [("Content-Type", VStr "application/json")]);
              ("timeouts", _current_call_timeouts (this w))]].
Proof.
  intros Hb. destruct w as [c rs t]. cbn [this] in Hb.
  cbv [refreshAccessToken bind client lift execute emit answer throw update].
  cbn [this remote trace]. rewrite Hb. cbn [remote].
  destruct rs as [|[res|e|] rest]; cbn [snd trace];
    try (rewrite executed_app; reflexivity).
  destruct (JSON_parse (body res)) as [json_res|];
    [| cbn [snd trace]; rewrite executed_app; reflexivity].
  destruct (prop json_res "access_token") as [token|e|];
    try (cbn [snd trace]; rewrite executed_app; reflexivity).
  destruct (truthy token), (negb (truthy scope)), (truthy (opt_prop json_res "error"));
    cbn [snd trace]; rewrite executed_app; reflexivity.
Qed.

Section CallTimeouts.
Context `{Runtime}.
Variable endpoints : gmap string Endpoint.

(** X14: The timeouts of a call are the timeouts of the client overridden, name
    by name, by those of the options of the call. The request is sent with
    them, the client keeps them for the call, and a token that is requested
    while the call is under way is requested with them. *)
Theorem call_timeouts_are_kept (req : value) (options rp : list (string * value))
  (w w1 : World) :
  build endpoints req w = (Ok (options, rp), w1) ->
  let of_call := own_props (get_prop "timeouts" options) in
  let of_client := assign_props [] (own_props (timeouts (_options (this w)))) in
  options = assign_props [] (own_props (opt_prop req "options"))
  /\ get_prop "timeouts" rp = VObj (assign_props of_client of_call)
  /\ _current_call_timeouts (this w1) = get_prop "timeouts" rp
  /\ (forall k v, List.NoDup (map fst of_call) -> lookup_prop k of_call = Some v ->
                  opt_prop (get_prop "timeouts" rp) k = v)
  /\ (forall k, lookup_prop k of_call = None ->
                opt_prop (get_prop "timeouts" rp) k = get_prop k of_client)
  /\ (forall scope request,
        _constructRefreshAccessTokenBody (this w1) scope = Ok request ->
        executed (trace (snd (refreshAccessToken scope w1)))
        = executed (trace w)
          ++ [VObj [("method", VStr "POST");
                    ("url", VStr token_url);
                    ("body", request);
                    ("headers", VObj [("Content-Type", VStr "application/json")]);
                    ("timeouts", get_prop "timeouts" rp)]]).
Proof.
  intros Hb of_call of_client.
  destruct (build_effects endpoints _ _ _ _ Hb)
    as (Hr & (warnings & Ht & Hw) & Ho & Hc & Htm).
  destruct (warnings_send_nothing warnings Hw) as (_ & Hexec & _).
  assert (_current_call_timeouts (this w1) = get_prop "timeouts" rp) as Hkept
      by (rewrite Hc, Htm; reflexivity).
  split; [exact Ho |]. split; [exact Htm |]. split; [exact Hkept |].
  rewrite Htm. unfold call_timeouts. fold of_call of_client.
  split; [| split].
  - intros k v Hnd Hk. cbn [opt_prop prop]. unfold get_prop.
    now rewrite (lookup_assign_props_source k v of_call of_client Hnd Hk).
  - intros k Hk. cbn [opt_prop prop]. unfold get_prop.
    now rewrite (lookup_assign_props_target k of_call of_client Hk).
  - intros scope request Hq. rewrite (refresh_executes scope request w1 Hq).
    rewrite Ht, executed_app, Hexec, app_nil_r, Hkept, Htm. reflexivity.
Qed.

End CallTimeouts.

(** A call with a deadline of its own, by a client with global timeouts:
    the deadline is that of the call, the response timeout that of the
    client. *)
Lemma call_timeouts_are_kept_witness :
  let req :=
    VObj [("api_path", VStr "/fba/inventory/v1/summaries"); ("method", VStr "GET");
          ("options", VObj [("timeouts", VObj [("deadline", VNum 60000)])])] in
  let sent_with :=
    get_prop "timeouts"
      (match fst (build Fixtures.endpoints req (Fixtures.world Fixtures.patient [])) with
       | Ok (_, rp) => rp
       | _ => []
       end) in
  opt_prop sent_with "deadline" = VNum 60000
  /\ opt_prop sent_with "response" = VNum 5000.
Proof.
  cbv zeta.
  destruct (build Fixtures.endpoints
              (VObj [("api_path", VStr "/fba/inventory/v1/summaries");
                     ("method", VStr "GET");
                     ("options", VObj [("timeouts", VObj [("deadline", VNum 60000)])])])
              (Fixtures.world Fixtures.patient []))
    as [[[options rp]|e|] w1] eqn:Hb; [| vm_compute in Hb; discriminate ..].
  destruct (call_timeouts_are_kept (H := Json.runtime) Fixtures.endpoints _ _ _ _ _ Hb)
    as (Ho & _ & _ & Hcall & Hclient & _).
  cbn [fst]. subst options. split.
  - apply Hcall; [repeat constructor; vm_compute; intuition discriminate | reflexivity].
  - rewrite Hclient; reflexivity.
Defined.

(** ** Answers that carry errors *)


(** On headers whose names are in lower case, the search for the rate-limit
    header by its lower-case name finds the header of that name. *)
Lemma find_lower_case_header (hs : list (string * string)) :
  Forall (fun h => toLowerCase h = h) (map fst hs) ->
  match find (fun h => String.eqb (toLowerCase h) rate_limit_header) (map fst hs) with
  | Some h => h = rate_limit_header /\ assoc rate_limit_header hs <> None
  | None => assoc rate_limit_header hs = None
  end.
Proof.
  induction hs as [|[h v] hs IH]; [reflexivity |].
  cbn [map fst find assoc]. intros Hl. inversion Hl as [|? ? Hh Hl']; subst.
  rewrite Hh. destruct (String.eqb h rate_limit_header) eqn:E.
  - apply String.eqb_eq in E. now split.
  - specialize (IH Hl'). destruct (find _ _); [| exact IH].
    destruct IH as [-> Hn]. now split.
Qed.

Section ErrorAnswers.
Context `{Runtime}.

(** X15: An answer whose body has a non-empty [errors] never resolves the call:
    the pass re-enters, with the request parameters it was given, only on a
    403 by a client that requests its tokens and on a 429 by a client that
    retries; every other outcome is a failure. *)
Theorem error_answer_never_resolves (req_params scope : value) (res : Response)
  (json_res errors : value) (w w' : World) (s : step api_result) :
  prop json_res "errors" = Ok errors ->
  truthy (opt_prop errors "length") = true ->
  classify req_params scope res json_res w = (Ok s, w') ->
  s = Reenter req_params
  /\ ((statusCode res = 403%Z /\ auto_request_tokens (_options (this w)) = true)
      \/ (statusCode res = 429%Z /\ auto_request_throttled (_options (this w)) = true)).
Proof.
  intros He Hl. unfold classify, bind at 1 2, client at 1, lift at 1. rewrite He, Hl.
  unfold bind at 1, lift at 1.
  destruct (prop errors "0") as [error|e|]; try discriminate.
  unfold bind at 1, lift at 1.
  destruct (prop error "code") as [code|e|]; try discriminate.
  cbv zeta.
  destruct ((statusCode res =? 403)%Z && is_str code "Unauthorized"
            && test_access_token_expired (ToString (opt_prop error "details"))) eqn:E403.
  - apply andb_prop in E403 as [E403 _]. apply andb_prop in E403 as [E403 _].
    apply Z.eqb_eq in E403.
    destruct (auto_request_tokens (_options (this w))); [| discriminate].
    unfold bind, console_log, when.
    destruct (debug_log (_options (this w))); unfold emit, ret;
      destruct (refreshAccessToken scope _) as [[[]|e|] w2]; try discriminate;
      intros [= <- <-]; split; auto.
  - destruct ((statusCode res =? 429)%Z && is_str code "QuotaExceeded") eqn:E429.
    + apply andb_prop in E429 as [E429 _]. apply Z.eqb_eq in E429.
      destruct (auto_request_throttled (_options (this w))); [| discriminate].
      rewrite retry_throttled_run. intros [= <- <-]. split; auto.
    + destruct (is_str code "InternalFailure" && use_sandbox (_options (this w)));
        [discriminate |].
      destruct (truthy code); [| discriminate].
      destruct code; discriminate.
Qed.

(** X16: A throttled answer to a client that does not retry fails with
    [QUOTA_EXCEEDED] at once: nothing is slept and the client, the remote
    side and the trace stay as they are. The error carries the details of
    the remote error, or else its message, and as [timeout] the rate limit
    of the response header (on headers with lower-case names, as Node
    delivers them), or [undefined] when the answer has no such header. *)
Theorem throttled_answer_without_retry (req_params scope : value) (res : Response)
  (json_res errors error : value) (w : World) :
  statusCode res = 429%Z ->
  prop json_res "errors" = Ok errors ->
  truthy (opt_prop errors "length") = true ->
  prop errors "0" = Ok error ->
  prop error "code" = Ok (VStr "QuotaExceeded") ->
  auto_request_throttled (_options (this w)) = false ->
  (forall hs, headers res = Some hs -> Forall (fun h => toLowerCase h = h) (map fst hs)) ->
  classify req_params scope res json_res w
  = (Throw (CustomError_new
              [("code", VStr "QUOTA_EXCEEDED");
               ("message", logical_or (opt_prop error "details") (opt_prop error "message"));
               ("timeout", header res rate_limit_header)]), w).
Proof.
  intros Hs He Hl H0 Hc Hauto Hlower.
  unfold classify, bind, client, lift. rewrite He, Hl, H0, Hc, Hs, Hauto.
  cbn [Z.eqb Pos.eqb andb is_str String.eqb Ascii.eqb Bool.eqb].
  unfold throw. do 4 f_equal. unfold header.
  destruct (headers res) as [hs|] eqn:Hh; [| reflexivity].
  pose proof (find_lower_case_header hs (Hlower hs eq_refl)) as F.
  destruct (find _ _) as [h|].
  - destruct F as [-> _]. reflexivity.
  - now rewrite F.
Qed.

End ErrorAnswers.

(** An expired token answered to a client that refreshes: the pass
    re-enters. And a fault of the remote side: the pass fails. *)
Lemma error_answer_never_resolves_witness :
  fst (classify (H := Json.runtime) Fixtures.raw_request VUndefined
         (Fixtures.json_response 403 [] Fixtures.expired) Fixtures.expired
         (Fixtures.world Fixtures.signed_in
            [Ok (Fixtures.json_response 200 [] Fixtures.token_answer)]))
  = Ok (Reenter Fixtures.raw_request).
Proof.
  destruct (classify (H := Json.runtime) Fixtures.raw_request VUndefined
              (Fixtures.json_response 403 [] Fixtures.expired) Fixtures.expired
              (Fixtures.world Fixtures.signed_in
            [Ok (Fixtures.json_response 200 [] Fixtures.token_answer)]))
    as [[s|e|] w'] eqn:E; [| vm_compute in E; discriminate ..].
  destruct (error_answer_never_resolves (H := Json.runtime) Fixtures.raw_request VUndefined
              (Fixtures.json_response 403 [] Fixtures.expired) Fixtures.expired
              (VArr [VObj [("code", VStr "Unauthorized");
                           ("message", VStr "Access to requested resource is denied.");
                           ("details", VStr "The access token you provided has expired.")]])
              (Fixtures.world Fixtures.signed_in
            [Ok (Fixtures.json_response 200 [] Fixtures.token_answer)]) w' s
              eq_refl eq_refl E) as [-> _].
  reflexivity.
Defined.

(** The throttled answer of the fixtures, to a client that does not retry:
    the error names the rate limit of the header. *)
Lemma throttled_answer_without_retry_witness :
  classify (H := Json.runtime) Fixtures.raw_request VUndefined Fixtures.limited
    Fixtures.throttled (Fixtures.world Fixtures.no_retry [])
  = (Throw (CustomError
              [("code", VStr "QUOTA_EXCEEDED");
               ("message", VStr "You exceeded your quota for the requested resource.");
               ("timeout", VStr "2");
               ("type", VStr "error")]),
     Fixtures.world Fixtures.no_retry []).
Proof.
  rewrite (throttled_answer_without_retry (H := Json.runtime) Fixtures.raw_request
             VUndefined Fixtures.limited Fixtures.throttled
             (VArr [VObj [("code", VStr "QuotaExceeded");
                          ("message",
                           VStr "You exceeded your quota for the requested resource.")]])
             (VObj [("code", VStr "QuotaExceeded");
                    ("message",
                     VStr "You exceeded your quota for the requested resource.")])
             (Fixtures.world Fixtures.no_retry [])
             eq_refl eq_refl eq_refl eq_refl eq_refl eq_refl).
  - reflexivity.
  - intros hs Hh. vm_compute in Hh. injection Hh as <-. repeat constructor.
Defined.

(** ** The exchange of an authorization code *)

Section AuthorizationCode.
Context `{Runtime}.

(** X17: The exchange of an authorization code never touches the client: no
    token is stored, whatever is answered. Without a code it fails with
    [NO_AUTH_CODE_PROVIDED] before anything is sent; with one it sends one
    request, and resolves only with an answer that parses and names no
    error, which it returns as it is parsed. *)
Theorem exchange_stores_nothing (auth_code : value) (w : World) :
  this (snd (exchange auth_code w)) = this w
  /\ (truthy auth_code = false ->
      exists e, exchange auth_code w = (Throw e, w)
                /\ code_of e = VStr "NO_AUTH_CODE_PROVIDED")
  /\ (truthy auth_code = true ->
      executed (trace (snd (exchange auth_code w)))
      = executed (trace w)
        ++ [VObj [("method", VStr "POST");
                  ("url", VStr token_url);
                  ("body",
                   JSON_stringify
                     (VObj [("grant_type", VStr "authorization_code");
                            ("code", auth_code);
                            ("client_id", app_client_id (this w));
                            ("client_secret", app_client_secret (this w))]));
                  ("headers", VObj [("Content-Type", VStr "application/json")])]])
  /\ (forall json_res,
        fst (exchange auth_code w) = Ok json_res ->
        exists res rest,
          remote w = Ok res :: rest
          /\ JSON_parse (body res) = Some json_res
          /\ truthy (opt_prop json_res "error") = false)
  /\ (forall res rest,
        truthy auth_code = true ->
        remote w = Ok res :: rest ->
        JSON_parse (body res) = None ->
        exists e, fst (exchange auth_code w) = Throw e
                  /\ e = custom_error "EXCHANGE_AUTH_CODE_PARSE_ERROR" (VStr (body res))).
Proof.
  destruct w as [c rs t].
  cbv [exchange bind client lift execute emit answer throw ret _constructExchangeBody].
  cbn [this remote trace].
  destruct (truthy auth_code) eqn:Ha; cbn [negb].
  - cbn [remote].
    destruct rs as [|[res|e|] rest]; cbn [fst snd this trace];
      try (repeat split; try discriminate; rewrite executed_app; reflexivity).
    destruct (JSON_parse (body res)) as [json_res|] eqn:Hj.
    + destruct (prop json_res "error") as [error|e|] eqn:He.
      * destruct (truthy error) eqn:Ht; cbn [fst snd this trace].
        -- repeat split; try discriminate; try (rewrite executed_app; reflexivity).
           intros res' rest' _ [= <- <-]. rewrite Hj. discriminate.
        -- repeat split; try discriminate; try (rewrite executed_app; reflexivity).
           ++ intros j [= <-]. exists res, rest. repeat split; [exact Hj |].
              unfold opt_prop. now rewrite He.
           ++ intros res' rest' _ [= <- <-]. rewrite Hj. discriminate.
      * cbn [fst snd this trace].
        repeat split; try discriminate; try (rewrite executed_app; reflexivity).
        intros res' rest' _ [= <- <-]. rewrite Hj. discriminate.
      * cbn [fst snd this trace].
        repeat split; try discriminate; try (rewrite executed_app; reflexivity).
        intros res' rest' _ [= <- <-]. rewrite Hj. discriminate.
    + cbn [fst snd this trace].
      repeat split; try discriminate; try (rewrite executed_app; reflexivity).
      intros res' rest' _ [= <- <-] _. eexists. split; reflexivity.
  - cbn [fst snd this trace]. repeat split; try discriminate.
    intros _. eexists. split; reflexivity.
Qed.

End AuthorizationCode.

(** An authorization code exchanged for the tokens that the authorization
    endpoint answers: they are returned, and the client keeps none. *)
Lemma exchange_stores_nothing_witness :
  fst (exchange (H := Json.runtime) (VStr "ANcdefg")
         (Fixtures.world Fixtures.fresh_client
            [Ok (Fixtures.json_response 200 [] Fixtures.token_answer)]))
  = Ok Fixtures.token_answer
  /\ _access_token
       (this (snd (exchange (H := Json.runtime) (VStr "ANcdefg")
                     (Fixtures.world Fixtures.fresh_client
                        [Ok (Fixtures.json_response 200 [] Fixtures.token_answer)]))))
     = VUndefined.
Proof.
  destruct (exchange_stores_nothing (H := Json.runtime) (VStr "ANcdefg")
              (Fixtures.world Fixtures.fresh_client
                 [Ok (Fixtures.json_response 200 [] Fixtures.token_answer)]))
    as (Hthis & _).
  rewrite Hthis. split; [vm_compute |]; reflexivity.
Defined.

(** ** Documents: what is requested, written and returned *)

Section Documents.
Context `{Runtime}.
Variable gunzip : bytes -> outcome bytes.
Variable iconv_decode : bytes -> value -> string + value.
Variable xml_parse csv_fromString : string -> outcome value.
Variable fs_writeFile : value -> content -> outcome unit.
Variable fs_readFile : value -> string -> outcome value.
Variable Buffer_from : value -> outcome value.
Variable _getStreamChunks : Response -> outcome (list bytes).

(** X18: A document description without a [url], or with a compression other
    than [GZIP], is refused before anything is requested: the download, the
    streamed download and the upload all fail with the error of the
    validation and leave the client, the remote side and the trace as they
    are. *)
Theorem invalid_document_is_refused_first (details options feed : value) (w : World) :
  (truthy (opt_prop details "url") = false ->
   exists e, _validateDocumentDetails details = Throw e
             /\ code_of e = VStr "DOCUMENT_INFORMATION_MISSING")
  /\ (truthy (opt_prop details "url") = true ->
      truthy (opt_prop details "compressionAlgorithm") = true ->
      is_str (opt_prop details "compressionAlgorithm") "GZIP" = false ->
      exists e, _validateDocumentDetails details = Throw e
                /\ code_of e = VStr "UNKNOWN_ZIP_STANDARD")
  /\ (forall e,
        _validateDocumentDetails details = Throw e ->
        download gunzip iconv_decode xml_parse csv_fromString fs_writeFile details options w
        = (Throw e, w)
        /\ downloadStream iconv_decode xml_parse _getStreamChunks details options w
           = (Throw e, w)
        /\ upload xml_parse fs_readFile Buffer_from details feed w = (Throw e, w)).
Proof.
  split; [| split].
  - intros Hu. unfold _validateDocumentDetails. rewrite Hu. rewrite orb_true_r.
    eexists. split; reflexivity.
  - intros Hu Hc Hg. unfold _validateDocumentDetails. rewrite Hu, Hc, Hg.
    destruct (truthy details) eqn:Hd.
    + cbn [negb orb andb]. eexists. split; reflexivity.
    + destruct details; try discriminate; discriminate Hu.
  - intros e He. unfold download, downloadStream, upload, bind, lift.
    rewrite He. repeat split.
Qed.

(** X19: A download that is answered with a status other than 200 fails after
    its one request, with nothing unzipped, decoded or written, whatever
    the options: under the code of the error that the body describes in
    XML, and under [DOWNLOAD_ERROR] when the body is no XML or describes
    no error. *)
Theorem failed_download_writes_nothing (details options : value) (res : Response)
  (rest : list (outcome Response)) (w : World) :
  _validateDocumentDetails details = Ok tt ->
  remote w = Ok res :: rest ->
  statusCode res <> 200%Z ->
  exists e,
    download gunzip iconv_decode xml_parse csv_fromString fs_writeFile details options w
    = (Throw e,
       {| this := this w; remote := rest;
          trace := trace w
                   ++ [Execute (VObj [("url", opt_prop details "url");
                                      ("timeouts",
                                       get_prop "timeouts" (download_options options))])] |})
    /\ (forall parsed,
          xml_parse (body res) = Ok parsed ->
          truthy parsed && truthy (opt_prop parsed "Error") = true ->
          code_of e = opt_prop (opt_prop parsed "Error") "Code")
    /\ (forall parsed,
          xml_parse (body res) = Ok parsed ->
          truthy parsed && truthy (opt_prop parsed "Error") = false ->
          e = custom_error "DOWNLOAD_ERROR" parsed)
    /\ ((forall parsed, xml_parse (body res) <> Ok parsed) ->
        e = custom_error "DOWNLOAD_ERROR" (VStr (body res))).
Proof.
  intros Hd Hr Hs. apply Z.eqb_neq in Hs.
  destruct w as [c rs t]. cbn [this remote trace] in *. subst rs.
  unfold download. cbv [bind lift execute emit answer]. rewrite Hd.
  cbn [this remote trace]. unfold _validateUpOrDownloadSuccess. rewrite Hs. cbn [negb].
  destruct (xml_parse (body res)) as [parsed|e0|] eqn:Hx.
  - destruct (truthy parsed && truthy (opt_prop parsed "Error")) eqn:He;
      eexists; (split; [reflexivity |]); repeat split.
    + intros p [= <-] _. reflexivity.
    + intros p [= <-]. rewrite He. discriminate.
    + intros Hn. now destruct (Hn parsed).
    + intros p [= <-]. rewrite He. discriminate.
    + intros p [= <-] _. reflexivity.
    + intros Hn. now destruct (Hn parsed).
  - eexists. split; [reflexivity |]. repeat split; try discriminate.
  - eexists. split; [reflexivity |]. repeat split; try discriminate.
Qed.

End Documents.

Section SavedDocuments.
Context `{Runtime}.
Variable gunzip : bytes -> outcome bytes.
Variable iconv_decode : bytes -> value -> string + value.
Variable xml_parse csv_fromString : string -> outcome value.
Variable fs_writeFile : value -> content -> outcome unit.

Lemma download_options_file (o : list (string * value)) (file : value) :
  lookup_prop "file" o = None ->
  download_options (VObj (o ++ [("file", file)]))
  = set_prop "file" file (download_options (VObj o))
  /\ get_prop "file" (download_options (VObj o)) = VUndefined.
Proof.
  intros Hf. split.
  - unfold download_options, assign_props. cbn [own_props].
    now rewrite fold_left_app.
  - unfold download_options, get_prop. cbn [own_props].
    now rewrite lookup_assign_props_target.
Qed.

(** X20: Asking for the document to be saved as well changes nothing of what
    the download requests, unzips, decodes and returns: the content is
    written once, after everything else (as it is returned, or under [json]
    as its [JSON.stringify]), and the download then returns what it returns
    without the [file] option, unless the write fails. *)
Theorem saved_download_returns_the_same (details file : value)
  (o : list (string * value)) (w : World) :
  lookup_prop "file" o = None ->
  truthy file = true ->
  download gunzip iconv_decode xml_parse csv_fromString fs_writeFile details
    (VObj (o ++ [("file", file)])) w
  = match download gunzip iconv_decode xml_parse csv_fromString fs_writeFile details
            (VObj o) w with
    | (Ok decoded, w1) =>
        let saved :=
          if truthy (get_prop "json" (download_options (VObj o)))
          then Data (JSON_stringify (match decoded with
                                     | Buffer b => Buffer_toJSON b
                                     | Data v => v
                                     end))
          else decoded in
        (match fs_writeFile file saved with
         | Ok _ => Ok decoded
         | Throw e => Throw e
         | Pending => Pending
         end,
         {| this := this w1; remote := remote w1;
            trace := trace w1 ++ [WriteFile file saved] |})
    | other => other
    end.
Proof.
  intros Hf Ht. destruct (download_options_file o file Hf) as [Eo Ef].
  unfold download. cbv zeta. rewrite Eo.
  rewrite !get_prop_set_other by discriminate. rewrite get_prop_set_same, Ef, Ht.
  cbn [truthy].
  set (options := download_options (VObj o)).
  cbv [bind lift].
  destruct (_validateDocumentDetails details) as [[]|e|]; try reflexivity.
  destruct (execute _ w) as [[res|e|] w1]; try reflexivity.
  destruct (_validateUpOrDownloadSuccess xml_parse res "DOWNLOAD") as [[]|e|];
    try reflexivity.
  match goal with |- context [match ?m w1 with _ => _ end] =>
    destruct (m w1) as [[raw|e|] w2]; try reflexivity end.
  match goal with |- context [match ?m w2 with _ => _ end] =>
    destruct (m w2) as [[decoded|e|] w3]; try reflexivity end.
  cbv [when ret _saveFile emit bind lift]. cbn [this remote trace].
  rewrite get_prop_set_same. rewrite !get_prop_set_other by discriminate.
  fold options.
  destruct (truthy (get_prop "json" options));
    destruct (fs_writeFile file _) as [[]|e|]; reflexivity.
Qed.

End SavedDocuments.

Section Feeds.
Variable xml_parse : string -> outcome value.
Variable Buffer_from : value -> outcome value.

Lemma read_encoding_is_not_latin_alias (content_type : string) :
  toUpperCase (read_encoding content_type) <> "ISO-8859-1".
Proof.
  unfold read_encoding.
  destruct (String.eqb (toUpperCase _) "ISO-8859-1") eqn:E; [discriminate |].
  now apply String.eqb_neq.
Qed.

(** X21: An upload takes the content of the feed when there is one and reads
    the file only when there is none, with an encoding that is never
    [ISO-8859-1] under any spelling; a feed with neither, or with no
    content type, is refused before anything is read or sent; and the
    upload resolves with the success marker exactly when the one [PUT] it
    sends is answered with status 200. *)
Theorem upload_takes_content_first (fs_readFile : value -> string -> outcome value)
  (details feed : value) (w : World) :
  _validateDocumentDetails details = Ok tt ->
  (truthy (opt_prop feed "content") = false -> truthy (opt_prop feed "file") = false ->
   exists e, upload xml_parse fs_readFile Buffer_from details feed w = (Throw e, w)
             /\ code_of e = VStr "NO_FEED_CONTENT_PROVIDED")
  /\ (truthy (opt_prop feed "contentType") = false ->
      exists e, upload xml_parse fs_readFile Buffer_from details feed w = (Throw e, w)
                /\ (code_of e = VStr "NO_FEED_CONTENT_PROVIDED"
                    \/ code_of e = VStr "NO_FEED_CONTENT_TYPE_PROVIDED"))
  /\ (truthy (opt_prop feed "content") = true ->
      forall other_fs : value -> string -> outcome value,
        upload xml_parse fs_readFile Buffer_from details feed w
        = upload xml_parse other_fs Buffer_from details feed w)
  /\ (truthy (opt_prop feed "content") = false ->
      truthy (opt_prop feed "file") = true ->
      forall content_type,
        opt_prop feed "contentType" = VStr content_type ->
        content_type <> EmptyString ->
        toUpperCase (read_encoding content_type) <> "ISO-8859-1"
        /\ (forall e,
              fs_readFile (opt_prop feed "file") (read_encoding content_type) = Throw e ->
              upload xml_parse fs_readFile Buffer_from details feed w = (Throw e, w))
        /\ (forall read,
              fs_readFile (opt_prop feed "file") (read_encoding content_type) = Ok read ->
              truthy read = true ->
              upload xml_parse fs_readFile Buffer_from details feed w
              = upload xml_parse fs_readFile Buffer_from details
                  (VObj [("content", read); ("contentType", VStr content_type)]) w))
  /\ (forall content buffer res rest,
        opt_prop feed "content" = content -> truthy content = true ->
        truthy (opt_prop feed "contentType") = true ->
        Buffer_from content = Ok buffer ->
        remote w = Ok res :: rest ->
        let w' :=
          {| this := this w; remote := rest;
             trace := trace w
                      ++ [Execute (VObj [("url", opt_prop details "url");
                                         ("method", VStr "PUT");
                                         ("headers",
                                          VObj [("Content-Type",
                                                 opt_prop feed "contentType")]);
                                         ("body", buffer)])] |} in
        (statusCode res = 200%Z ->
         upload xml_parse fs_readFile Buffer_from details feed w
         = (Ok (VObj [("success", VBool true)]), w'))
        /\ (statusCode res <> 200%Z ->
            exists e, upload xml_parse fs_readFile Buffer_from details feed w
                      = (Throw e, w'))).
Proof.
  intros Hd. split; [| split; [| split; [| split]]].
  - intros Hc Hf. unfold upload, bind, lift. rewrite Hd, Hc, Hf.
    rewrite orb_true_r. eexists. split; reflexivity.
  - intros Hct. unfold upload, bind, lift. rewrite Hd, Hct.
    destruct (negb (truthy feed) || _); eexists; split; try reflexivity; auto.
  - intros Hc other_fs. unfold upload, bind, lift. rewrite Hd, Hc. reflexivity.
  - intros Hc Hf content_type Hct Hne.
    split; [apply read_encoding_is_not_latin_alias |].
    assert (truthy feed = true) as Htf
        by (destruct feed; try reflexivity; discriminate Hf).
    assert (truthy (VStr content_type) = true) as Htc
        by (destruct content_type; [contradiction | reflexivity]).
    split.
    + intros e Hread. unfold upload, bind, lift. rewrite Hd, Hc, Hf, Htf, Hct, Htc.
      cbn [negb orb andb]. unfold _readFile, lift. now rewrite Hread.
    + intros read Hread Htr.
      unfold upload, bind, lift. rewrite Hd, Hc, Hf, Htf, Hct, Htc.
      cbn [negb orb andb opt_prop prop get_prop lookup_prop String.eqb Ascii.eqb Bool.eqb].
      rewrite Htr, Htc. cbn [negb orb andb].
      unfold _readFile, lift. rewrite Hread. reflexivity.
  - intros content buffer res rest Hc Htc Hct Hb Hr w'.
    assert (truthy feed = true) as Htf
        by (rewrite <- Hc in Htc; destruct feed; try reflexivity; discriminate Htc).
    destruct w as [c rs t]. cbn [this remote trace] in *. subst rs.
    unfold upload. cbv [bind lift execute emit answer ret]. rewrite Hd, Htf, Hc, Htc, Hct.
    cbn [negb orb andb]. rewrite Hb. cbn [this remote trace].
    unfold _validateUpOrDownloadSuccess. split.
    + intros ->. reflexivity.
    + intros Hs. apply Z.eqb_neq in Hs. rewrite Hs. cbn [negb].
      destruct (xml_parse (body res)) as [parsed|e|];
        [destruct (truthy parsed && truthy (opt_prop parsed "Error")) |..];
        eexists; reflexivity.
Qed.

End Feeds.

Section Streams.
Variable iconv_decode : bytes -> value -> string + value.
Variable xml_parse : string -> outcome value.

(** X22: A streamed download returns a stream only for an answer of status 200,
    and then without reading it: the answer itself, or its pipe through
    gunzip when the document is compressed and [unzip] is not turned off.
    For every other status the stream is read to its end in order to fail
    with what it says. *)
Theorem streamed_download_returns_on_200 (_getStreamChunks : Response -> outcome (list bytes))
  (details options : value) (res : Response) (rest : list (outcome Response)) (w : World) :
  _validateDocumentDetails details = Ok tt ->
  remote w = Ok res :: rest ->
  let w' := {| this := this w; remote := rest; trace := trace w |} in
  (statusCode res = 200%Z ->
   downloadStream iconv_decode xml_parse _getStreamChunks details options w
   = (Ok (if truthy (opt_prop details "compressionAlgorithm")
             && truthy (get_prop "unzip" (download_options options))
          then Gunzipped res else Incoming res), w'))
  /\ (statusCode res <> 200%Z ->
      forall s, fst (downloadStream iconv_decode xml_parse _getStreamChunks
                       details options w) <> Ok s)
  /\ (lookup_prop "unzip" (own_props options) = None ->
      get_prop "unzip" (download_options options) = VBool true).
Proof.
  intros Hd Hr w'. destruct w as [c rs t]. cbn [this remote trace] in *. subst rs.
  split; [| split].
  - intros Hs. unfold downloadStream. cbv [bind lift answer ret]. rewrite Hd.
    cbn [remote]. rewrite Hs. reflexivity.
  - intros Hs s. apply Z.eqb_neq in Hs.
    unfold downloadStream. cbv [bind lift answer ret]. rewrite Hd.
    cbn [remote]. rewrite Hs. cbn [negb].
    destruct (_getStreamChunks res) as [streamChunks|e|]; try discriminate.
    destruct (_decodeBuffer _ _ _ _) as [text|e|]; try discriminate.
    unfold _validateUpOrDownloadSuccess. cbn [statusCode with_body]. rewrite Hs. cbn [negb].
    destruct (xml_parse _) as [parsed|e|];
      [destruct (truthy parsed && truthy (opt_prop parsed "Error")) |..]; discriminate.
  - intros Hu. unfold download_options, get_prop.
    now rewrite lookup_assign_props_target.
Qed.

End Streams.

(** A description with no [url] is refused, and nothing is taken from the
    remote side. *)
Lemma invalid_document_is_refused_first_witness :
  exists e,
    download (H := Json.runtime) Fixtures.no_gunzip Fixtures.no_decode Fixtures.no_parse
      Fixtures.no_parse Fixtures.accept_write
      (VObj [("reportDocumentId", VStr "DOC-1")]) VUndefined
      (Fixtures.world Fixtures.fresh_client [Ok Fixtures.compressed_answer])
    = (Throw e, Fixtures.world Fixtures.fresh_client [Ok Fixtures.compressed_answer])
    /\ code_of e = VStr "DOCUMENT_INFORMATION_MISSING".
Proof.
  destruct (invalid_document_is_refused_first (H := Json.runtime) Fixtures.no_gunzip
              Fixtures.no_decode Fixtures.no_parse Fixtures.no_parse Fixtures.accept_write
              Fixtures.no_file Fixtures.as_given Fixtures.unreadable
              (VObj [("reportDocumentId", VStr "DOC-1")]) VUndefined VUndefined
              (Fixtures.world Fixtures.fresh_client [Ok Fixtures.compressed_answer]))
    as (Hmissing & _ & Hfirst).
  destruct (Hmissing eq_refl) as (e & He & Hcode).
  exists e. split; [exact (proj1 (Hfirst e He)) | exact Hcode].
Defined.

(** The document store refuses the request for a document that is to be
    saved: the download fails, and nothing is written. *)
Lemma failed_download_writes_nothing_witness :
  exists e,
    fst (download (H := Json.runtime) Fixtures.no_gunzip Fixtures.no_decode Fixtures.no_parse
           Fixtures.no_parse Fixtures.accept_write Fixtures.compressed_document
           (VObj [("file", VStr "/tmp/report.gz")])
           (Fixtures.world Fixtures.fresh_client [Ok Fixtures.refused]))
    = Throw e
    /\ code_of e = VStr "DOWNLOAD_ERROR"
    /\ written (trace (snd (download (H := Json.runtime) Fixtures.no_gunzip
                              Fixtures.no_decode Fixtures.no_parse Fixtures.no_parse
                              Fixtures.accept_write Fixtures.compressed_document
                              (VObj [("file", VStr "/tmp/report.gz")])
                              (Fixtures.world Fixtures.fresh_client [Ok Fixtures.refused]))))
       = [].
Proof.
  destruct (failed_download_writes_nothing (H := Json.runtime) Fixtures.no_gunzip
              Fixtures.no_decode Fixtures.no_parse Fixtures.no_parse Fixtures.accept_write
              Fixtures.compressed_document (VObj [("file", VStr "/tmp/report.gz")])
              Fixtures.refused []
              (Fixtures.world Fixtures.fresh_client [Ok Fixtures.refused])
              eq_refl eq_refl) as (e & E & _ & _ & Hxml); [discriminate |].
  exists e. rewrite E. split; [reflexivity |]. split; [| reflexivity].
  rewrite Hxml; [reflexivity | discriminate].
Defined.

(** The compressed document of the fixtures, kept as it is and saved: what
    is returned is what is returned without the file. *)
Lemma saved_download_returns_the_same_witness :
  fst (download (H := Json.runtime) Fixtures.no_gunzip Fixtures.no_decode Fixtures.no_parse
         Fixtures.no_parse Fixtures.accept_write Fixtures.compressed_document
         (VObj [("unzip", VBool false); ("file", VStr "/tmp/report.gz")])
         (Fixtures.world Fixtures.fresh_client [Ok Fixtures.compressed_answer]))
  = fst (download (H := Json.runtime) Fixtures.no_gunzip Fixtures.no_decode Fixtures.no_parse
           Fixtures.no_parse Fixtures.accept_write Fixtures.compressed_document
           (VObj [("unzip", VBool false)])
           (Fixtures.world Fixtures.fresh_client [Ok Fixtures.compressed_answer])).
Proof.
  change [("unzip", VBool false); ("file", VStr "/tmp/report.gz")]
    with ([("unzip", VBool false)] ++ [("file", VStr "/tmp/report.gz")]).
  rewrite (saved_download_returns_the_same (H := Json.runtime) Fixtures.no_gunzip
             Fixtures.no_decode Fixtures.no_parse Fixtures.no_parse Fixtures.accept_write
             Fixtures.compressed_document (VStr "/tmp/report.gz")
             [("unzip", VBool false)]
             (Fixtures.world Fixtures.fresh_client [Ok Fixtures.compressed_answer])
             eq_refl eq_refl).
  vm_compute. reflexivity.
Defined.

(** The feed of the fixtures, uploaded and stored: no file is looked for. *)
Lemma upload_takes_content_first_witness :
  fst (upload Fixtures.no_parse Fixtures.no_file Fixtures.as_given
         Fixtures.compressed_document Fixtures.feed
         (Fixtures.world Fixtures.fresh_client [Ok Fixtures.stored]))
  = Ok (VObj [("success", VBool true)]).
Proof.
  destruct (upload_takes_content_first Fixtures.no_parse Fixtures.as_given Fixtures.no_file
              Fixtures.compressed_document Fixtures.feed
              (Fixtures.world Fixtures.fresh_client [Ok Fixtures.stored]) eq_refl)
    as (_ & _ & _ & _ & Hsent).
  destruct (Hsent (VStr "sku;price") (VStr "sku;price") Fixtures.stored []
              eq_refl eq_refl eq_refl eq_refl eq_refl) as [Hok _].
  rewrite (Hok eq_refl). reflexivity.
Defined.

(** The compressed document of the fixtures, streamed with the default
    options: the answer is piped through gunzip, unread. *)
Lemma streamed_download_returns_on_200_witness :
  fst (downloadStream Fixtures.no_decode Fixtures.no_parse Fixtures.unreadable
         Fixtures.compressed_document VUndefined
         (Fixtures.world Fixtures.fresh_client [Ok Fixtures.compressed_answer]))
  = Ok (Gunzipped Fixtures.compressed_answer).
Proof.
  destruct (streamed_download_returns_on_200 Fixtures.no_decode Fixtures.no_parse
              Fixtures.unreadable Fixtures.compressed_document VUndefined
              Fixtures.compressed_answer []
              (Fixtures.world Fixtures.fresh_client [Ok Fixtures.compressed_answer])
              eq_refl eq_refl) as [Hok _].
  rewrite (Hok eq_refl). reflexivity.
Defined.

(** ** The charset of a document *)

Lemma append_assoc (x y z : string) : (x +:+ y) +:+ z = x +:+ (y +:+ z).
Proof.
  induction x as [|c x IH]; [reflexivity |].
  change ((String c x +:+ y) +:+ z) with (String c ((x +:+ y) +:+ z)).
  now rewrite IH.
Qed.

Lemma length_append (x y : string) :
  String.length (x +:+ y) = String.length x + String.length y.
Proof.
  induction x as [|c x IH]; [reflexivity |].
  change (String c x +:+ y) with (String c (x +:+ y)). cbn [String.length]. now rewrite IH.
Qed.

Lemma starts_with_app (p x y : string) :
  String.length p <= String.length x -> starts_with p (x +:+ y) = starts_with p x.
Proof.
  revert x. induction p as [|a p IH]; intros x Hl; [now destruct x |].
  destruct x as [|b x]; [cbn in Hl; lia |].
  cbn [starts_with]. change (String b x +:+ y) with (String b (x +:+ y)).
  cbn [starts_with]. rewrite IH; [reflexivity | cbn in Hl; lia].
Qed.

Lemma until_semicolon_stops (cs tail : string) :
  includes ";" cs = false ->
  tail = EmptyString \/ (exists t, tail = ";" +:+ t) ->
  until_semicolon (cs +:+ tail) = cs.
Proof.
  intros Hc Ht. induction cs as [|c cs IH].
  - destruct Ht as [-> | [t ->]]; reflexivity.
  - change (String c cs +:+ tail) with (String c (cs +:+ tail)).
    cbn [includes starts_with] in Hc. cbn [until_semicolon].
    destruct (Ascii.eqb ";" c) eqn:E; [discriminate |]. cbn [andb orb] in Hc.
    assert ((code c =? 59)%Z = false) as ->.
    { apply Z.eqb_neq. intros Hcode. apply Ascii.eqb_neq in E. apply E.
      unfold code in Hcode. change 59%Z with (Z.of_nat 59) in Hcode.
      apply Nat2Z.inj in Hcode.
      rewrite <- (ascii_nat_embedding c), Hcode. reflexivity. }
    now rewrite IH.
Qed.

(** The charset that a content type names: what stands after its first
    [charset=], up to the next semicolon. *)
Lemma match_charset_found (pre cs tail : string) :
  includes "charset=" (pre +:+ "charset") = false ->
  includes ";" cs = false ->
  tail = EmptyString \/ (exists t, tail = ";" +:+ t) ->
  match_charset (pre +:+ "charset=" +:+ cs +:+ tail) = Some cs.
Proof.
  intros Hp Hc Ht. induction pre as [|c pre IH].
  - replace (match_charset ("" +:+ "charset=" +:+ cs +:+ tail))
      with (Some (until_semicolon (cs +:+ tail))) by reflexivity.
    now rewrite until_semicolon_stops.
  - change (String c pre +:+ "charset") with (String c (pre +:+ "charset")) in Hp.
    cbn [includes] in Hp. apply orb_false_elim in Hp as [Hs Hi].
    change (String c pre +:+ "charset=" +:+ cs +:+ tail)
      with (String c (pre +:+ "charset=" +:+ cs +:+ tail)).
    cbn [match_charset].
    assert (starts_with "charset=" (String c (pre +:+ "charset=" +:+ cs +:+ tail)) = false)
      as ->.
    { change (String c (pre +:+ "charset=" +:+ cs +:+ tail))
        with (String c pre +:+ ("charset=" +:+ cs +:+ tail)).
      change ("charset=" +:+ cs +:+ tail) with ("charset" +:+ ("=" +:+ cs +:+ tail)).
      rewrite <- append_assoc. rewrite starts_with_app; [exact Hs |].
      rewrite length_append. cbn. lia. }
    exact (IH Hi).
Qed.

Section DefaultDownload.
Context `{Runtime}.
Variable gunzip : bytes -> outcome bytes.
Variable iconv_decode : bytes -> value -> string + value.
Variable xml_parse csv_fromString : string -> outcome value.
Variable fs_writeFile : value -> content -> outcome unit.

(** X23: With no options a download returns text: the bytes of the answer,
    through gunzip when the document is compressed, decoded with the
    charset that the content type of the answer names after [charset=] (up
    to the next semicolon) and with [utf8] when it names none. Nothing is
    parsed and nothing is written. *)
Theorem documents_are_decoded_by_default (details options : value) (res : Response)
  (rest : list (outcome Response)) (w : World) :
  _validateDocumentDetails details = Ok tt ->
  remote w = Ok res :: rest ->
  statusCode res = 200%Z ->
  own_props options = [] ->
  let decoded plain charset :=
    match iconv_decode plain charset with
    | inl text => Ok text
    | inr message => Throw (custom_error "DECODE_ERROR" message)
    end in
  download gunzip iconv_decode xml_parse csv_fromString fs_writeFile details options w
  = (obind (if truthy (opt_prop details "compressionAlgorithm")
            then gunzip (Buffer_concat (chunks res))
            else Ok (Buffer_concat (chunks res)))
       (fun plain =>
          obind (_decodeBuffer iconv_decode plain (headers res) VUndefined)
            (fun text => Ok (Data (VStr text)))),
     {| this := this w; remote := rest;
        trace := trace w ++ [Execute (VObj [("url", opt_prop details "url");
                                            ("timeouts", VUndefined)])] |})
  /\ (forall plain hs pre cs tail,
        headers res = Some hs ->
        assoc "content-type" hs = Some (pre +:+ "charset=" +:+ cs +:+ tail) ->
        includes "charset=" (pre +:+ "charset") = false ->
        includes ";" cs = false ->
        tail = EmptyString \/ (exists t, tail = ";" +:+ t) ->
        cs <> EmptyString ->
        _decodeBuffer iconv_decode plain (headers res) VUndefined
        = decoded plain (VStr cs))
  /\ (forall plain,
        headers res = None
        \/ (exists hs, headers res = Some hs /\ assoc "content-type" hs = None) ->
        _decodeBuffer iconv_decode plain (headers res) VUndefined
        = decoded plain (VStr "utf8")).
Proof.
  intros Hd Hr Hs Ho decoded. split; [| split].
  - destruct w as [c rs t]. cbn [this remote trace] in *. subst rs.
    unfold download, download_options. rewrite Ho.
    cbv [bind lift execute emit answer assign_props fold_left]. rewrite Hd.
    cbn [this remote trace]. unfold _validateUpOrDownloadSuccess. rewrite Hs.
    cbn [Z.eqb Pos.eqb negb get_prop lookup_prop String.eqb Ascii.eqb Bool.eqb truthy].
    rewrite andb_true_r, orb_true_r. unfold _unzip, lift, ret, when.
    destruct (truthy (opt_prop details "compressionAlgorithm")).
    + destruct (gunzip _) as [plain|e|]; try reflexivity. cbn [obind].
      destruct (_decodeBuffer _ _ _ _) as [text|e|]; reflexivity.
    + cbn [obind]. destruct (_decodeBuffer _ _ _ _) as [text|e|]; reflexivity.
  - intros plain hs pre cs tail Hh Hct Hpre Hcs Htail Hne.
    unfold _decodeBuffer. rewrite Hh. cbn [truthy negb]. unfold content_type.
    rewrite Hct, (match_charset_found pre cs tail Hpre Hcs Htail).
    apply String.eqb_neq in Hne. rewrite Hne. cbn [truthy]. rewrite Hne. reflexivity.
  - intros plain [Hh | (hs & Hh & Hct)]; unfold _decodeBuffer; rewrite Hh.
    + reflexivity.
    + unfold content_type. rewrite Hct. reflexivity.
Qed.

End DefaultDownload.

(** A document in Latin-1, sent as it is: with no options it is decoded with
    the charset of its content type. *)
Lemma documents_are_decoded_by_default_witness :
  fst (download (H := Json.runtime) Fixtures.no_gunzip Fixtures.decode_named
         Fixtures.no_parse Fixtures.no_parse Fixtures.accept_write
         (VObj [("url", VStr "https://d.example/DOC-2")]) VUndefined
         (Fixtures.world Fixtures.fresh_client [Ok Fixtures.compressed_answer]))
  = Ok (Data (VStr "iso-8859-1")).
Proof.
  destruct (documents_are_decoded_by_default (H := Json.runtime) Fixtures.no_gunzip
              Fixtures.decode_named Fixtures.no_parse Fixtures.no_parse
              Fixtures.accept_write
              (VObj [("url", VStr "https://d.example/DOC-2")]) VUndefined
              Fixtures.compressed_answer []
              (Fixtures.world Fixtures.fresh_client [Ok Fixtures.compressed_answer])
              eq_refl eq_refl eq_refl eq_refl) as (Hrun & Hnamed & _).
  rewrite Hrun. cbn [fst truthy opt_prop prop get_prop lookup_prop String.eqb Ascii.eqb
                     Bool.eqb obind].
  rewrite (Hnamed _ [("content-type", "text/plain; charset=iso-8859-1")]
             "text/plain; " "iso-8859-1" "" eq_refl eq_refl eq_refl eq_refl
             (or_introl eq_refl) ltac:(discriminate)).
  reflexivity.
Defined.

(** ** The report poller, for any number of polls *)

(** X24: A job with no [cancel_after] is polled for as long as the report is in
    no final state: after any number of answers that are neither [DONE] nor
    [CANCELLED] nor [FATAL], the [DONE] answer gives the document id, with
    one poll for each answer and one wait of the interval after each answer
    but the last. *)
Theorem polling_goes_on_until_done (debug : bool) (report_id document_id : value)
  (statuses : list string) (rest : list (outcome api_result)) (fuel : nat) :
  Forall (fun s => terminal s = false) statuses ->
  forall (req : list (string * value)) (e : Script.env),
    truthy (get_prop "cancel_after" req) = false ->
    (debug = true -> exists t, prop (get_prop "body" req) "reportType" = Ok t) ->
    Script.answers e = map Script.status statuses ++ Script.done document_id :: rest ->
    exists req' e',
      Script.poll debug (S (List.length statuses) + fuel) report_id (req, e)
      = (Ok document_id, (req', e'))
      /\ Script.slept e'
         = Script.slept e ++ repeat (Script.interval_of req) (List.length statuses)
      /\ Script.calls e'
         = Script.calls e
           ++ repeat (Script.get_report report_id (Script.options_of req))
                (S (List.length statuses))
      /\ Script.answers e' = rest.
Proof.
  induction 1 as [|s statuses Hs _ IH]; intros req e Hc Hd Ha.
  - cbn [map app List.length repeat Nat.add] in *.
    rewrite (poll_done debug fuel report_id document_id req e rest Ha).
    eexists _, _. split; [reflexivity |].
    cbn [Script.slept Script.calls Script.answers]. now rewrite app_nil_r.
  - cbn [map app List.length] in *.
    destruct (poll_waits debug (S (List.length statuses) + fuel) report_id req e s _
                Ha Hs Hd (or_introl Hc)) as [log E].
    set (req1 := set_prop "tries" (VNum (ToNumber (get_prop "tries" req) + 1)%float) req) in *.
    match type of E with _ = Script.poll _ _ _ (_, ?e1) =>
      destruct (IH req1 e1) as (req' & e' & E' & Hslept & Hcalls & Hrest) end.
    + subst req1. now rewrite get_prop_set_other by discriminate.
    + subst req1. now rewrite get_prop_set_other by discriminate.
    + reflexivity.
    + exists req', e'.
      change (S (S (List.length statuses)) + fuel)
        with (S (S (List.length statuses) + fuel)).
      rewrite E, E'. split; [reflexivity |].
      cbn [Script.slept Script.calls Script.answers] in *.
      unfold req1 in Hslept, Hcalls. rewrite options_of_tries in Hcalls.
      rewrite interval_of_tries in Hslept.
      rewrite Hslept, Hcalls, <- !app_assoc. repeat split; try reflexivity; assumption.
Qed.

Lemma polling_goes_on_until_done_witness :
  exists req' e',
    Script.poll false 5 (VStr "ID323")
      (Fixtures.report_job,
       Fixtures.script [Script.status "IN_QUEUE"; Script.status "IN_PROGRESS";
                        Script.status "IN_PROGRESS"; Script.status "IN_PROGRESS";
                        Script.done (VStr "DOC-1")])
    = (Ok (VStr "DOC-1"), (req', e'))
    /\ Script.slept e' = [VNum 8; VNum 8; VNum 8; VNum 8].
Proof.
  destruct (polling_goes_on_until_done false (VStr "ID323") (VStr "DOC-1")
              ["IN_QUEUE"; "IN_PROGRESS"; "IN_PROGRESS"; "IN_PROGRESS"] [] 0
              ltac:(repeat constructor)
              Fixtures.report_job
              (Fixtures.script [Script.status "IN_QUEUE"; Script.status "IN_PROGRESS";
                                Script.status "IN_PROGRESS"; Script.status "IN_PROGRESS";
                                Script.done (VStr "DOC-1")])
              eq_refl ltac:(discriminate) eq_refl)
    as (req' & e' & E & Hslept & _).
  exists req', e'. split; [exact E |]. rewrite Hslept. vm_compute. reflexivity.
Defined.

(** X25: A report that ends [CANCELLED] or [FATAL] is not fetched: the download
    of a report fails after the creation and one poll, with an error whose
    code is [REPORT_PROCESSING_] followed by the status, with the tries
    reset to zero and nothing else asked of the API. *)
Theorem failed_report_is_not_fetched (debug : bool) (fuel : nat) (s : string)
  (created : api_result) (report_id : value) (req : list (string * value))
  (e : Script.env) (rest : list (outcome api_result)) :
  s = "CANCELLED" \/ s = "FATAL" ->
  result_prop created "reportId" = Ok report_id ->
  Script.answers e = Ok created :: Script.status s :: rest ->
  let job := set_prop "tries" (VNum 0) req in
  exists err,
    Script.download_report debug (S fuel) (req, e)
    = (Throw err,
       (job,
        {| Script.answers := rest;
           Script.calls :=
             Script.calls e
             ++ [VObj [("operation", VStr "reports.createReport");
                       ("body", get_prop "body" req);
                       ("options", Script.options_of req)];
                 Script.get_report report_id (Script.options_of req)];
           Script.slept := Script.slept e;
           Script.logged := Script.logged e |}))
    /\ err = custom_error ("REPORT_PROCESSING_" +:+ s)
               (VStr "Something went wrong while processing the report.")
    /\ code_of err = VStr ("REPORT_PROCESSING_" +:+ s)
    /\ message_of err = VStr "Something went wrong while processing the report.".
Proof.
  intros Hs Hid Ha job.
  unfold Script.download_report, downloadReport.
  unfold pbind at 1. unfold set_param at 1. cbn [fst snd]. fold job.
  unfold pbind at 1.
  assert (_createReport Script.callAPI (job, e)
          = (Ok report_id,
             (job, {| Script.answers := Script.status s :: rest;
                      Script.calls :=
                        Script.calls e
                        ++ [VObj [("operation", VStr "reports.createReport");
                                  ("body", get_prop "body" req);
                                  ("options", Script.options_of req)]];
                      Script.slept := Script.slept e;
                      Script.logged := Script.logged e |}))) as ->.
  { unfold _createReport.
    cbv [pbind report_options param on_env Script.callAPI pret plift fst snd].
    rewrite Ha. unfold job.
    rewrite !get_prop_set_other by discriminate. now rewrite Hid. }
  unfold pbind at 1.
  fold (Script.poll debug (S fuel) report_id).
  erewrite poll_fails by (try exact Hs; reflexivity).
  cbn [Script.answers Script.calls Script.slept Script.logged].
  unfold job. rewrite options_of_tries, <- app_assoc.
  eexists. split; [reflexivity |].
  rewrite code_of_custom_error, message_of_custom_error. now repeat split.
Qed.

Lemma failed_report_is_not_fetched_witness :
  exists err,
    fst (Script.download_report false 1
           (Fixtures.report_job,
            Fixtures.script [Ok (Plain (VObj [("reportId", VStr "ID323")]));
                             Script.status "FATAL"]))
    = Throw err
    /\ code_of err = VStr "REPORT_PROCESSING_FATAL"
    /\ message_of err = VStr "Something went wrong while processing the report.".
Proof.
  destruct (failed_report_is_not_fetched false 0 "FATAL"
              (Plain (VObj [("reportId", VStr "ID323")])) (VStr "ID323")
              Fixtures.report_job
              (Fixtures.script [Ok (Plain (VObj [("reportId", VStr "ID323")]));
                                Script.status "FATAL"]) []
              (or_intror eq_refl) eq_refl eq_refl) as (err & E & _ & Hcode & Hmessage).
  exists err. rewrite E. split; [reflexivity |]. split; [exact Hcode | exact Hmessage].
Defined.

(** X26: A report that is [DONE] at the first poll is fetched and handed to the
    download with the [download] options of the request, or with no options
    when the request has none: three calls of the API, each with the
    version of the request when it has one, and no wait. *)
Theorem done_report_is_downloaded (debug : bool) (fuel : nat)
  (created document : api_result) (report_id document_id : value)
  (req : list (string * value)) (e : Script.env) (rest : list (outcome api_result)) :
  result_prop created "reportId" = Ok report_id ->
  Script.answers e = Ok created :: Script.done document_id :: Ok document :: rest ->
  let job := set_prop "tries" (VNum 0) req in
  Script.download_report debug (S fuel) (req, e)
  = (Ok (document, logical_or (get_prop "download" req) (VObj [])),
     (job,
      {| Script.answers := rest;
         Script.calls :=
           Script.calls e
           ++ [VObj [("operation", VStr "reports.createReport");
                     ("body", get_prop "body" req);
                     ("options", Script.options_of req)];
               Script.get_report report_id (Script.options_of req);
               VObj [("operation", VStr "reports.getReportDocument");
                     ("path", VObj [("reportDocumentId", document_id)]);
                     ("options", Script.options_of req)]];
         Script.slept := Script.slept e;
         Script.logged := Script.logged e |})).
Proof.
  intros Hid Ha job.
  unfold Script.download_report, downloadReport.
  unfold pbind at 1. unfold set_param at 1. cbn [fst snd]. fold job.
  unfold pbind at 1.
  assert (_createReport Script.callAPI (job, e)
          = (Ok report_id,
             (job, {| Script.answers := Script.done document_id :: Ok document :: rest;
                      Script.calls :=
                        Script.calls e
                        ++ [VObj [("operation", VStr "reports.createReport");
                                  ("body", get_prop "body" req);
                                  ("options", Script.options_of req)]];
                      Script.slept := Script.slept e;
                      Script.logged := Script.logged e |}))) as ->.
  { unfold _createReport.
    cbv [pbind report_options param on_env Script.callAPI pret plift fst snd].
    rewrite Ha. unfold job.
    rewrite !get_prop_set_other by discriminate. now rewrite Hid. }
  unfold pbind at 1.
  fold (Script.poll debug (S fuel) report_id).
  erewrite poll_done by reflexivity.
  cbn [Script.answers Script.calls Script.slept Script.logged].
  unfold _getReportDocument.
  cbv [pbind report_options param on_env Script.callAPI Script.download pret plift fst snd].
  cbn [Script.answers Script.calls Script.slept Script.logged].
  unfold job. rewrite !get_prop_set_other by discriminate.
  rewrite options_of_tries, <- !app_assoc. reflexivity.
Qed.

Lemma done_report_is_downloaded_witness :
  fst (Script.download_report false 1
         (set_prop "download" (VObj [("json", VBool true)]) Fixtures.report_job,
          Fixtures.script [Ok (Plain (VObj [("reportId", VStr "ID323")]));
                           Script.done (VStr "DOC-1");
                           Ok (Plain (VObj [("url", VStr "https://d.example/DOC-1")]))]))
  = Ok (Plain (VObj [("url", VStr "https://d.example/DOC-1")]),
        VObj [("json", VBool true)]).
Proof.
  rewrite (done_report_is_downloaded false 0
             (Plain (VObj [("reportId", VStr "ID323")]))
             (Plain (VObj [("url", VStr "https://d.example/DOC-1")]))
             (VStr "ID323") (VStr "DOC-1")
             (set_prop "download" (VObj [("json", VBool true)]) Fixtures.report_job)
             (Fixtures.script [Ok (Plain (VObj [("reportId", VStr "ID323")]));
                               Script.done (VStr "DOC-1");
                               Ok (Plain (VObj [("url", VStr "https://d.example/DOC-1")]))])
             [] eq_refl eq_refl).
  reflexivity.
Defined.

(** X27: When the cancellation of a report fails, the poller fails as the
    cancellation did, and not with [REPORT_PROCESSING_CANCELLED_MANUALLY]:
    the try is counted, the cancellation is asked for once, and nothing is
    slept. *)
Theorem failed_cancellation_is_reported (debug : bool) (fuel : nat) (report_id : value)
  (req : list (string * value)) (e : Script.env) (s : string) (failure : error)
  (rest : list (outcome api_result)) :
  Script.answers e = Script.status s :: Throw failure :: rest ->
  terminal s = false ->
  (debug = true -> exists t, prop (get_prop "body" req) "reportType" = Ok t) ->
  truthy (get_prop "cancel_after" req) = true ->
  PrimFloat.ltb (ToNumber (get_prop "tries" req) + 1)%float
                (ToNumber (get_prop "cancel_after" req)) = false ->
  exists log,
    Script.poll debug (S fuel) report_id (req, e)
    = (Throw failure,
       (set_prop "tries" (VNum (ToNumber (get_prop "tries" req) + 1)%float) req,
        {| Script.answers := rest;
           Script.calls := Script.calls e
                           ++ [Script.get_report report_id (Script.options_of req);
                               Script.cancel_report report_id (Script.options_of req)];
           Script.slept := Script.slept e;
           Script.logged := Script.logged e ++ log |})).
Proof.
  intros Ha Hs Hd Hc Hl. destruct (not_terminal s Hs) as (H1 & H2 & H3).
  assert (negb (truthy (get_prop "cancel_after" req))
          || PrimFloat.ltb (ToNumber (VNum (ToNumber (get_prop "tries" req) + 1)%float))
                           (ToNumber (get_prop "cancel_after" req)) = false) as Hstop.
  { rewrite Hc. cbn [ToNumber negb orb]. exact Hl. }
  unfold Script.poll. cbn [_getReport].
  cbv [pbind report_options param on_env Script.callAPI pret plift set_param fst snd].
  rewrite Ha. unfold Script.status. cbn [result_prop].
  change (prop (VObj [("reportId", VStr "ID323"); ("processingStatus", VStr s)])
               "processingStatus") with (Ok (VStr s)).
  cbv [is_str]. rewrite H1, H2, H3. cbn [orb].
  rewrite !get_prop_set_same.
  destruct debug; cbv beta iota zeta.
  - rewrite !get_prop_set_other by discriminate.
    destruct (Hd eq_refl) as [t Ht]. rewrite Ht.
    cbv [Script.console_log]. cbv beta iota zeta.
    rewrite !get_prop_set_other by discriminate. rewrite Hstop.
    cbv [_cancelReport pbind report_options param on_env Script.callAPI pret pthrow fst snd].
    cbn [Script.answers Script.calls Script.slept Script.logged].
    rewrite !get_prop_set_other by discriminate.
    rewrite <- app_assoc. eexists [_]. reflexivity.
  - rewrite !get_prop_set_other by discriminate. rewrite Hstop.
    cbv [_cancelReport pbind report_options param on_env Script.callAPI pret pthrow fst snd].
    cbn [Script.answers Script.calls Script.slept Script.logged].
    rewrite !get_prop_set_other by discriminate.
    rewrite <- app_assoc. exists []. rewrite app_nil_r. reflexivity.
Qed.

Lemma failed_cancellation_is_reported_witness :
  fst (Script.poll false 1 (VStr "ID323")
         (Fixtures.impatient_job,
          Fixtures.script [Script.status "IN_QUEUE"; Throw TypeError]))
  = Throw TypeError.
Proof.
  destruct (failed_cancellation_is_reported false 0 (VStr "ID323") Fixtures.impatient_job
              (Fixtures.script [Script.status "IN_QUEUE"; Throw TypeError])
              "IN_QUEUE" TypeError [] eq_refl eq_refl ltac:(discriminate) eq_refl eq_refl)
    as [log E].
  rewrite E. reflexivity.
Defined.

(** ** The operation table *)

Lemma extend_fields (req_params method api_path restore_rate : value) (b : built) :
  extend req_params [("method", method); ("api_path", api_path);
                     ("restore_rate", restore_rate)] = Ok b ->
  exists o, returned b = VObj o
            /\ get_prop "method" o = method
            /\ get_prop "api_path" o = api_path
            /\ get_prop "restore_rate" o = restore_rate
            /\ (forall k, k <> "method" -> k <> "api_path" -> k <> "restore_rate" ->
                          get_prop k o = opt_prop req_params k).
Proof.
  unfold extend. destruct req_params as [| | | | | |o0]; try discriminate.
  intros [= <-]. eexists. split; [reflexivity |].
  unfold get_prop.
  rewrite !lookup_set_prop_other by discriminate. rewrite !lookup_set_prop_same.
  rewrite lookup_set_prop_other by discriminate. rewrite lookup_set_prop_same.
  repeat split. intros k H1 H2 H3.
  now rewrite !lookup_set_prop_other by congruence.
Qed.

(** X28: Every operation of the table builds a request by raw path: what the
    builder returns has a path, a method that passes the validation as it
    is, and a restore rate that is a number other than zero, and beside
    these it has the properties of the request parameters it was given
    (for the two operations on a shipment, as [checkAndEncodeParams]
    returns them). The table has the five operations and no other. *)
Theorem operations_build_raw_requests (checkAndEncodeParams : value -> value -> outcome value)
  (operation : string) (f : builder) (req_params : value) (b : built) :
  v0 checkAndEncodeParams !! operation = Some f ->
  f req_params = Ok b ->
  In operation ["getEligibleShipmentServices"; "getShipment"; "cancelShipment";
                "createShipment"; "getAdditionalSellerInputs"]
  /\ (forall name,
        In name ["getEligibleShipmentServices"; "getShipment"; "cancelShipment";
                 "createShipment"; "getAdditionalSellerInputs"] ->
        exists g, v0 checkAndEncodeParams !! name = Some g)
  /\ exists o base,
       returned b = VObj o
       /\ truthy (get_prop "api_path" o) = true
       /\ _validateMethod (get_prop "method" o) = Ok (get_prop "method" o)
       /\ truthy (get_prop "restore_rate" o) && negb (isNaN (get_prop "restore_rate" o))
          = true
       /\ (base = req_params \/ checkAndEncodeParams req_params shipmentId_spec = Ok base)
       /\ (forall k, k <> "method" -> k <> "api_path" -> k <> "restore_rate" ->
                     get_prop k o = opt_prop base k).
Proof.
  intros Hf Hb.
  assert (forall name,
            In name ["getEligibleShipmentServices"; "getShipment"; "cancelShipment";
                     "createShipment"; "getAdditionalSellerInputs"] ->
            exists g, v0 checkAndEncodeParams !! name = Some g) as Hall.
  { intros name Hin. cbn [In] in Hin.
    destruct Hin as [<- | [<- | [<- | [<- | [<- | []]]]]]; eexists; reflexivity. }
  unfold v0 in Hf.
  repeat (apply lookup_insert_Some in Hf as [[<- <-] | [_ Hf]]);
    [| | | | | now rewrite lookup_empty in Hf].
  - split; [cbn; tauto |]. split; [exact Hall |].
    destruct (extend_fields _ _ _ _ _ Hb) as (o & Hr & Hm & Hp & Hrr & Hk).
    exists o, req_params. rewrite Hm, Hp, Hrr. repeat split; auto.
  - split; [cbn; tauto |]. split; [exact Hall |]. unfold getShipment in Hb.
    destruct (checkAndEncodeParams req_params shipmentId_spec) as [base|e|] eqn:Hc;
      try discriminate. cbn [obind] in Hb.
    unfold shipment_path in Hb.
    destruct (prop base "path") as [path|e|]; try discriminate. cbn [obind] in Hb.
    destruct (prop path "shipmentId") as [id|e|]; try discriminate. cbn [obind] in Hb.
    destruct (extend_fields _ _ _ _ _ Hb) as (o & Hr & Hm & Hp & Hrr & Hk).
    exists o, base. rewrite Hm, Hp, Hrr. repeat split; auto.
  - split; [cbn; tauto |]. split; [exact Hall |]. unfold cancelShipment in Hb.
    destruct (checkAndEncodeParams req_params shipmentId_spec) as [base|e|] eqn:Hc;
      try discriminate. cbn [obind] in Hb.
    unfold shipment_path in Hb.
    destruct (prop base "path") as [path|e|]; try discriminate. cbn [obind] in Hb.
    destruct (prop path "shipmentId") as [id|e|]; try discriminate. cbn [obind] in Hb.
    destruct (extend_fields _ _ _ _ _ Hb) as (o & Hr & Hm & Hp & Hrr & Hk).
    exists o, base. rewrite Hm, Hp, Hrr. repeat split; auto.
  - split; [cbn; tauto |]. split; [exact Hall |].
    destruct (extend_fields _ _ _ _ _ Hb) as (o & Hr & Hm & Hp & Hrr & Hk).
    exists o, req_params. rewrite Hm, Hp, Hrr. repeat split; auto.
  - split; [cbn; tauto |]. split; [exact Hall |].
    destruct (extend_fields _ _ _ _ _ Hb) as (o & Hr & Hm & Hp & Hrr & Hk).
    exists o, req_params. rewrite Hm, Hp, Hrr. repeat split; auto.
Qed.

(** The request for a shipment: its path ends with the id of the shipment,
    and the parameters of the caller are kept. *)
Lemma operations_build_raw_requests_witness :
  exists b,
    getShipment Fixtures.no_encoding
      (VObj [("operation", VStr "merchantFulfillment.getShipment");
             ("path", VObj [("shipmentId", VStr "FBA123")])])
    = Ok b
    /\ opt_prop (returned b) "api_path" = VStr "/mfn/v0/shipments/FBA123"
    /\ opt_prop (returned b) "operation" = VStr "merchantFulfillment.getShipment".
Proof.
  destruct (getShipment Fixtures.no_encoding
              (VObj [("operation", VStr "merchantFulfillment.getShipment");
                     ("path", VObj [("shipmentId", VStr "FBA123")])]))
    as [b|e|] eqn:Hb; [| vm_compute in Hb; discriminate ..].
  exists b. split; [reflexivity |].
  destruct (operations_build_raw_requests Fixtures.no_encoding "getShipment" _ _ b
              eq_refl Hb) as (_ & _ & o & base & Hr & _ & _ & _ & [-> | Hbase] & Hk).
  - rewrite Hr. cbn [opt_prop prop]. split; [| apply Hk; discriminate].
    vm_compute in Hb. injection Hb as <-. vm_compute in Hr. injection Hr as <-.
    reflexivity.
  - vm_compute in Hbase. injection Hbase as <-.
    rewrite Hr. cbn [opt_prop prop]. split; [| apply Hk; discriminate].
    vm_compute in Hb. injection Hb as <-. vm_compute in Hr. injection Hr as <-.
    reflexivity.
Defined.

(** ** Errors of the client *)

Section CopyLoop.
(** The step of the loop over the keys of [err]. *)
Variable copy_key : list (string * value) -> string * value -> list (string * value).
Hypothesis copy_key_step : forall this kv,
  copy_key this kv
  = if String.eqb (fst kv) "stacktrace"
    then set_prop "original_stacktrace" (snd kv) this
    else set_prop (fst kv) (snd kv) this.

Lemma copied_lookup (k : string) (err acc : list (string * value)) :
  k <> "stacktrace" -> k <> "original_stacktrace" ->
  List.NoDup (map fst err) ->
  lookup_prop k (fold_left copy_key err acc)
  = match lookup_prop k err with
    | Some v => Some v
    | None => lookup_prop k acc
    end.
Proof.
  intros H1 H2. revert acc. induction err as [|[k' v'] err IH]; intros acc Hnd; [reflexivity |].
  inversion Hnd as [|? ? Hnotin Hnd']; subst. cbn [fold_left lookup_prop].
  rewrite (IH _ Hnd'), copy_key_step. cbn [fst snd].
  destruct (String.eqb k' k) eqn:E.
  - apply String.eqb_eq in E. subst k'.
    rewrite (lookup_prop_not_in k err Hnotin).
    apply String.eqb_neq in H1. rewrite H1.
    apply lookup_set_prop_same.
  - destruct (lookup_prop k err); [reflexivity |].
    apply String.eqb_neq in E.
    destruct (String.eqb k' "stacktrace"); apply lookup_set_prop_other; congruence.
Qed.

Lemma copied_no_stacktrace (err acc : list (string * value)) :
  lookup_prop "stacktrace" (fold_left copy_key err acc) = lookup_prop "stacktrace" acc.
Proof.
  revert acc. induction err as [|[k' v'] err IH]; intros acc; [reflexivity |].
  cbn [fold_left]. rewrite IH, copy_key_step. cbn [fst snd].
  destruct (String.eqb k' "stacktrace") eqn:E.
  - now apply lookup_set_prop_other.
  - apply lookup_set_prop_other. now apply String.eqb_neq.
Qed.

Lemma copied_original_kept (err acc : list (string * value)) :
  lookup_prop "stacktrace" err = None ->
  lookup_prop "original_stacktrace" err = None ->
  lookup_prop "original_stacktrace" (fold_left copy_key err acc)
  = lookup_prop "original_stacktrace" acc.
Proof.
  revert acc. induction err as [|[k' v'] err IH]; intros acc Hs Ho; [reflexivity |].
  cbn [fold_left lookup_prop] in *.
  destruct (String.eqb k' "stacktrace") eqn:E1; [discriminate |].
  destruct (String.eqb k' "original_stacktrace") eqn:E2; [discriminate |].
  rewrite (IH _ Hs Ho), copy_key_step. cbn [fst snd]. rewrite E1.
  apply lookup_set_prop_other. now apply String.eqb_neq.
Qed.

Lemma copied_original (v : value) (err acc : list (string * value)) :
  List.NoDup (map fst err) ->
  lookup_prop "stacktrace" err = Some v ->
  lookup_prop "original_stacktrace" err = None ->
  lookup_prop "original_stacktrace" (fold_left copy_key err acc) = Some v.
Proof.
  revert acc. induction err as [|[k' v'] err IH]; intros acc Hnd Hs Ho; [discriminate |].
  inversion Hnd as [|? ? Hnotin Hnd']; subst.
  cbn [fold_left lookup_prop] in *.
  destruct (String.eqb k' "stacktrace") eqn:E1.
  - injection Hs as ->. apply String.eqb_eq in E1. subst k'.
    cbn [String.eqb Ascii.eqb Bool.eqb] in Ho.
    rewrite copied_original_kept; [| now apply lookup_prop_not_in | exact Ho].
    rewrite copy_key_step. cbn [fst snd String.eqb Ascii.eqb Bool.eqb].
    apply lookup_set_prop_same.
  - destruct (String.eqb k' "original_stacktrace") eqn:E2; [discriminate |].
    now apply IH.
Qed.

End CopyLoop.

(** X29: What an error of the client carries, made from an object with
    distinct property names: every property of the object under its own
    name, except that [stacktrace] is carried as [original_stacktrace] and
    never under its own name, and a [type] that is the one of the object
    when that is truthy and ['error'] otherwise. *)
Theorem custom_error_carries_the_properties (err props : list (string * value)) :
  List.NoDup (map fst err) ->
  CustomError_new err = CustomError props ->
  get_prop "type" props = logical_or (get_prop "type" err) (VStr "error")
  /\ (forall k, k <> "stacktrace" -> k <> "original_stacktrace" -> k <> "type" ->
                lookup_prop k props = lookup_prop k err)
  /\ lookup_prop "stacktrace" props = None
  /\ (forall v, lookup_prop "stacktrace" err = Some v ->
                lookup_prop "original_stacktrace" err = None ->
                lookup_prop "original_stacktrace" props = Some v)
  /\ (lookup_prop "code" err = None -> code_of (CustomError_new err) = VUndefined).
Proof.
  intros Hnd. unfold CustomError_new. intros [= <-].
  split; [apply get_prop_set_same |]. split; [| split; [| split]].
  - intros k H1 H2 H3. rewrite lookup_set_prop_other by congruence.
    rewrite (copied_lookup _ (fun _ _ => eq_refl) k err [] H1 H2 Hnd).
    now destruct (lookup_prop k err).
  - rewrite lookup_set_prop_other by discriminate.
    apply (copied_no_stacktrace _ (fun _ _ => eq_refl)).
  - intros v Hs Ho. rewrite lookup_set_prop_other by discriminate.
    now apply (copied_original _ (fun _ _ => eq_refl)).
  - intros Hc. cbn [code_of]. unfold get_prop.
    rewrite lookup_set_prop_other by discriminate.
    rewrite (copied_lookup _ (fun _ _ => eq_refl) "code" err [])
      by (discriminate || assumption).
    now rewrite Hc.
Qed.

(** An error of the remote side with a stack trace of its own. *)
Lemma custom_error_carries_the_properties_witness :
  exists props,
    CustomError_new [("code", VStr "ETIMEDOUT"); ("stacktrace", VStr "at request");
                     ("type", VStr "timeout")]
    = CustomError props
    /\ lookup_prop "original_stacktrace" props = Some (VStr "at request")
    /\ lookup_prop "stacktrace" props = None
    /\ get_prop "type" props = VStr "timeout".
Proof.
  eexists. split; [reflexivity |].
  destruct (custom_error_carries_the_properties
              [("code", VStr "ETIMEDOUT"); ("stacktrace", VStr "at request");
               ("type", VStr "timeout")] _
              ltac:(repeat constructor; cbn; intuition discriminate) eq_refl)
    as (Htype & _ & Hnone & Horiginal & _).
  split; [exact (Horiginal _ eq_refl eq_refl) |]. split; [exact Hnone | exact Htype].
Defined.
